(** * inside_finance_bot: the conversation machine of [main.py]

    A shallow embedding of the Telegram finance bot of [src/main.py]:
    the amount parser, the gateway to the Google Apps Script backend
    ([gas_request]), the handlers of the conversation and the table of
    [build_app] that routes an update to a handler.

    Conventions of the embedding.
    - A Python [str] is a Rocq [string] holding its UTF-8 encoding; the
      functions of Python that look at code points ([strip], [lower],
      the class [\s]) decode it first.
    - A Python [float] is a binary64 number of [SpecFloat]
      ([prec = 53], [emax = 1024]).
    - A [dict] with keys chosen at run time ([tx], a request payload) is
      a [gmap string value]; [context.user_data], whose keys are fixed
      by the program, is a record with one optional field per key.
    - A handler is a computation in a state and exception monad: what a
      handler wrote before it raised stays written. *)

From Stdlib Require Import ZArith QArith.QArith_base QArith.Qreduction.
From Stdlib Require Import Floats.SpecFloat Ascii String.
From stdpp Require Import base option list strings pretty gmap.

Local Open Scope string_scope.
Local Open Scope Z_scope.

(** ** Python strings *)

Module PyStr.

(** The bytes of a string, as numbers. *)
Fixpoint bytes (s : string) : list Z :=
  match s with
  | EmptyString => []
  | String a s' => Z.of_N (Ascii.N_of_ascii a) :: bytes s'
  end.

Definition is_cont (b : Z) : bool := (128 <=? b) && (b <? 192).

(** One character of the decoded string: its code point and the bytes
    that encode it. A byte that is no well-formed UTF-8 is kept as the
    lone surrogate [0xDC00 + b], the way Python's [surrogateescape]
    does; a Python [str] that came from Telegram has none. *)
Record char := Char { cp : Z; enc : string }.

Fixpoint chars (s : string) : list char :=
  match s with
  | EmptyString => []
  | String a0 s0 =>
      let b0 := Z.of_N (Ascii.N_of_ascii a0) in
      let lone := Char (56320 + b0) (String a0 EmptyString) in
      if b0 <? 128 then Char b0 (String a0 EmptyString) :: chars s0
      else
        match s0 with
        | String a1 s1 =>
            let b1 := Z.of_N (Ascii.N_of_ascii a1) in
            if (192 <=? b0) && (b0 <? 224) then
              if is_cont b1
              then Char ((b0 - 192) * 64 + (b1 - 128))
                        (String a0 (String a1 EmptyString)) :: chars s1
              else lone :: chars s0
            else
              match s1 with
              | String a2 s2 =>
                  let b2 := Z.of_N (Ascii.N_of_ascii a2) in
                  if (224 <=? b0) && (b0 <? 240) then
                    if is_cont b1 && is_cont b2
                    then Char ((b0 - 224) * 4096 + (b1 - 128) * 64 + (b2 - 128))
                              (String a0 (String a1 (String a2 EmptyString)))
                           :: chars s2
                    else lone :: chars s0
                  else
                    match s2 with
                    | String a3 s3 =>
                        let b3 := Z.of_N (Ascii.N_of_ascii a3) in
                        if (240 <=? b0) && (b0 <? 248)
                           && is_cont b1 && is_cont b2 && is_cont b3
                        then Char ((b0 - 240) * 262144 + (b1 - 128) * 4096
                                   + (b2 - 128) * 64 + (b3 - 128))
                                  (String a0 (String a1 (String a2 (String a3 EmptyString))))
                               :: chars s3
                        else lone :: chars s0
                    | EmptyString => lone :: chars s0
                    end
              | EmptyString => lone :: chars s0
              end
        | EmptyString => [lone]
        end
  end.

Definition codepoints (s : string) : list Z := cp <$> chars s.

Fixpoint unchars (l : list char) : string :=
  match l with
  | [] => EmptyString
  | c :: l' => enc c +:+ unchars l'
  end.

(** [Py_UNICODE_ISSPACE]: the characters [str.strip()] removes and the
    class [\s] of [re] matches in a [str] pattern. *)
Definition is_space (c : Z) : bool :=
  ((9 <=? c) && (c <=? 13)) || ((28 <=? c) && (c <=? 32))
  || (c =? 133) || (c =? 160) || (c =? 5760)
  || ((8192 <=? c) && (c <=? 8202))
  || (c =? 8232) || (c =? 8233) || (c =? 8239) || (c =? 8287)
  || (c =? 12288).

Fixpoint lstrip_chars (l : list char) : list char :=
  match l with
  | c :: l' => if is_space (cp c) then lstrip_chars l' else l
  | [] => []
  end.

Definition strip_chars (l : list char) : list char :=
  reverse (lstrip_chars (reverse (lstrip_chars l))).

(** [s.strip()] *)
Definition strip (s : string) : string := unchars (strip_chars (chars s)).

(** [str.lower()] on one code point, for the Latin capitals, the
    Cyrillic capitals and the Kelvin sign. [parse_amount] is its only
    user: the other code points that Python lowers are letters that
    do not lower to [k] or [к] and that the last filter of
    [parse_amount] deletes whether lowered or not. *)
Definition lower_cp (c : Z) : Z :=
  if (65 <=? c) && (c <=? 90) then c + 32
  else if (1040 <=? c) && (c <=? 1071) then c + 32
  else if (1024 <=? c) && (c <=? 1039) then c + 80
  else if c =? 8490 then 107
  else c.

(** [prefix] is a prefix of [s]: what is left of [s] after it. *)
Fixpoint strip_prefix (prefix s : string) : option string :=
  match prefix, s with
  | EmptyString, _ => Some s
  | String a p', String b s' =>
      if Ascii.eqb a b then strip_prefix p' s' else None
  | String _ _, EmptyString => None
  end.

Definition startswith (prefix s : string) : bool :=
  bool_decide (is_Some (strip_prefix prefix s)).

(** [s.split(":")]: the pieces of [s] between the colons. *)
Fixpoint split_colon_aux (acc : string) (s : string) : list string :=
  match s with
  | EmptyString => [String.rev acc]
  | String a s' =>
      if Ascii.eqb a ":"%char then String.rev acc :: split_colon_aux EmptyString s'
      else split_colon_aux (String a acc) s'
  end.

Definition split_colon (s : string) : list string := split_colon_aux EmptyString s.

End PyStr.

(** ** Python floats *)

Module PyFloat.

Definition prec : Z := 53.
Definition emax : Z := 1024.

Definition mul : spec_float -> spec_float -> spec_float := SFmul prec emax.
Definition ltb : spec_float -> spec_float -> bool := SFltb.

Definition zero : spec_float := S754_zero false.
Definition inf : spec_float := S754_infinity false.

(** The double nearest to [n / 10^k], signed: what [strtod] makes of a
    decimal numeral with the digits [n] and [k] of them after the
    point. The quotient is rounded once, to nearest, ties to even;
    past the largest double it is an infinity. *)
Definition of_decimal (neg : bool) (n : Z) (k : nat) : spec_float :=
  match n with
  | Zpos p =>
      SFdiv prec emax (S754_finite neg p 0)
                      (S754_finite false (Z.to_pos (10 ^ Z.of_nat k)) 0)
  | _ => S754_zero neg
  end.

Definition of_Z (n : Z) : spec_float := of_decimal (n <? 0) (Z.abs n) 0.

(** [x] rounded to a whole number, ties to even, for [x = num / den]. *)
Definition round_half_even (num den : Z) : Z :=
  let q := num / den in
  let r := num mod den in
  match 2 * r ?= den with
  | Lt => q
  | Gt => q + 1
  | Eq => if Z.even q then q else q + 1
  end.

(** The hundredths of [m * 2^e], rounded to a whole number. *)
Definition cents (m : positive) (e : Z) : Z :=
  match e with
  | Zneg d => round_half_even (100 * Zpos m) (2 ^ Zpos d)
  | _ => 100 * Zpos m * 2 ^ e
  end.

(** [round(x, 2)] of CPython ([float.__round__] with [ndigits = 2]):
    a nan, an infinity or a zero rounds to itself; a finite [x] is
    written in decimal with two digits after the point, correctly
    rounded, and read back by [strtod]. [None] is the [OverflowError]
    raised when what is read back is not finite. *)
Definition round2 (x : spec_float) : option spec_float :=
  match x with
  | S754_finite s m e =>
      match of_decimal s (cents m e) 2 with
      | S754_infinity _ => None
      | r => Some r
      end
  | _ => Some x
  end.

Definition is_digit (c : Z) : bool := (48 <=? c) && (c <=? 57).

(** The number written by a list of decimal digits. *)
Definition digits_val (ds : list Z) : Z :=
  foldl (fun acc d => 10 * acc + (d - 48)) 0 ds.

Fixpoint span_digits (s : list Z) : list Z * list Z :=
  match s with
  | c :: s' =>
      if is_digit c then let '(ds, r) := span_digits s' in (c :: ds, r)
      else ([], s)
  | [] => ([], [])
  end.

(** [float(s)] for a string of digits, points and minus signs, which
    is all [parse_amount] passes to it: an optional minus sign, then
    digits with at most one point among them and one digit at least.
    [None] is the [ValueError] of any other string. *)
Definition of_string (s : list Z) : option spec_float :=
  let '(neg, body) :=
    match s with
    | c :: r => if c =? 45 then (true, r) else (false, s)
    | [] => (false, s)
    end in
  let '(ip, rest) := span_digits body in
  match rest with
  | [] => if bool_decide (ip = []) then None
          else Some (of_decimal neg (digits_val ip) 0)
  | c :: fp =>
      if (c =? 46) && forallb is_digit fp
         && negb (bool_decide (ip = []) && bool_decide (fp = []))
      then Some (of_decimal neg (digits_val (ip ++ fp)%list) (length fp))
      else None
  end.

(** The exact value of a finite double, as a reduced fraction. *)
Definition to_Q (x : spec_float) : option Q :=
  match x with
  | S754_zero _ => Some (Qmake 0 1)
  | S754_finite s m e =>
      let n := if s then Zneg m else Zpos m in
      Some (Qred (match e with
                  | Zneg d => Qmake n (2 ^ d)%positive
                  | _ => Qmake (n * 2 ^ e) 1
                  end))
  | _ => None
  end.

Definition is_finite (x : spec_float) : bool :=
  match x with
  | S754_zero _ | S754_finite _ _ _ => true
  | _ => false
  end.

End PyFloat.

(** ** Amount parsing *)

Section AmountParsing.
Import PyStr PyFloat.

Definition COMMA : Z := 44.
Definition DOT : Z := 46.

(** [s.rfind(c)] *)
Fixpoint rfind_from (c : Z) (s : list Z) (i acc : Z) : Z :=
  match s with
  | x :: s' => rfind_from c s' (i + 1) (if x =? c then i else acc)
  | [] => acc
  end.

Definition rfind (c : Z) (s : list Z) : Z := rfind_from c s 0 (-1).

Definition endswith (c : Z) (s : list Z) : bool :=
  match last s with
  | Some x => x =? c
  | None => false
  end.

(** [re.sub(r"[.,]", "", s)] *)
Definition drop_separators (s : list Z) : list Z :=
  filter (fun c => c ≠ DOT ∧ c ≠ COMMA) s.

(** [re.sub(r"[^0-9.\-]", "", s)] *)
Definition keep_numeric (s : list Z) : list Z :=
  filter (fun c => is_digit c = true ∨ c = DOT ∨ c = 45) s.

Definition parse_amount (text : string) : option spec_float :=
  if bool_decide (text = "") then None
  else
    let s0 : list Z := lower_cp <$> codepoints (strip text) in
    let s := filter (fun c => is_space c = false) s0 in
    let '(mult, s) :=
      if endswith 1082 s || endswith 107 s
      then (of_Z 1000, removelast s)
      else (of_Z 1, s) in
    let has_comma := bool_decide (COMMA ∈ s) in
    let has_dot := bool_decide (DOT ∈ s) in
    let s :=
      if has_comma && has_dot then
        let last_comma := rfind COMMA s in
        let last_dot := rfind DOT s in
        let dec_pos := Z.to_nat (Z.max last_comma last_dot) in
        let int_part := drop_separators (take dec_pos s) in
        let frac_part := drop_separators (drop (S dec_pos) s) in
        (int_part ++ DOT :: frac_part)%list
      else if has_comma && negb has_dot then
        (fun c => if c =? COMMA then DOT else c) <$> s
      else s in
    let s := keep_numeric s in
    match of_string s with
    | Some f =>
        let val := mul f mult in
        if ltb val zero then None
        else round2 val
    | None => None
    end.

End AmountParsing.

(** ** The backend, the transport and the state of a handler *)

(** A value of a [dict] the bot builds: [None], a string, a float or an
    integer. *)
Inductive value :=
  | VNone
  | VStr (s : string)
  | VFloat (f : spec_float)
  | VInt (n : Z).

Global Instance spec_float_eq_dec : EqDecision spec_float.
Proof. solve_decision. Defined.

Global Instance value_eq_dec : EqDecision value.
Proof. solve_decision. Defined.

(** The ["data"] object of a backend answer. The handlers read three of
    its members, lists of strings (["expenses"], ["incomes"],
    ["payment_types"]); what else it holds is only rendered, and is kept
    as the unread [body]. *)
Record data := Data { lists : gmap string (list string); body : string }.

(** What comes back from one HTTP request: nothing within the timeout of
    12 seconds (or a transport failure), a body that is not JSON, a
    JSON value that is no object (a list, a string, a number, a
    boolean or [null], none of which has a [get]), or a JSON object
    seen through [data.get("ok")] (its truth value),
    [data.get("error")] and [data["data"]]. *)
Inductive response :=
  | NoResponse
  | NotJson (txt : string)
  | NotAnObject
  | Json (ok : bool) (error : option string) (payload : option data).

Inductive exn :=
  | RuntimeError (msg : string)
  | TimeoutError
  | KeyError (key : string)
  | IndexError
  | ValueError
  | TypeError
  | AttributeError
  | UnboundLocalError
  | NameError (name : string).

Inductive result (A : Type) :=
  | Ok (a : A)
  | Raise (e : exn).
Arguments Ok {A} a.
Arguments Raise {A} e.

(** One button of an inline keyboard: its label and its [callback_data]. *)
Record button := Button { label : string; callback_data : string }.
Definition keyboard := list (list button).

(** The texts the bot shows. The fixed ones carry their name, the ones
    rendered from backend data carry that data: rendering is pure
    formatting and is taken to be total, as the backend's payloads are
    taken to be well formed. *)
Inductive text :=
  | Lit (s : string)
  | MainScreenOwner (s txs : data)
  | MainScreenEmployee (txs : data)
  | ErrorText (e : exn)                         (* f"Ошибка: {e}" *)
  | SavedText (header : string) (tx : gmap string value)
  | BalancesText (balances : data)
  | AmountPrompt                                (* "Сколько? ..." *)
  | AmountNotUnderstood (examples : string)     (* "Не понял сумму ..." *)
  | AnalysisTypePrompt (period : string)
  | AnalysisReport (atype period : string) (res : data)
  | SpecialReport (kind : string) (res : data)
  | BalancePrompt (payment_type : string)
  | BalanceSet (payment_type : string) (amt : spec_float)
  | DebtsText (debt_type : string) (debts : data)
  | DebtsPrompt (debt_type : string)
  | DebtsSet (debt_type : string) (amt : spec_float)
  | HelpText.

(** The calls a handler makes on the transport. Each is taken to
    succeed; the handlers swallow the failures of the deletions and of
    the edits of [amount_received] themselves. *)
Inductive action :=
  | reply_text (t : text) (kb : option keyboard)
  | answer (notice : option string) (show_alert : bool)
  | edit_message_text (message_id : Z) (t : text) (kb : option keyboard)
  | send_message (message_id : Z) (t : text) (kb : option keyboard)
  | delete_message (message_id : Z).

(** [context.user_data]. A key that is missing and a key that holds
    [None] are read alike by every [get] of the program, and are both
    [None] here. *)
Record user_data := UserData {
  ud_tx : option (gmap string value);
  ud_categories : option data;
  ud_working_message_id : option Z;
  ud_analysis_period : option string;
  ud_balance_payment_type : option string;
  ud_debt_type : option string;
}.

Definition no_user_data : user_data := UserData None None None None None None.

(** What is outside the sessions: the requests sent to the backend so
    far, each as the JSON body posted (oldest first), the calls made on
    the transport with the chat they went to, the identifier the next
    message of the bot gets, and the number of random draws made. *)
Record world := World {
  calls : list (gmap string value);
  outbox : list (Z * action);
  next_message_id : Z;
  draws : nat;
}.

(** The state and exception monad of the handlers. *)
Definition M (A : Type) : Type := user_data * world -> user_data * world * result A.

Global Instance M_ret : MRet M := fun A a s => (s, Ok a).
Global Instance M_bind : MBind M := fun A B f m s =>
  match m s with
  | (s', Ok a) => f a s'
  | (s', Raise e) => (s', Raise e)
  end.

Definition raise {A} (e : exn) : M A := fun s => (s, Raise e).

(** [try: m except Exception as e: h e] *)
Definition try_except {A} (m : M A) (h : exn -> M A) : M A := fun s =>
  match m s with
  | (s', Ok a) => (s', Ok a)
  | (s', Raise e) => h e s'
  end.

Definition get_user_data : M user_data := fun s => (s, Ok s.1).
Definition set_user_data (f : user_data -> user_data) : M unit :=
  fun s => ((f s.1, s.2), Ok tt).

Definition set_tx (t : gmap string value) (ud : user_data) : user_data :=
  UserData (Some t) (ud_categories ud) (ud_working_message_id ud)
           (ud_analysis_period ud) (ud_balance_payment_type ud) (ud_debt_type ud).
Definition set_categories (c : data) (ud : user_data) : user_data :=
  UserData (ud_tx ud) (Some c) (ud_working_message_id ud)
           (ud_analysis_period ud) (ud_balance_payment_type ud) (ud_debt_type ud).
Definition set_working_message_id (i : option Z) (ud : user_data) : user_data :=
  UserData (ud_tx ud) (ud_categories ud) i
           (ud_analysis_period ud) (ud_balance_payment_type ud) (ud_debt_type ud).
Definition set_analysis_period (p : string) (ud : user_data) : user_data :=
  UserData (ud_tx ud) (ud_categories ud) (ud_working_message_id ud)
           (Some p) (ud_balance_payment_type ud) (ud_debt_type ud).
Definition set_balance_payment_type (p : string) (ud : user_data) : user_data :=
  UserData (ud_tx ud) (ud_categories ud) (ud_working_message_id ud)
           (ud_analysis_period ud) (Some p) (ud_debt_type ud).
Definition set_debt_type (d : string) (ud : user_data) : user_data :=
  UserData (ud_tx ud) (ud_categories ud) (ud_working_message_id ud)
           (ud_analysis_period ud) (ud_balance_payment_type ud) (Some d).

(** [tx = context.user_data.get("tx", {})] *)
Definition get_tx : M (gmap string value) :=
  ud ← get_user_data; mret (default ∅ (ud_tx ud)).

(** A call on the transport, in the chat [chat]. *)
Definition emit (chat : Z) (a : action) : M unit := fun s =>
  let w := s.2 in
  ((s.1, World (calls w) (outbox w ++ [(chat, a)]) (next_message_id w) (draws w)), Ok tt).

(** [msg = await chat.send_message(...)]: the message gets a fresh
    identifier, which is returned. *)
Definition send (chat : Z) (t : text) (kb : option keyboard) : M Z := fun s =>
  let w := s.2 in
  let i := next_message_id w in
  ((s.1, World (calls w) (outbox w ++ [(chat, send_message i t kb)]) (i + 1) (draws w)),
   Ok i).

(** ** Phrases and conversation states *)

Definition PH_SAVED_INCOME : list string :=
  ["Отлично! ✅ Записал поступление."; "Есть! ✅ Зафиксировал."; "Принял ✅"; "Готово ✅"].

Definition PH_SAVED_EXPENSE : list string :=
  ["Записал ✅"; "Готово ✅"; "Зафиксировал ✅"; "Есть ✅"; "Принял ✅"].

Definition DENY_TEXT : string := "Извини, доступ закрыт 🙂".

Definition NL : string := String (Ascii.ascii_of_nat 10) EmptyString.
Definition ANALYSIS_PROMPT : string := "📊 Анализ" +:+ NL +:+ NL +:+ "Выбери период:".

(** The wire names of the two kinds of transaction: [expense] is
    ["расход"], [income] is ["доход"]. *)
Definition EXPENSE : string := "расход".
Definition INCOME : string := "доход".

(** The states of the conversation: the fourteen names bound by the
    tuple assignment of [main.py], [range(14)] in this order. *)
Inductive state :=
  | ST_MENU
  | ST_ADD_CHOOSE_TYPE
  | ST_EXP_CATEGORY
  | ST_EXP_PAYMENT_TYPE
  | ST_AMOUNT
  | ST_COMMENT
  | ST_INC_CATEGORY
  | ST_ANALYSIS_PERIOD
  | ST_ANALYSIS_TYPE
  | ST_SPECIAL_REPORTS
  | ST_BALANCE_CHOOSE_TYPE
  | ST_BALANCE_EDIT
  | ST_DEBTS_CHOOSE_TYPE
  | ST_DEBTS_EDIT.

Global Instance state_eq_dec : EqDecision state.
Proof. solve_decision. Defined.

(** The global names of the states, as the tuple assignment binds
    them. *)
Definition state_names : list (string * state) :=
  [ ("ST_MENU", ST_MENU);
    ("ST_ADD_CHOOSE_TYPE", ST_ADD_CHOOSE_TYPE);
    ("ST_EXP_CATEGORY", ST_EXP_CATEGORY);
    ("ST_EXP_PAYMENT_TYPE", ST_EXP_PAYMENT_TYPE);
    ("ST_AMOUNT", ST_AMOUNT);
    ("ST_COMMENT", ST_COMMENT);
    ("ST_INC_CATEGORY", ST_INC_CATEGORY);
    ("ST_ANALYSIS_PERIOD", ST_ANALYSIS_PERIOD);
    ("ST_ANALYSIS_TYPE", ST_ANALYSIS_TYPE);
    ("ST_SPECIAL_REPORTS", ST_SPECIAL_REPORTS);
    ("ST_BALANCE_CHOOSE_TYPE", ST_BALANCE_CHOOSE_TYPE);
    ("ST_BALANCE_EDIT", ST_BALANCE_EDIT);
    ("ST_DEBTS_CHOOSE_TYPE", ST_DEBTS_CHOOSE_TYPE);
    ("ST_DEBTS_EDIT", ST_DEBTS_EDIT) ].

(** The value of a name of a state, where the program text uses one:
    a name that no assignment binds raises [NameError]. The text uses
    one such name, [ST_PAYMENT_TYPE]: [amount_received] returns it and
    the table of [build_app] has it as a key (the tuple binds
    [ST_EXP_PAYMENT_TYPE], which nothing uses). *)
Fixpoint lookup_name (names : list (string * state)) (name : string) : result state :=
  match names with
  | (n, st) :: names' => if String.eqb n name then Ok st else lookup_name names' name
  | [] => Raise (NameError name)
  end.

Definition state_named (name : string) : result state := lookup_name state_names name.

(** What a handler returns to the [ConversationHandler]: a state,
    [ConversationHandler.END], or [None] (the state stays). *)
Inductive next :=
  | Goto (st : state)
  | END
  | NoChange.

(** ** Keyboards *)

Definition BACK : string := "⬅️ Назад".

Definition kb_main_owner : keyboard :=
  [ [Button "➕ Внести транзакцию" "menu:add"];
    [Button "📊 Анализ" "menu:analysis"];
    [Button "💰 Сверить баланс" "menu:balance"];
    [Button "💳 Долги" "menu:debts"] ].

Definition kb_main_employee : keyboard :=
  [ [Button "➕ Внести транзакцию" "menu:add"] ].

Definition kb_choose_type : keyboard :=
  [ [Button "➖ Затраты" "type:expense"];
    [Button "➕ Доход" "type:income"];
    [Button BACK "back:menu"] ].

Fixpoint expense_rows (i : nat) (cs : list string) : keyboard :=
  match cs with
  | c1 :: c2 :: cs' =>
      [Button c1 ("expcat:" +:+ pretty i); Button c2 ("expcat:" +:+ pretty (S i))]
        :: expense_rows (S (S i)) cs'
  | [c1] => [[Button c1 ("expcat:" +:+ pretty i)]]
  | [] => []
  end.

Definition kb_expense_categories (cs : list string) : keyboard :=
  (expense_rows 0 cs ++ [[Button BACK "back:choose_type"]])%list.

Definition kb_income_categories (cs : list string) : keyboard :=
  (imap (fun i c => [Button c ("inccat:" +:+ pretty i)]) cs
     ++ [[Button BACK "back:choose_type"]])%list.

Definition kb_payment_types (ps : list string) : keyboard :=
  imap (fun i p =>
          let emoji := if bool_decide (p = "Наличные") then "💵"
                       else if bool_decide (p = "QR код") then "📱" else "🏢" in
          [Button (emoji +:+ " " +:+ p) ("payment:" +:+ pretty i)]) ps.

Definition kb_skip_comment : keyboard :=
  [ [Button "Пропустить" "comment:skip"] ].

Definition kb_analysis_periods : keyboard :=
  [ [Button "📅 Сегодня" "aperiod:today"];
    [Button "📅 Эта неделя" "aperiod:week"];
    [Button "📅 Этот месяц" "aperiod:month"];
    [Button "📅 Этот год" "aperiod:year"];
    [Button "⚙️ Специальные отчеты" "aperiod:special"];
    [Button BACK "back:menu"] ].

Definition kb_analysis_type : keyboard :=
  [ [Button "💰 Поступления" "atype:income"];
    [Button "💸 Затраты" "atype:expense"];
    [Button BACK "back:analysis_periods"] ].

Definition kb_special_reports : keyboard :=
  [ [Button "📊 Сравнение месяцев" "special:compare"];
    [Button "💰 Средний чек" "special:average"];
    [Button "📋 Топ категорий затрат" "special:top"];
    [Button BACK "back:analysis_periods"] ].

Definition kb_balance_menu : keyboard :=
  [ [Button "💵 Изменить наличные" "balance:cash"];
    [Button "📱 Изменить QR" "balance:qr"];
    [Button "🏢 Изменить БН" "balance:bn"];
    [Button BACK "back:menu"] ].

Definition kb_debts_type : keyboard :=
  [ [Button "💰 Долги передо мной" "debts_type:owe_me"];
    [Button "💳 Мои долги" "debts_type:i_owe"];
    [Button BACK "back:menu"] ].

Definition kb_debts_actions : keyboard :=
  [ [Button "Изменить" "debts:edit"];
    [Button BACK "back:debts_type"] ].

(** ** Updates *)

(** What Telegram delivers: a command ([/name], as the [CommandHandler]
    reads it), the press of an inline button of the message
    [message_id], or a message with a text that is no command. *)
Inductive event :=
  | Command (name : string) (message_id : Z)
  | Callback (query_data : string) (message_id : Z)
  | TextMsg (message_text : string) (message_id : Z).

(** An update of a private chat: the chat is the user's own, so
    [update.effective_chat.id] is [effective_user]. Updates without a
    user are not modelled; the [ConversationHandler] drops them. *)
Record update := Update { effective_user : Z; the_event : event }.

(** [update.callback_query]: its [data] and the identifier of the
    message of its button. On another kind of update it is [None]. *)
Definition callback_query (u : update) : M (string * Z) :=
  match the_event u with
  | Callback d i => mret (d, i)
  | _ => raise AttributeError
  end.

(** [update.message]: its text and its identifier. *)
Definition message (u : update) : M (string * Z) :=
  match the_event u with
  | Command n i => mret ("/" +:+ n, i)
  | TextMsg t i => mret (t, i)
  | Callback _ _ => raise AttributeError
  end.

(** [int(q.data.split(":")[1])] for the second piece of a payload:
    decimal digits, with the line feed that [$] lets a pattern end
    with. On any other string it is a [ValueError]. *)
Definition py_int (s : string) : option Z :=
  let cs := PyStr.bytes s in
  let ds := match last cs with
            | Some 10 => removelast cs
            | _ => cs
            end in
  if bool_decide (ds ≠ []) && forallb PyFloat.is_digit ds
  then Some (PyFloat.digits_val ds) else None.

(** [q.data.split(":")[1]] *)
Definition second_piece (d : string) : M string :=
  match PyStr.split_colon d !! 1%nat with
  | Some p => mret p
  | None => raise IndexError
  end.

Definition index_of (d : string) : M nat :=
  p ← second_piece d;
  match py_int p with
  | Some n => mret (Z.to_nat n)
  | None => raise ValueError
  end.

(** ** The handlers *)

Section Bot.

(** The configuration read from the environment, and the two things
    the program does not decide: what the backend answers to a request
    (given the requests it has seen before) and what [random.choice]
    draws. *)
Variable USER_TG_IDS : list Z.
Variable OWNER_IDS : list Z.
Variable backend : list (gmap string value) -> gmap string value -> response.
Variable choice : nat -> nat.

Definition is_allowed (u : update) : bool :=
  bool_decide (effective_user u ∈ USER_TG_IDS).

Definition is_owner (user_id : Z) : bool :=
  bool_decide (user_id ∈ OWNER_IDS).

(** [random.choice(l)] *)
Definition random_choice (l : list string) : M string := fun s =>
  let w := s.2 in
  ((s.1, World (calls w) (outbox w) (next_message_id w) (S (draws w))),
   Ok (nth (choice (draws w) mod length l) l "")).

(** *** The gateway *)

Definition gas_request (payload : gmap string value) (user_id : Z) : M data := fun s =>
  let payload := <["user_id" := VInt user_id]> payload in
  let w := s.2 in
  let s' := (s.1, World (calls w ++ [payload]) (outbox w) (next_message_id w) (draws w)) in
  match backend (calls w) payload with
  | NoResponse => (s', Raise TimeoutError)
  | NotJson _ => (s', Raise (RuntimeError "GAS вернул не-JSON ответ"))
  | NotAnObject => (s', Raise AttributeError)
  | Json false error _ =>
      (s', Raise (RuntimeError (match error with
                                | Some e => if bool_decide (e = "") then "GAS error" else e
                                | None => "GAS error"
                                end)))
  | Json true _ None => (s', Raise (KeyError "data"))
  | Json true _ (Some d) => (s', Ok d)
  end.

Definition cmd (name : string) : gmap string value := {[ "cmd" := VStr name ]}.

Definition main_screen_text_owner (user_id : Z) : M text :=
  s ← gas_request (cmd "summary_month") user_id;
  txs ← gas_request (<["limit" := VInt 5]> (cmd "get_last_transactions")) user_id;
  mret (MainScreenOwner s txs).

Definition main_screen_text_employee (user_id : Z) : M text :=
  txs ← gas_request (<["limit" := VInt 10]> (cmd "get_last_transactions")) user_id;
  mret (MainScreenEmployee txs).

Definition get_categories (user_id : Z) : M data :=
  gas_request (cmd "get_categories") user_id.

(** The block every handler that shows the Menu repeats: the text and
    the keyboard of the main screen, by role. *)
Definition main_screen (user_id : Z) : M (text * keyboard) :=
  if is_owner user_id
  then txt ← main_screen_text_owner user_id; mret (txt, kb_main_owner)
  else txt ← main_screen_text_employee user_id; mret (txt, kb_main_employee).

(** [if msg_id:] of an identifier that may be [None] or [0]. *)
Definition truthy (i : option Z) : bool :=
  match i with
  | Some n => negb (n =? 0)
  | None => false
  end.

Definition delete_working_message (chat_id : Z) : M unit :=
  ud ← get_user_data;
  _ ← (if truthy (ud_working_message_id ud)
       then emit chat_id (delete_message (default 0 (ud_working_message_id ud)))
       else mret tt);
  set_user_data (set_working_message_id None).

(** [data["key"]] of a member that is a list. *)
Definition member (d : data) (key : string) : M (list string) :=
  match lists d !! key with
  | Some l => mret l
  | None => raise (KeyError key)
  end.

(** [context.user_data.get("categories", {}).get(key, [])] *)
Definition cached (ud : user_data) (key : string) : list string :=
  match ud_categories ud with
  | Some d => default [] (lists d !! key)
  | None => []
  end.

(** [categories[idx]] *)
Definition item (l : list string) (idx : nat) : M string :=
  match l !! idx with
  | Some x => mret x
  | None => raise IndexError
  end.

Definition cmd_start (u : update) : M next :=
  if negb (is_allowed u) then
    _ ← emit (effective_user u) (reply_text (Lit DENY_TEXT) None);
    mret END
  else
    _ ← set_user_data (fun _ => no_user_data);
    let user_id := effective_user u in
    '(txt, kb) ← main_screen user_id;
    _ ← emit user_id (reply_text txt (Some kb));
    mret (Goto ST_MENU).

Definition on_menu (u : update) : M next :=
  if negb (is_allowed u) then
    '(_, mid) ← callback_query u;
    _ ← emit (effective_user u) (answer None false);
    _ ← emit (effective_user u) (edit_message_text mid (Lit DENY_TEXT) None);
    mret END
  else
    '(d, mid) ← callback_query u;
    let user_id := effective_user u in
    _ ← emit user_id (answer None false);
    if bool_decide (d = "menu:add") then
      _ ← emit user_id (edit_message_text mid (Lit "Окей 🙂 Что вносим?") (Some kb_choose_type));
      _ ← set_user_data (set_working_message_id (Some mid));
      mret (Goto ST_ADD_CHOOSE_TYPE)
    else if bool_decide (d = "menu:analysis") then
      if negb (is_owner user_id) then
        _ ← emit user_id (answer (Some "Доступ запрещён") true);
        mret (Goto ST_MENU)
      else
        _ ← emit user_id (edit_message_text mid (Lit ANALYSIS_PROMPT)
                                            (Some kb_analysis_periods));
        _ ← set_user_data (set_working_message_id (Some mid));
        mret (Goto ST_ANALYSIS_PERIOD)
    else if bool_decide (d = "menu:balance") then
      if negb (is_owner user_id) then
        _ ← emit user_id (answer (Some "Доступ запрещён") true);
        mret (Goto ST_MENU)
      else
        balances ← gas_request (cmd "get_all_balances") user_id;
        _ ← emit user_id (edit_message_text mid (BalancesText balances) (Some kb_balance_menu));
        _ ← set_user_data (set_working_message_id (Some mid));
        mret (Goto ST_MENU)
    else if bool_decide (d = "menu:debts") then
      if negb (is_owner user_id) then
        _ ← emit user_id (answer (Some "Доступ запрещён") true);
        mret (Goto ST_MENU)
      else
        _ ← emit user_id (edit_message_text mid (Lit "Какие долги?") (Some kb_debts_type));
        _ ← set_user_data (set_working_message_id (Some mid));
        mret (Goto ST_DEBTS_CHOOSE_TYPE)
    else mret (Goto ST_MENU).

Definition back_router (u : update) : M next :=
  '(d, mid) ← callback_query u;
  let user_id := effective_user u in
  _ ← emit user_id (answer None false);
  if bool_decide (d = "back:menu") then
    _ ← delete_working_message user_id;
    '(txt, kb) ← main_screen user_id;
    _ ← send user_id txt (Some kb);
    mret (Goto ST_MENU)
  else if bool_decide (d = "back:choose_type") then
    _ ← emit user_id (edit_message_text mid (Lit "Окей 🙂 Что вносим?") (Some kb_choose_type));
    mret (Goto ST_ADD_CHOOSE_TYPE)
  else if bool_decide (d = "back:exp_cat") then
    cats ← get_categories user_id;
    exps ← member cats "expenses";
    _ ← emit user_id (edit_message_text mid (Lit "На что потратили? 💪")
                                        (Some (kb_expense_categories exps)));
    mret (Goto ST_EXP_CATEGORY)
  else if bool_decide (d = "back:analysis_periods") then
    _ ← emit user_id (edit_message_text mid (Lit ANALYSIS_PROMPT)
                                        (Some kb_analysis_periods));
    mret (Goto ST_ANALYSIS_PERIOD)
  else if bool_decide (d = "back:analysis_type") then
    ud ← get_user_data;
    let period := default "month" (ud_analysis_period ud) in
    _ ← emit user_id (edit_message_text mid (AnalysisTypePrompt period) (Some kb_analysis_type));
    mret (Goto ST_ANALYSIS_TYPE)
  else if bool_decide (d = "back:debts_type") then
    _ ← emit user_id (edit_message_text mid (Lit "Какие долги?") (Some kb_debts_type));
    mret (Goto ST_DEBTS_CHOOSE_TYPE)
  else mret (Goto ST_MENU).

(** *** Entering a transaction *)

Definition choose_type (u : update) : M next :=
  '(d, mid) ← callback_query u;
  let user_id := effective_user u in
  _ ← emit user_id (answer None false);
  _ ← set_user_data (set_tx ∅);
  cats ← get_categories user_id;
  if bool_decide (d = "type:expense") then
    _ ← set_user_data (set_categories cats);
    exps ← member cats "expenses";
    _ ← emit user_id (edit_message_text mid (Lit "На что потратили? 💪")
                                        (Some (kb_expense_categories exps)));
    mret (Goto ST_EXP_CATEGORY)
  else if bool_decide (d = "type:income") then
    _ ← set_user_data (set_categories cats);
    incs ← member cats "incomes";
    _ ← emit user_id (edit_message_text mid (Lit "Денежки! Откуда? 💰")
                                        (Some (kb_income_categories incs)));
    mret (Goto ST_INC_CATEGORY)
  else mret (Goto ST_ADD_CHOOSE_TYPE).

Definition expense_category (u : update) : M next :=
  '(d, mid) ← callback_query u;
  let user_id := effective_user u in
  _ ← emit user_id (answer None false);
  ud ← get_user_data;
  idx ← index_of d;
  cat ← item (cached ud "expenses") idx;
  t ← get_tx;
  _ ← set_user_data (set_tx (<["category" := VStr cat]> (<["type" := VStr EXPENSE]> t)));
  _ ← emit user_id (edit_message_text mid AmountPrompt None);
  mret (Goto ST_AMOUNT).

Definition income_category (u : update) : M next :=
  '(d, mid) ← callback_query u;
  let user_id := effective_user u in
  _ ← emit user_id (answer None false);
  ud ← get_user_data;
  idx ← index_of d;
  cat ← item (cached ud "incomes") idx;
  t ← get_tx;
  _ ← set_user_data (set_tx (<["payment_type" := VStr cat]>
                             (<["category" := VStr cat]> (<["type" := VStr INCOME]> t))));
  _ ← emit user_id (edit_message_text mid AmountPrompt None);
  mret (Goto ST_AMOUNT).

Definition amount_received (u : update) : M next :=
  if negb (is_allowed u) then
    _ ← emit (effective_user u) (reply_text (Lit DENY_TEXT) None);
    mret END
  else
    '(txt, mid) ← message u;
    let user_id := effective_user u in
    let amt := parse_amount txt in
    _ ← emit user_id (delete_message mid);
    match amt with
    | None =>
        _ ← delete_working_message user_id;
        msg ← send user_id (AmountNotUnderstood "2500 / 2 500 / 2500,50 / 2к") None;
        _ ← set_user_data (set_working_message_id (Some msg));
        mret (Goto ST_AMOUNT)
    | Some a =>
        t ← get_tx;
        let t := <["amount" := VFloat a]> t in
        _ ← set_user_data (set_tx t);
        ud ← get_user_data;
        let work_msg_id := ud_working_message_id ud in
        if bool_decide (t !! "type" = Some (VStr EXPENSE)) then
          let payment_types := cached ud "payment_types" in
          _ ← (if truthy work_msg_id
               then emit user_id (edit_message_text (default 0 work_msg_id)
                                    (Lit "Откуда списываем?")
                                    (Some (kb_payment_types payment_types)))
               else mret tt);
          (* [return ST_PAYMENT_TYPE]: the name is unbound *)
          raise (NameError "ST_PAYMENT_TYPE")
        else
          _ ← (if truthy work_msg_id
               then emit user_id (edit_message_text (default 0 work_msg_id)
                      (Lit (if bool_decide (t !! "category" = Some (VStr "Услуги по БН"))
                            then "Напиши название Юр лица:"
                            else "Напиши ФИО клиента или марку авто:")) None)
               else mret tt);
          mret (Goto ST_COMMENT)
    end.

Definition payment_type_selected (u : update) : M next :=
  '(d, mid) ← callback_query u;
  let user_id := effective_user u in
  _ ← emit user_id (answer None false);
  ud ← get_user_data;
  idx ← index_of d;
  payment_type ← item (cached ud "payment_types") idx;
  t ← get_tx;
  _ ← set_user_data (set_tx (<["payment_type" := VStr payment_type]> t));
  _ ← emit user_id (edit_message_text mid (Lit "Добавишь коммент?") (Some kb_skip_comment));
  mret (Goto ST_COMMENT).

(** [tx.get(key)] as a payload member: [None] when the key is missing. *)
Definition field (t : gmap string value) (key : string) : value :=
  default VNone (t !! key).

Definition add_payload (t : gmap string value) : gmap string value :=
  <["comment" := default (VStr "") (t !! "comment")]>
    (<["payment_type" := field t "payment_type"]>
       (<["amount" := field t "amount"]>
          (<["category" := field t "category"]>
             (<["type" := field t "type"]> (cmd "add"))))).

(** [save_and_finish_]: the request is sent inside [try]; what follows
    it is not. The format [:,.2f] takes a float or an int, raises
    [ValueError] on a string and [TypeError] on [None]; [.strip()] of
    a comment that is not a string raises [AttributeError]. The draft
    is read and never written. *)
Definition save_and_finish_ (u : update) : M unit :=
  let user_id := effective_user u in
  _ ← delete_working_message user_id;
  t ← get_tx;
  failure ← try_except (_ ← gas_request (add_payload t) user_id; mret None)
                       (fun e => mret (Some e));
  match failure with
  | Some e =>
      _ ← send user_id (ErrorText e) None;
      '(txt, kb) ← main_screen user_id;
      _ ← send user_id txt (Some kb);
      mret tt
  | None =>
      header ← random_choice (if bool_decide (t !! "type" = Some (VStr EXPENSE))
                              then PH_SAVED_EXPENSE else PH_SAVED_INCOME);
      _ ← match t !! "amount" with
          | Some (VFloat _) | Some (VInt _) => mret tt
          | Some (VStr _) => raise ValueError
          | Some VNone | None => raise TypeError
          end;
      _ ← match t !! "comment" with
          | Some (VStr _) | None => mret tt
          | Some _ => raise AttributeError
          end;
      _ ← send user_id (SavedText header t) None;
      '(txt, kb) ← main_screen user_id;
      _ ← send user_id txt (Some kb);
      mret tt
  end.

Definition comment_skip (u : update) : M next :=
  '(_, _) ← callback_query u;
  _ ← emit (effective_user u) (answer None false);
  t ← get_tx;
  _ ← set_user_data (set_tx (<["comment" := VStr ""]> t));
  _ ← save_and_finish_ u;
  mret (Goto ST_MENU).

Definition comment_received (u : update) : M next :=
  if negb (is_allowed u) then
    _ ← emit (effective_user u) (reply_text (Lit DENY_TEXT) None);
    mret END
  else
    '(txt, mid) ← message u;
    let user_id := effective_user u in
    _ ← emit user_id (delete_message mid);
    t ← get_tx;
    let comment_text := PyStr.strip txt in
    if bool_decide (t !! "type" = Some (VStr INCOME)) && bool_decide (comment_text = "") then
      _ ← delete_working_message user_id;
      let prompt := if bool_decide (t !! "category" = Some (VStr "Услуги по БН"))
                    then "Название Юр лица обязательно! Напиши:"
                    else "ФИО или марка авто обязательны! Напиши:" in
      msg ← send user_id (Lit prompt) None;
      _ ← set_user_data (set_working_message_id (Some msg));
      mret (Goto ST_COMMENT)
    else
      _ ← set_user_data (set_tx (<["comment" := VStr comment_text]> t));
      _ ← save_and_finish_ u;
      mret (Goto ST_MENU).

(** *** Analysis *)

Definition analysis_period (u : update) : M next :=
  '(d, mid) ← callback_query u;
  let user_id := effective_user u in
  _ ← emit user_id (answer None false);
  if bool_decide (d = "aperiod:special") then
    _ ← emit user_id (edit_message_text mid (Lit "⚙️ Специальные отчеты")
                                        (Some kb_special_reports));
    mret (Goto ST_SPECIAL_REPORTS)
  else
    period ← second_piece d;
    _ ← set_user_data (set_analysis_period period);
    _ ← emit user_id (edit_message_text mid (AnalysisTypePrompt period) (Some kb_analysis_type));
    mret (Goto ST_ANALYSIS_TYPE).

Definition analysis_type (u : update) : M next :=
  '(d, mid) ← callback_query u;
  let user_id := effective_user u in
  _ ← emit user_id (answer None false);
  ud ← get_user_data;
  let period := default "month" (ud_analysis_period ud) in
  atype ← second_piece d;
  _ ← delete_working_message user_id;
  res ← (if bool_decide (atype = "income")
         then gas_request (<["period" := VStr period]> (cmd "analysis_income")) user_id
         else gas_request (<["period" := VStr period]> (cmd "analysis_expense")) user_id);
  _ ← send user_id (AnalysisReport (if bool_decide (atype = "income")
                                    then "income" else "expense") period res) None;
  '(txt, kb) ← main_screen user_id;
  _ ← send user_id txt (Some kb);
  mret (Goto ST_MENU).

Definition special_reports (u : update) : M next :=
  '(d, mid) ← callback_query u;
  let user_id := effective_user u in
  _ ← emit user_id (answer None false);
  _ ← delete_working_message user_id;
  txt ← (if bool_decide (d = "special:compare") then
           res ← gas_request (cmd "compare_months") user_id;
           mret (SpecialReport "compare" res)
         else if bool_decide (d = "special:average") then
           res ← gas_request (cmd "average_check") user_id;
           mret (SpecialReport "average" res)
         else if bool_decide (d = "special:top") then
           res ← gas_request (cmd "top_expenses") user_id;
           mret (SpecialReport "top" res)
         else raise UnboundLocalError);
  _ ← send user_id txt None;
  '(txt, kb) ← main_screen user_id;
  _ ← send user_id txt (Some kb);
  mret (Goto ST_MENU).

(** *** Balance *)

Definition balance_edit_start (u : update) : M next :=
  '(d, mid) ← callback_query u;
  let user_id := effective_user u in
  _ ← emit user_id (answer None false);
  payment_type ← second_piece d;
  _ ← set_user_data (set_balance_payment_type payment_type);
  _ ← emit user_id (edit_message_text mid (BalancePrompt payment_type) None);
  _ ← set_user_data (set_working_message_id (Some mid));
  mret (Goto ST_BALANCE_EDIT).

Definition balance_edit_received (u : update) : M next :=
  if negb (is_allowed u) then
    _ ← emit (effective_user u) (reply_text (Lit DENY_TEXT) None);
    mret END
  else
    '(txt, mid) ← message u;
    let user_id := effective_user u in
    _ ← emit user_id (delete_message mid);
    match parse_amount txt with
    | Some amt =>
        if PyFloat.ltb amt PyFloat.zero then
          _ ← delete_working_message user_id;
          msg ← send user_id (AmountNotUnderstood "50000 / 50 000 / 50к") None;
          _ ← set_user_data (set_working_message_id (Some msg));
          mret (Goto ST_BALANCE_EDIT)
        else
          ud ← get_user_data;
          let payment_type := default "cash" (ud_balance_payment_type ud) in
          _ ← gas_request (<["payment_type" := VStr payment_type]>
                             (<["amount" := VFloat amt]> (cmd "set_balance"))) user_id;
          _ ← delete_working_message user_id;
          _ ← send user_id (BalanceSet payment_type amt) None;
          txt ← main_screen_text_owner user_id;
          _ ← send user_id txt (Some kb_main_owner);
          mret (Goto ST_MENU)
    | None =>
        _ ← delete_working_message user_id;
        msg ← send user_id (AmountNotUnderstood "50000 / 50 000 / 50к") None;
        _ ← set_user_data (set_working_message_id (Some msg));
        mret (Goto ST_BALANCE_EDIT)
    end.

(** *** Debts *)

Definition debts_choose_type (u : update) : M next :=
  '(d, mid) ← callback_query u;
  let user_id := effective_user u in
  _ ← emit user_id (answer None false);
  dt ← second_piece d;
  _ ← set_user_data (set_debt_type dt);
  debts ← gas_request (<["debt_type" := VStr dt]> (cmd "get_debts")) user_id;
  _ ← emit user_id (edit_message_text mid (DebtsText dt debts) (Some kb_debts_actions));
  mret (Goto ST_DEBTS_CHOOSE_TYPE).

Definition debts_edit_start (u : update) : M next :=
  '(d, mid) ← callback_query u;
  let user_id := effective_user u in
  _ ← emit user_id (answer None false);
  ud ← get_user_data;
  let dt := default "i_owe" (ud_debt_type ud) in
  _ ← emit user_id (edit_message_text mid (DebtsPrompt dt) None);
  _ ← set_user_data (set_working_message_id (Some mid));
  mret (Goto ST_DEBTS_EDIT).

Definition debts_edit_received (u : update) : M next :=
  if negb (is_allowed u) then
    _ ← emit (effective_user u) (reply_text (Lit DENY_TEXT) None);
    mret END
  else
    '(txt, mid) ← message u;
    let user_id := effective_user u in
    _ ← emit user_id (delete_message mid);
    match parse_amount txt with
    | Some amt =>
        if PyFloat.ltb amt PyFloat.zero then
          _ ← delete_working_message user_id;
          msg ← send user_id (AmountNotUnderstood "10000 / 10 000 / 10к") None;
          _ ← set_user_data (set_working_message_id (Some msg));
          mret (Goto ST_DEBTS_EDIT)
        else
          ud ← get_user_data;
          let dt := default "i_owe" (ud_debt_type ud) in
          _ ← gas_request (<["debt_type" := VStr dt]>
                             (<["amount" := VFloat amt]> (cmd "set_debts"))) user_id;
          _ ← delete_working_message user_id;
          _ ← send user_id (DebtsSet dt amt) None;
          txt ← main_screen_text_owner user_id;
          _ ← send user_id txt (Some kb_main_owner);
          mret (Goto ST_MENU)
    | None =>
        _ ← delete_working_message user_id;
        msg ← send user_id (AmountNotUnderstood "10000 / 10 000 / 10к") None;
        _ ← set_user_data (set_working_message_id (Some msg));
        mret (Goto ST_DEBTS_EDIT)
    end.

(** *** Help and errors *)

Definition cmd_help (u : update) : M next :=
  if negb (is_allowed u) then
    _ ← emit (effective_user u) (reply_text (Lit DENY_TEXT) None);
    mret NoChange
  else
    _ ← emit (effective_user u) (reply_text HelpText None);
    mret NoChange.

Definition SOMETHING_WENT_WRONG : string := "Ой, что-то пошло не так 🙈 Попробуем ещё раз?".

Definition error_handler (u : update) : M unit :=
  emit (effective_user u) (reply_text (Lit SOMETHING_WENT_WRONG) None).

(** *** The table of [build_app] *)

(** The patterns of the [CallbackQueryHandler]s, matched with
    [re.match]: [^p] ([Prefix]), [^(a|b)$] ([Whole]) and [^p\d+$]
    ([Numbered]). [$] also matches before a last line feed. Of the
    digits of [\d] only the ASCII ones, which are the ones the bot
    writes on its buttons, are modelled. *)
Inductive pattern :=
  | Prefix (p : string)
  | Whole (alternatives : list string)
  | Numbered (p : string).

Definition at_end (rest : string) : bool :=
  bool_decide (rest = "") || bool_decide (rest = NL).

Definition re_match (p : pattern) (d : string) : bool :=
  match p with
  | Prefix p => PyStr.startswith p d
  | Whole alts =>
      existsb (fun a => match PyStr.strip_prefix a d with
                        | Some rest => at_end rest
                        | None => false
                        end) alts
  | Numbered p =>
      match PyStr.strip_prefix p d with
      | Some rest =>
          let '(ds, r) := PyFloat.span_digits (PyStr.bytes rest) in
          bool_decide (ds ≠ []) && (bool_decide (r = []) || bool_decide (r = [10]))
      | None => false
      end
  end.

(** The three kinds of handler of the table, with what each accepts. *)
Inductive filter :=
  | CommandHandler (command : string)
  | CallbackQueryHandler (p : pattern)
  | MessageHandler_TEXT_not_COMMAND.

Definition accepts (f : filter) (e : event) : bool :=
  match f, e with
  | CommandHandler c, Command n _ => bool_decide (n = c)
  | CallbackQueryHandler p, Callback d _ => re_match p d
  | MessageHandler_TEXT_not_COMMAND, TextMsg t _ => negb (bool_decide (t = ""))
  | _, _ => false
  end.

(** The callbacks, by name. *)
Inductive handler :=
  | H_cmd_start | H_on_menu | H_back_router | H_choose_type
  | H_expense_category | H_income_category | H_amount_received
  | H_payment_type_selected | H_comment_skip | H_comment_received
  | H_analysis_period | H_analysis_type | H_special_reports
  | H_balance_edit_start | H_balance_edit_received
  | H_debts_choose_type | H_debts_edit_start | H_debts_edit_received
  | H_cmd_help.

Definition callback (h : handler) : update -> M next :=
  match h with
  | H_cmd_start => cmd_start
  | H_on_menu => on_menu
  | H_back_router => back_router
  | H_choose_type => choose_type
  | H_expense_category => expense_category
  | H_income_category => income_category
  | H_amount_received => amount_received
  | H_payment_type_selected => payment_type_selected
  | H_comment_skip => comment_skip
  | H_comment_received => comment_received
  | H_analysis_period => analysis_period
  | H_analysis_type => analysis_type
  | H_special_reports => special_reports
  | H_balance_edit_start => balance_edit_start
  | H_balance_edit_received => balance_edit_received
  | H_debts_choose_type => debts_choose_type
  | H_debts_edit_start => debts_edit_start
  | H_debts_edit_received => debts_edit_received
  | H_cmd_help => cmd_help
  end.

Definition entry_points : list (filter * handler) :=
  [ (CommandHandler "start", H_cmd_start) ].

(** The dict literal [states={...}] of [build_app] as it is written:
    the keys by their names, in the order of the text, each with its
    list of handlers. *)
Definition states_literal : list (string * list (filter * handler)) :=
  [ ("ST_MENU",
     [ (CallbackQueryHandler (Prefix "menu:"), H_on_menu);
       (CallbackQueryHandler (Whole ["balance:cash"; "balance:qr"; "balance:bn"]),
        H_balance_edit_start) ]);
    ("ST_ADD_CHOOSE_TYPE",
     [ (CallbackQueryHandler (Prefix "type:"), H_choose_type);
       (CallbackQueryHandler (Prefix "back:"), H_back_router) ]);
    ("ST_EXP_CATEGORY",
     [ (CallbackQueryHandler (Numbered "expcat:"), H_expense_category);
       (CallbackQueryHandler (Prefix "back:"), H_back_router) ]);
    ("ST_INC_CATEGORY",
     [ (CallbackQueryHandler (Numbered "inccat:"), H_income_category);
       (CallbackQueryHandler (Prefix "back:"), H_back_router) ]);
    ("ST_AMOUNT",
     [ (MessageHandler_TEXT_not_COMMAND, H_amount_received) ]);
    ("ST_PAYMENT_TYPE",
     [ (CallbackQueryHandler (Numbered "payment:"), H_payment_type_selected) ]);
    ("ST_COMMENT",
     [ (CallbackQueryHandler (Whole ["comment:skip"]), H_comment_skip);
       (MessageHandler_TEXT_not_COMMAND, H_comment_received) ]);
    ("ST_ANALYSIS_PERIOD",
     [ (CallbackQueryHandler (Prefix "aperiod:"), H_analysis_period);
       (CallbackQueryHandler (Prefix "back:"), H_back_router) ]);
    ("ST_ANALYSIS_TYPE",
     [ (CallbackQueryHandler (Prefix "atype:"), H_analysis_type);
       (CallbackQueryHandler (Prefix "back:"), H_back_router) ]);
    ("ST_SPECIAL_REPORTS",
     [ (CallbackQueryHandler (Prefix "special:"), H_special_reports);
       (CallbackQueryHandler (Prefix "back:"), H_back_router) ]);
    ("ST_BALANCE_EDIT",
     [ (MessageHandler_TEXT_not_COMMAND, H_balance_edit_received) ]);
    ("ST_DEBTS_CHOOSE_TYPE",
     [ (CallbackQueryHandler (Prefix "debts_type:"), H_debts_choose_type);
       (CallbackQueryHandler (Whole ["debts:edit"]), H_debts_edit_start);
       (CallbackQueryHandler (Prefix "back:"), H_back_router) ]);
    ("ST_DEBTS_EDIT",
     [ (MessageHandler_TEXT_not_COMMAND, H_debts_edit_received) ]) ].

(** Evaluating a dict literal: the keys are evaluated in the order of
    the text, and the first one that raises ends the evaluation. *)
Fixpoint eval_literal (rows : list (string * list (filter * handler)))
    : result (list (state * list (filter * handler))) :=
  match rows with
  | [] => Ok []
  | (name, hs) :: rows' =>
      match state_named name with
      | Raise e => Raise e
      | Ok st =>
          match eval_literal rows' with
          | Ok table => Ok ((st, hs) :: table)
          | Raise e => Raise e
          end
      end
  end.

(** [build_app], as far as the table: it returns the application only
    if the literal evaluates. *)
Definition build_app : result (list (state * list (filter * handler))) :=
  eval_literal states_literal.

(** The row of the literal whose key names the state [st], if any. *)
Fixpoint find_row (st : state) (rows : list (string * list (filter * handler)))
    : list (filter * handler) :=
  match rows with
  | [] => []
  | (name, hs) :: rows' =>
      match state_named name with
      | Ok st' => if bool_decide (st' = st) then hs else find_row st rows'
      | Raise _ => find_row st rows'
      end
  end.

Definition row_of (st : state) : list (filter * handler) := find_row st states_literal.

(** [states.get(state, [])] of the table the literal describes: the
    handlers of a state, in the order of the table. The row written
    under [ST_PAYMENT_TYPE] is the row of no state; two states of the
    enumeration, [ST_EXP_PAYMENT_TYPE] and [ST_BALANCE_CHOOSE_TYPE],
    have no row. *)
Definition states (st : state) : list (filter * handler) :=
  match st with
  | ST_MENU =>
      [ (CallbackQueryHandler (Prefix "menu:"), H_on_menu);
        (CallbackQueryHandler (Whole ["balance:cash"; "balance:qr"; "balance:bn"]),
         H_balance_edit_start) ]
  | ST_ADD_CHOOSE_TYPE =>
      [ (CallbackQueryHandler (Prefix "type:"), H_choose_type);
        (CallbackQueryHandler (Prefix "back:"), H_back_router) ]
  | ST_EXP_CATEGORY =>
      [ (CallbackQueryHandler (Numbered "expcat:"), H_expense_category);
        (CallbackQueryHandler (Prefix "back:"), H_back_router) ]
  | ST_INC_CATEGORY =>
      [ (CallbackQueryHandler (Numbered "inccat:"), H_income_category);
        (CallbackQueryHandler (Prefix "back:"), H_back_router) ]
  | ST_AMOUNT =>
      [ (MessageHandler_TEXT_not_COMMAND, H_amount_received) ]
  | ST_COMMENT =>
      [ (CallbackQueryHandler (Whole ["comment:skip"]), H_comment_skip);
        (MessageHandler_TEXT_not_COMMAND, H_comment_received) ]
  | ST_ANALYSIS_PERIOD =>
      [ (CallbackQueryHandler (Prefix "aperiod:"), H_analysis_period);
        (CallbackQueryHandler (Prefix "back:"), H_back_router) ]
  | ST_ANALYSIS_TYPE =>
      [ (CallbackQueryHandler (Prefix "atype:"), H_analysis_type);
        (CallbackQueryHandler (Prefix "back:"), H_back_router) ]
  | ST_SPECIAL_REPORTS =>
      [ (CallbackQueryHandler (Prefix "special:"), H_special_reports);
        (CallbackQueryHandler (Prefix "back:"), H_back_router) ]
  | ST_BALANCE_EDIT =>
      [ (MessageHandler_TEXT_not_COMMAND, H_balance_edit_received) ]
  | ST_DEBTS_CHOOSE_TYPE =>
      [ (CallbackQueryHandler (Prefix "debts_type:"), H_debts_choose_type);
        (CallbackQueryHandler (Whole ["debts:edit"]), H_debts_edit_start);
        (CallbackQueryHandler (Prefix "back:"), H_back_router) ]
  | ST_DEBTS_EDIT =>
      [ (MessageHandler_TEXT_not_COMMAND, H_debts_edit_received) ]
  | ST_EXP_PAYMENT_TYPE | ST_BALANCE_CHOOSE_TYPE => []
  end.

Definition fallbacks : list (filter * handler) :=
  [ (CommandHandler "help", H_cmd_help) ].

(** The first handler of a list that accepts the event. *)
Fixpoint first_match (l : list (filter * handler)) (e : event) : option handler :=
  match l with
  | (f, h) :: l' => if accepts f e then Some h else first_match l' e
  | [] => None
  end.

(** [ConversationHandler.check_update] with [allow_reentry=True]: an
    entry point is tried first, in any state; then the handlers of
    the state the conversation is in, then the fallbacks. Without a
    conversation only an entry point is tried. *)
Definition check_update (st : option state) (e : event) : option handler :=
  match first_match entry_points e with
  | Some h => Some h
  | None =>
      match st with
      | None => None
      | Some s =>
          match first_match (states s) e with
          | Some h => Some h
          | None => first_match fallbacks e
          end
      end
  end.

(** *** The application *)

(** The conversations ([ConversationHandler] keeps the state of each
    user's conversation; a user without an entry has none), the
    [user_data] of each user (a [defaultdict]: a user without an
    entry has the empty one) and the world outside. *)
Record bot := Bot {
  conversations : gmap Z state;
  user_data_store : gmap Z user_data;
  the_world : world;
}.

Definition initial_world : world := World [] [] 1 0.
Definition initial : bot := Bot ∅ ∅ initial_world.

Definition user_data_of (b : bot) (user : Z) : user_data :=
  default no_user_data (user_data_store b !! user).

(** [_update_state]: [END] forgets the conversation, a state is
    stored, [None] leaves what there is. *)
Definition update_state (n : next) (user : Z) (c : gmap Z state) : gmap Z state :=
  match n with
  | Goto s => <[user := s]> c
  | END => delete user c
  | NoChange => c
  end.

(** One handler run on one update. When the handler raises, the state
    of the conversation is not touched and [error_handler] answers. *)
Definition run (h : handler) (in_conversation : bool) (u : update) (b : bot) : bot :=
  let user := effective_user u in
  match callback h u (user_data_of b user, the_world b) with
  | ((ud, w), Ok n) =>
      Bot (if in_conversation then update_state n user (conversations b)
           else conversations b)
          (<[user := ud]> (user_data_store b)) w
  | ((ud, w), Raise e) =>
      let '((ud', w'), _) := error_handler u (ud, w) in
      Bot (conversations b) (<[user := ud']> (user_data_store b)) w'
  end.

(** [Application.process_update], of the application that the table
    [states] describes: the handlers of the one group are the
    conversation and, after it, the [CommandHandler] of [/help]; the
    first that accepts the update handles it. An update that none
    accepts changes nothing. *)
Definition process_update (u : update) (b : bot) : bot :=
  match check_update (conversations b !! effective_user u) (the_event u) with
  | Some h => run h true u b
  | None =>
      if accepts (CommandHandler "help") (the_event u)
      then run H_cmd_help false u b
      else b
  end.

Definition process_updates (us : list update) (b : bot) : bot :=
  foldl (fun b u => process_update u b) b us.

(** The states of the bot that some sequence of updates leads to. *)
Inductive reachable : bot -> Prop :=
  | reachable_initial : reachable initial
  | reachable_step b u : reachable b -> reachable (process_update u b).

(** * Properties *)

(** ** The table *)

(** [states] is the literal, row by row, for the keys that name a
    state. *)
Lemma states_row st : states st = row_of st.
Proof. destruct st; reflexivity. Qed.

(** The key [ST_PAYMENT_TYPE] names none, and the literal does not
    evaluate. *)
Lemma state_named_payment_type :
  state_named "ST_PAYMENT_TYPE" = Raise (NameError "ST_PAYMENT_TYPE").
Proof. reflexivity. Qed.

Lemma build_app_raises : build_app = Raise (NameError "ST_PAYMENT_TYPE").
Proof. reflexivity. Qed.

(** ** The gateway *)

Definition NOT_JSON : string := "GAS вернул не-JSON ответ".

(** C7, amended: the request that is posted is the payload with the
    user's identifier added under ["user_id"]. An answer whose flag is
    false raises a [RuntimeError] that carries the backend's message
    (["GAS error"] when there is none); a body that is not JSON raises
    a [RuntimeError] too, with a fixed text; no answer in time raises a
    [TimeoutError]. So a timeout is told apart by its kind, but a
    refusal of the backend and an unreadable body are of one kind and
    differ by their text only. *)
Theorem gas_request_errors (payload : gmap string value) (user_id : Z) (s : user_data * world) :
  let posted := <["user_id" := VInt user_id]> payload in
  let answer := backend (calls s.2) posted in
  let r := gas_request payload user_id s in
  (calls r.1.2 = (calls s.2 ++ [posted])%list ∧
   posted !! "user_id" = Some (VInt user_id) ∧
   ∀ k, k ≠ "user_id" -> posted !! k = payload !! k) ∧
  (∀ e d, answer = Json false (Some e) d -> e ≠ "" -> r.2 = Raise (RuntimeError e)) ∧
  (∀ e d, answer = Json false e d -> e = None ∨ e = Some "" ->
          r.2 = Raise (RuntimeError "GAS error")) ∧
  (∀ txt, answer = NotJson txt -> r.2 = Raise (RuntimeError NOT_JSON)) ∧
  (answer = NoResponse -> r.2 = Raise TimeoutError) ∧
  (∀ e d, answer = Json true e (Some d) -> r.2 = Ok d).
Proof.
  intros posted answer r. subst r answer. unfold gas_request. fold posted.
  split.
  { split; [| split].
    - destruct (backend (calls s.2) posted) as [| ? | | [] ? []]; reflexivity.
    - subst posted. apply lookup_insert_eq.
    - intros k Hk. subst posted. apply lookup_insert_ne. congruence. }
  split; [| split; [| split; [| split]]].
  - intros e d -> He. simpl. rewrite bool_decide_eq_false_2 by exact He. reflexivity.
  - intros e d -> [-> | ->]; reflexivity.
  - intros txt ->. reflexivity.
  - intros ->. reflexivity.
  - intros e d ->. reflexivity.
Qed.

(** ** One update *)

Ltac unfold_monad :=
  unfold mbind, M_bind, mret, M_ret, raise, try_except, emit, send,
    get_user_data, set_user_data, get_tx, callback_query, message,
    second_piece, index_of, item, member, random_choice in *.

Lemma update_state_other n user v (c : gmap Z state) :
  v ≠ user -> update_state n user c !! v = c !! v.
Proof.
  intros Hv. destruct n; simpl.
  - apply lookup_insert_ne. congruence.
  - apply lookup_delete_ne. congruence.
  - reflexivity.
Qed.

(** An update of one user leaves the conversation and the data of
    every other user as they were. *)
Lemma process_update_other u b v :
  v ≠ effective_user u ->
  conversations (process_update u b) !! v = conversations b !! v ∧
  user_data_of (process_update u b) v = user_data_of b v.
Proof.
  intros Hv. unfold process_update, run, user_data_of.
  repeat case_match; simpl; subst;
    rewrite ?update_state_other, ?lookup_insert_ne by congruence; auto.
Qed.

(** What an update of a user outside the allow-list does, when that
    user has no conversation: [/start] and [/help] are answered with
    the denial, anything else is dropped; nothing is stored. *)
Definition denial (u : update) : list (Z * action) :=
  match the_event u with
  | Command n _ =>
      if bool_decide (n = "start") || bool_decide (n = "help")
      then [(effective_user u, reply_text (Lit DENY_TEXT) None)] else []
  | _ => []
  end.

Lemma process_update_denied u b :
  effective_user u ∉ USER_TG_IDS ->
  conversations b !! effective_user u = None ->
  user_data_of b (effective_user u) = no_user_data ->
  let b' := process_update u b in
  conversations b' = conversations b ∧
  (∀ v, user_data_of b' v = user_data_of b v) ∧
  calls (the_world b') = calls (the_world b) ∧
  outbox (the_world b') = (outbox (the_world b) ++ denial u)%list.
Proof.
  intros Hu Hc Hd. cbv zeta.
  assert (Hall : bool_decide (effective_user u ∈ USER_TG_IDS) = false)
    by (apply bool_decide_eq_false_2; exact Hu).
  assert (Hsame : ∀ st (w : world) v,
            user_data_of (Bot st (<[effective_user u := no_user_data]> (user_data_store b)) w) v
            = user_data_of b v).
  { intros st w v. unfold user_data_of in *. simpl.
    destruct (decide (v = effective_user u)) as [-> | Hv].
    - rewrite lookup_insert_eq. simpl. symmetry. exact Hd.
    - rewrite lookup_insert_ne by congruence. reflexivity. }
  unfold process_update, denial. rewrite Hc.
  destruct u as [user [n i | d i | t i]]; simpl in *.
  - unfold check_update. simpl.
    destruct (bool_decide (n = "start")) eqn:Hn; simpl.
    + unfold run. cbn [callback]. unfold cmd_start, is_allowed. simpl.
      rewrite Hall, Hd. simpl.
      split; [apply delete_id; exact Hc |].
      split; [apply Hsame |]. split; reflexivity.
    + destruct (bool_decide (n = "help")) eqn:Hh; simpl.
      * unfold run. cbn [callback]. unfold cmd_help, is_allowed. simpl.
        rewrite Hall, Hd. simpl.
        split; [reflexivity |]. split; [apply Hsame |]. split; reflexivity.
      * rewrite app_nil_r. auto.
  - rewrite app_nil_r. auto.
  - rewrite app_nil_r. auto.
Qed.

(** A user outside the allow-list never has a conversation, nor any
    data. *)
Definition no_session_outside (b : bot) : Prop :=
  ∀ v, v ∉ USER_TG_IDS ->
       conversations b !! v = None ∧ user_data_of b v = no_user_data.

Lemma reachable_no_session_outside b : reachable b -> no_session_outside b.
Proof.
  induction 1 as [| b u Hb IH].
  - intros v _. split; [apply lookup_empty | reflexivity].
  - intros v Hv. destruct (IH v Hv) as [Hc Hd].
    destruct (decide (v = effective_user u)) as [-> | Hne].
    + destruct (process_update_denied u b Hv Hc Hd) as (H1 & H2 & _).
      rewrite H1, H2. auto.
    + destruct (process_update_other u b v Hne) as [H1 H2].
      rewrite H1, H2. auto.
Qed.

(** C9, amended: for a user who is not on the allow-list, [/start] and
    [/help] are answered with the fixed denial message; a button press
    or a free text of such a user is not answered at all (the user has
    no conversation, so no handler takes it); and in every case no
    conversation is stored, no user's data change and no request goes
    to the backend. *)
Theorem outsider_is_denied b u :
  reachable b ->
  effective_user u ∉ USER_TG_IDS ->
  let b' := process_update u b in
  conversations b' = conversations b ∧
  (∀ v, user_data_of b' v = user_data_of b v) ∧
  calls (the_world b') = calls (the_world b) ∧
  outbox (the_world b') = (outbox (the_world b) ++ denial u)%list.
Proof.
  intros Hb Hu.
  destruct (reachable_no_session_outside b Hb _ Hu) as [Hc Hd].
  apply process_update_denied; assumption.
Qed.

(** A conversation that exists belongs to a user of the allow-list. *)
Lemma reachable_conversation_allowed b user st :
  reachable b -> conversations b !! user = Some st -> user ∈ USER_TG_IDS.
Proof.
  intros Hb Hc. destruct (decide (user ∈ USER_TG_IDS)) as [H | H]; [exact H |].
  destruct (reachable_no_session_outside b Hb user H) as [Hn _]. congruence.
Qed.

Lemma user_data_of_insert_same b user st w v :
  user_data_of (Bot st (<[user := user_data_of b user]> (user_data_store b)) w) v
  = user_data_of b v.
Proof.
  unfold user_data_of. simpl.
  destruct (decide (v = user)) as [-> | Hv].
  - rewrite lookup_insert_eq. reflexivity.
  - rewrite lookup_insert_ne by congruence. reflexivity.
Qed.

Definition ACCESS_DENIED : string := "Доступ запрещён".

(** The payloads of the three buttons of the owner's Menu that open an
    owner-only branch. *)
Definition owner_only : list string := ["menu:analysis"; "menu:balance"; "menu:debts"].

(** When a user who is not an owner presses, in the Menu, a button of
    an owner-only branch (analysis, balance, debts), the bot answers
    the press with the alert "access denied" and nothing else happens:
    the conversation stays in the Menu, no user's data change and no
    request goes to the backend. The role is not part of the state: it
    is read from [OWNER_IDS], which nothing writes. *)
Lemma owner_only_is_refused b user d mid :
  reachable b ->
  conversations b !! user = Some ST_MENU ->
  is_owner user = false ->
  d ∈ owner_only ->
  let b' := process_update (Update user (Callback d mid)) b in
  conversations b' = conversations b ∧
  conversations b' !! user = Some ST_MENU ∧
  (∀ v, user_data_of b' v = user_data_of b v) ∧
  calls (the_world b') = calls (the_world b) ∧
  outbox (the_world b')
  = (outbox (the_world b)
       ++ [(user, answer None false); (user, answer (Some ACCESS_DENIED) true)])%list.
Proof.
  intros Hb Hc Ho Hd. cbv zeta.
  pose proof (reachable_conversation_allowed b user _ Hb Hc) as Hall.
  assert (Hall' : bool_decide (user ∈ USER_TG_IDS) = true)
    by (apply bool_decide_eq_true_2; exact Hall).
  assert (Hrun : process_update (Update user (Callback d mid)) b
                 = Bot (<[user := ST_MENU]> (conversations b))
                       (<[user := user_data_of b user]> (user_data_store b))
                       (World (calls (the_world b))
                              (outbox (the_world b)
                                 ++ [(user, answer None false);
                                     (user, answer (Some ACCESS_DENIED) true)])
                              (next_message_id (the_world b))
                              (draws (the_world b)))).
  { unfold process_update. simpl. rewrite Hc.
    unfold owner_only in Hd.
    repeat (apply elem_of_cons in Hd as [-> | Hd]);
      try (apply elem_of_nil in Hd; contradiction).
    all: match goal with
         | |- context [check_update ?s ?e] =>
             replace (check_update s e) with (Some H_on_menu) by (vm_compute; reflexivity)
         end.
    all: unfold run; cbn [callback]; unfold on_menu, is_allowed; simpl;
      rewrite Hall'; simpl; rewrite Ho; simpl; unfold_monad; simpl;
      rewrite <- app_assoc; reflexivity. }
  rewrite Hrun. simpl.
  assert (Hid : <[user := ST_MENU]> (conversations b) = conversations b)
    by (apply insert_id; exact Hc).
  rewrite Hid. split; [reflexivity |]. split; [exact Hc |].
  split; [apply user_data_of_insert_same |]. split; reflexivity.
Qed.

(** ** Comments *)

(** The prompt that asks again for the comment of an income. *)
Definition required_comment_prompt (t : gmap string value) : string :=
  if bool_decide (t !! "category" = Some (VStr "Услуги по БН"))
  then "Название Юр лица обязательно! Напиши:"
  else "ФИО или марка авто обязательны! Напиши:".

Lemma blank_comment_handler user t mid (ud : user_data) (w : world) :
  user ∈ USER_TG_IDS ->
  default ∅ (ud_tx ud) !! "type" = Some (VStr INCOME) ->
  PyStr.strip t = "" ->
  ∃ i w',
    comment_received (Update user (TextMsg t mid)) (ud, w)
    = ((set_working_message_id (Some i) ud, w'), Ok (Goto ST_COMMENT))
    ∧ calls w' = calls w
    ∧ last (outbox w')
      = Some (user, send_message i (Lit (required_comment_prompt (default ∅ (ud_tx ud)))) None).
Proof.
  intros Hall Hty Hstrip.
  unfold comment_received, is_allowed. simpl.
  rewrite (bool_decide_eq_true_2 _ Hall). simpl.
  unfold_monad. simpl. rewrite Hstrip.
  rewrite (bool_decide_eq_true_2 _ Hty). simpl.
  unfold delete_working_message. unfold_monad. simpl.
  destruct (truthy (ud_working_message_id ud)); simpl;
    (eexists; eexists; split; [reflexivity |]; split; [reflexivity |]);
    simpl; apply last_snoc.
Qed.

(** C5: in the comment state, with a draft that is an income, a
    comment that is empty or only white space is rejected. The handler
    [comment_received] asks for the comment again and stays in the
    comment state; it changes nothing in the session but the working
    message, so the draft, and with it the comment that is not set
    yet, is as before; nothing is sent to the backend. And a message
    of white space in that state does reach this handler. *)
Theorem blank_income_comment_is_rejected b user t mid :
  user ∈ USER_TG_IDS ->
  default ∅ (ud_tx (user_data_of b user)) !! "type" = Some (VStr INCOME) ->
  PyStr.strip t = "" ->
  let ud := user_data_of b user in
  let prompt := Lit (required_comment_prompt (default ∅ (ud_tx ud))) in
  (∃ i w',
      comment_received (Update user (TextMsg t mid)) (ud, the_world b)
      = ((set_working_message_id (Some i) ud, w'), Ok (Goto ST_COMMENT))
      ∧ calls w' = calls (the_world b)
      ∧ last (outbox w') = Some (user, send_message i prompt None)) ∧
  (conversations b !! user = Some ST_COMMENT -> t ≠ "" ->
   let b' := process_update (Update user (TextMsg t mid)) b in
   conversations b' !! user = Some ST_COMMENT ∧
   ud_tx (user_data_of b' user) = ud_tx ud ∧
   default ∅ (ud_tx (user_data_of b' user)) !! "comment"
   = default ∅ (ud_tx ud) !! "comment" ∧
   calls (the_world b') = calls (the_world b) ∧
   ∃ i, last (outbox (the_world b')) = Some (user, send_message i prompt None)).
Proof.
  intros Hall Hty Hstrip ud prompt.
  destruct (blank_comment_handler user t mid ud (the_world b) Hall Hty Hstrip)
    as (i & w' & Hrun & Hcalls & Hlast).
  split; [exists i, w'; auto |].
  intros Hc Ht b'. subst b'.
  unfold process_update. simpl. rewrite Hc.
  assert (Hcheck : check_update (Some ST_COMMENT) (TextMsg t mid) = Some H_comment_received).
  { unfold check_update. simpl. rewrite (bool_decide_eq_false_2 _ Ht). reflexivity. }
  rewrite Hcheck. unfold run. cbn [callback effective_user].
  fold ud. rewrite Hrun. simpl.
  split; [apply lookup_insert_eq |].
  assert (Hud : user_data_of
                  (Bot (<[user := ST_COMMENT]> (conversations b))
                       (<[user := set_working_message_id (Some i) ud]> (user_data_store b))
                       w') user
                = set_working_message_id (Some i) ud).
  { unfold user_data_of. simpl. rewrite lookup_insert_eq. reflexivity. }
  rewrite Hud. simpl.
  split; [reflexivity |]. split; [reflexivity |]. split; [exact Hcalls |].
  exists i. exact Hlast.
Qed.


Lemma reachable_process_updates us b :
  reachable b -> reachable (process_updates us b).
Proof.
  revert b. induction us as [| u us IH]; intros b Hb; [exact Hb |].
  apply IH. apply reachable_step. exact Hb.
Qed.
(** ** Reasoning about handlers *)

(** [post m s Q]: run from [s], the computation [m] ends in a state and
    with a result that satisfy [Q]. *)
Definition post {A} (m : M A) (s : user_data * world)
    (Q : user_data * world -> result A -> Prop) : Prop :=
  Q (m s).1 (m s).2.

(** What [gas_request] returns, by the answer of the backend. *)
Definition gas_result (answer : response) : result data :=
  match answer with
  | NoResponse => Raise TimeoutError
  | NotJson _ => Raise (RuntimeError NOT_JSON)
  | NotAnObject => Raise AttributeError
  | Json false error _ =>
      Raise (RuntimeError (match error with
                           | Some e => if bool_decide (e = "") then "GAS error" else e
                           | None => "GAS error"
                           end))
  | Json true _ None => Raise (KeyError "data")
  | Json true _ (Some d) => Ok d
  end.

Definition posted (payload : gmap string value) (user_id : Z) : gmap string value :=
  <["user_id" := VInt user_id]> payload.

Lemma gas_request_eq payload user_id ud w :
  gas_request payload user_id (ud, w)
  = ((ud, World (calls w ++ [posted payload user_id]) (outbox w)
                (next_message_id w) (draws w)),
     gas_result (backend (calls w) (posted payload user_id))).
Proof.
  unfold gas_request, gas_result, posted. simpl.
  destruct (backend _ _) as [| ? | | [] ? []]; reflexivity.
Qed.

Section Post.
Context {A B : Type}.
Implicit Types (s : user_data * world) (ud : user_data) (w : world).

Lemma post_ret (a : A) s Q : Q s (Ok a) -> post (mret a) s Q.
Proof. exact (fun H => H). Qed.

Lemma post_raise (e : exn) s (Q : _ -> result A -> Prop) :
  Q s (Raise e) -> post (raise e) s Q.
Proof. exact (fun H => H). Qed.

Lemma post_bind (m : M A) (k : A -> M B) s Q :
  post m s (fun s' r => match r with
                        | Ok a => post (k a) s' Q
                        | Raise e => Q s' (Raise e)
                        end) ->
  post (m ≫= k) s Q.
Proof.
  unfold post, mbind, M_bind. destruct (m s) as [s' [a | e]]; simpl; auto.
Qed.

Lemma post_try_except (m : M A) (h : exn -> M A) s Q :
  post m s (fun s' r => match r with
                        | Ok a => Q s' (Ok a)
                        | Raise e => post (h e) s' Q
                        end) ->
  post (try_except m h) s Q.
Proof.
  unfold post, try_except. destruct (m s) as [s' [a | e]]; simpl; auto.
Qed.

Lemma post_mono (m : M A) s (Q Q' : _ -> result A -> Prop) :
  post m s Q -> (∀ s' r, Q s' r -> Q' s' r) -> post m s Q'.
Proof. unfold post. auto. Qed.

End Post.

Lemma post_get_user_data ud w Q :
  Q (ud, w) (Ok ud) -> post get_user_data (ud, w) Q.
Proof. exact (fun H => H). Qed.

Lemma post_set_user_data f ud w Q :
  Q (f ud, w) (Ok tt) -> post (set_user_data f) (ud, w) Q.
Proof. exact (fun H => H). Qed.

Lemma post_get_tx ud w Q :
  Q (ud, w) (Ok (default ∅ (ud_tx ud))) -> post get_tx (ud, w) Q.
Proof. exact (fun H => H). Qed.

Lemma post_emit chat a ud w Q :
  Q (ud, World (calls w) (outbox w ++ [(chat, a)]) (next_message_id w) (draws w)) (Ok tt) ->
  post (emit chat a) (ud, w) Q.
Proof. exact (fun H => H). Qed.

Lemma post_send chat t kb ud w Q :
  Q (ud, World (calls w) (outbox w ++ [(chat, send_message (next_message_id w) t kb)])
               (next_message_id w + 1) (draws w))
    (Ok (next_message_id w)) ->
  post (send chat t kb) (ud, w) Q.
Proof. exact (fun H => H). Qed.

Lemma post_random_choice l ud w Q :
  Q (ud, World (calls w) (outbox w) (next_message_id w) (S (draws w)))
    (Ok (nth (choice (draws w) mod length l) l "")) ->
  post (random_choice l) (ud, w) Q.
Proof. exact (fun H => H). Qed.

Lemma post_gas_request payload user_id ud w Q :
  Q (ud, World (calls w ++ [posted payload user_id]) (outbox w)
               (next_message_id w) (draws w))
    (gas_result (backend (calls w) (posted payload user_id))) ->
  post (gas_request payload user_id) (ud, w) Q.
Proof. unfold post. rewrite gas_request_eq. exact (fun H => H). Qed.

Lemma post_delete_working_message chat ud w Q :
  Q (set_working_message_id None ud,
     World (calls w)
           (outbox w ++ (if truthy (ud_working_message_id ud)
                         then [(chat, delete_message (default 0 (ud_working_message_id ud)))]
                         else []))
           (next_message_id w) (draws w))
    (Ok tt) ->
  post (delete_working_message chat) (ud, w) Q.
Proof.
  unfold post, delete_working_message. unfold_monad. simpl.
  destruct (truthy (ud_working_message_id ud)); simpl.
  - exact (fun H => H).
  - rewrite app_nil_r. destruct w. exact (fun H => H).
Qed.

(** One step of a handler: the rule of the construct at the head of the
    computation. A test or a [match] of the handler is decided by
    cases. *)
Ltac post_step :=
  lazymatch goal with
  | |- post (mbind _ _) _ _ => apply post_bind
  | |- post (mret _) _ _ => apply post_ret
  | |- post (raise _) _ _ => apply post_raise
  | |- post (try_except _ _) _ _ => apply post_try_except
  | |- post get_user_data _ _ => apply post_get_user_data
  | |- post (set_user_data _) _ _ => apply post_set_user_data
  | |- post get_tx _ _ => apply post_get_tx
  | |- post (emit _ _) _ _ => apply post_emit
  | |- post (send _ _ _) _ _ => apply post_send
  | |- post (random_choice _) _ _ => apply post_random_choice
  | |- post (gas_request _ _) _ _ => apply post_gas_request
  | |- post (delete_working_message _) _ _ => apply post_delete_working_message
  | |- post (get_categories _) _ _ => unfold get_categories
  | |- post (main_screen _) _ _ => unfold main_screen
  | |- post (main_screen_text_owner _) _ _ => unfold main_screen_text_owner
  | |- post (main_screen_text_employee _) _ _ => unfold main_screen_text_employee
  | |- post (callback_query _) _ _ => unfold callback_query
  | |- post (message _) _ _ => unfold message
  | |- post (second_piece _) _ _ => unfold second_piece
  | |- post (index_of _) _ _ => unfold index_of
  | |- post (item _ _) _ _ => unfold item
  | |- post (member _ _) _ _ => unfold member
  | |- post (save_and_finish_ _) _ _ => unfold save_and_finish_
  | |- post (match ?x with _ => _ end) _ _ => destruct x eqn:?
  | |- post (let _ := _ in _) _ _ => cbv zeta
  | |- match ?r with Ok _ => _ | Raise _ => _ end => destruct r eqn:?
  | |- post ((fun _ => _) _) _ _ => cbv beta
  | |- (fun _ _ => _) _ _ => cbv beta
  | |- post (match ?x with _ => _ end _) _ _ => destruct x eqn:?
  end.

Ltac post_simpl :=
  cbv beta iota;
  cbn [calls outbox next_message_id draws fst snd the_event effective_user
       ud_tx ud_categories ud_working_message_id ud_analysis_period
       ud_balance_payment_type ud_debt_type
       set_tx set_categories set_working_message_id set_analysis_period
       set_balance_payment_type set_debt_type negb from_option id].

Ltac post_steps := post_simpl; repeat (post_step; post_simpl).

(** ** Going back *)

(** The states whose entry of the table lists [back_router], and the
    states of a flow that lists no handler for a button at all or for
    no back button: there the screens show no back button either. *)
Definition back_states : list state :=
  [ST_ADD_CHOOSE_TYPE; ST_EXP_CATEGORY; ST_INC_CATEGORY; ST_ANALYSIS_PERIOD;
   ST_ANALYSIS_TYPE; ST_SPECIAL_REPORTS; ST_DEBTS_CHOOSE_TYPE].

Definition no_back_states : list state :=
  [ST_AMOUNT; ST_COMMENT; ST_BALANCE_EDIT; ST_DEBTS_EDIT].

(** Where [back_router] goes, by the payload of the button. *)
Definition back_target (d : string) : state :=
  if bool_decide (d = "back:menu") then ST_MENU
  else if bool_decide (d = "back:choose_type") then ST_ADD_CHOOSE_TYPE
  else if bool_decide (d = "back:exp_cat") then ST_EXP_CATEGORY
  else if bool_decide (d = "back:analysis_periods") then ST_ANALYSIS_PERIOD
  else if bool_decide (d = "back:analysis_type") then ST_ANALYSIS_TYPE
  else if bool_decide (d = "back:debts_type") then ST_DEBTS_CHOOSE_TYPE
  else ST_MENU.

Lemma strip_prefix_app p s r : PyStr.strip_prefix p s = Some r -> s = p +:+ r.
Proof.
  revert s. induction p as [| a p IH]; intros s; simpl.
  - intros [= ->]. reflexivity.
  - destruct s as [| c s]; [discriminate |].
    destruct (Ascii.eqb_spec a c) as [-> | _]; [| discriminate].
    intros H. rewrite (IH _ H). reflexivity.
Qed.

Lemma startswith_app p s : PyStr.startswith p s = true -> ∃ r, s = p +:+ r.
Proof.
  unfold PyStr.startswith. intros H. apply bool_decide_eq_true_1 in H.
  destruct H as [r Hr]. exists r. apply strip_prefix_app. exact Hr.
Qed.

Lemma back_router_goes_to_target user d mid s :
  post (back_router (Update user (Callback d mid))) s
       (fun _ r => match r with
                   | Ok n => n = Goto (back_target d)
                   | Raise _ => True
                   end).
Proof.
  destruct s as [ud w]. unfold back_router, back_target.
  post_steps; simplify_eq; auto.
Qed.

(** What [run] makes of the outcome of a callback. *)
Lemma run_post h (in_conversation : bool) u b (P : bot -> Prop) :
  post (callback h u) (user_data_of b (effective_user u), the_world b)
    (fun s' r =>
       match r with
       | Ok n =>
           P (Bot (if in_conversation
                   then update_state n (effective_user u) (conversations b)
                   else conversations b)
                  (<[effective_user u := s'.1]> (user_data_store b)) s'.2)
       | Raise _ =>
           P (Bot (conversations b)
                  (<[effective_user u := s'.1]> (user_data_store b))
                  (World (calls s'.2)
                         (outbox s'.2
                            ++ [(effective_user u,
                                 reply_text (Lit SOMETHING_WENT_WRONG) None)])
                         (next_message_id s'.2) (draws s'.2)))
       end) ->
  P (run h in_conversation u b).
Proof.
  unfold post, run, error_handler. unfold_monad.
  destruct (callback h u _) as [[ud w] [n | e]]; simpl; auto.
Qed.


(** ** The payment type of an income *)

(** The draft of a session. *)
Definition tx_of (ud : user_data) : gmap string value := default ∅ (ud_tx ud).

(** A draft that is an income carries its category as its payment type
    too. *)
Definition income_has_category (t : gmap string value) : Prop :=
  t !! "type" = Some (VStr INCOME) ->
  ∃ c, t !! "category" = Some (VStr c) ∧ t !! "payment_type" = Some (VStr c).

(** The same of a request: an [add] of an income carries its category
    as its payment type. *)
Definition good_add (p : gmap string value) : Prop :=
  p !! "cmd" = Some (VStr "add") ->
  p !! "type" = Some (VStr INCOME) ->
  ∃ c, p !! "category" = Some (VStr c) ∧ p !! "payment_type" = Some (VStr c).

(** What holds of the bot: the requests it has sent are as above, and
    so is the draft of every session. *)
Definition good (b : bot) : Prop :=
  Forall good_add (calls (the_world b)) ∧
  ∀ v, income_has_category (tx_of (user_data_of b v)).

(** The state of the conversation after a handler, as [run] sets it. *)
Definition next_conv (c : option state) (r : result next) : option state :=
  match r with
  | Ok (Goto s) => Some s
  | Ok END => None
  | Ok NoChange | Raise _ => c
  end.

Lemma EXPENSE_ne_INCOME : VStr EXPENSE ≠ VStr INCOME.
Proof. discriminate. Qed.

Lemma income_has_category_empty : income_has_category ∅.
Proof. intros H. rewrite lookup_empty in H. discriminate. Qed.

Lemma income_has_category_expense t cat :
  income_has_category (<["category" := VStr cat]> (<["type" := VStr EXPENSE]> t)).
Proof.
  intros H. rewrite lookup_insert_ne, lookup_insert_eq in H by done.
  injection H as H. discriminate.
Qed.

Lemma income_has_category_income t cat :
  income_has_category
    (<["payment_type" := VStr cat]>
       (<["category" := VStr cat]> (<["type" := VStr INCOME]> t))).
Proof.
  intros _. exists cat. split.
  - rewrite lookup_insert_ne, lookup_insert_eq by done. reflexivity.
  - rewrite lookup_insert_eq. reflexivity.
Qed.

Lemma income_has_category_other k v t :
  k ≠ "type" -> k ≠ "category" -> k ≠ "payment_type" ->
  income_has_category t -> income_has_category (<[k := v]> t).
Proof.
  intros H1 H2 H3 Ht H. rewrite lookup_insert_ne in H by done.
  destruct (Ht H) as (c & Hc & Hp). exists c.
  rewrite !lookup_insert_ne by done. auto.
Qed.

Lemma good_add_other name (p : gmap string value) :
  p !! "cmd" = Some (VStr name) -> name ≠ "add" -> good_add p.
Proof. intros Hp Hn H. rewrite Hp in H. congruence. Qed.

Lemma good_add_payload t user :
  income_has_category t -> good_add (posted (add_payload t) user).
Proof.
  intros Ht _ Hty. unfold posted, add_payload, field in *.
  repeat (rewrite lookup_insert_ne in Hty by done).
  rewrite lookup_insert_eq in Hty. injection Hty as Hty.
  destruct (t !! "type") as [ty |] eqn:Htype; simpl in Hty; [| discriminate].
  subst ty. destruct (Ht Htype) as (c & Hc & Hp). exists c.
  split; repeat (rewrite lookup_insert_ne by done); rewrite lookup_insert_eq.
  - rewrite Hc. reflexivity.
  - rewrite Hp. reflexivity.
Qed.

Ltac cmd_lookup_inner :=
  unfold cmd;
  repeat (rewrite lookup_insert_ne by done);
  first [apply lookup_singleton_eq | apply lookup_insert_eq].

Ltac cmd_lookup := unfold posted; cmd_lookup_inner.

Ltac income_solver :=
  lazymatch goal with
  | |- income_has_category ∅ => apply income_has_category_empty
  | |- income_has_category (<["category" := _]> (<["type" := VStr EXPENSE]> _)) =>
      apply income_has_category_expense
  | |- income_has_category (<["payment_type" := _]> (<["category" := _]> (<["type" := _]> _))) =>
      apply income_has_category_income
  | |- income_has_category (<[_ := _]> _) =>
      apply income_has_category_other; [done | done | done |]
  | |- income_has_category _ => assumption
  end.

Ltac log_solver Hlog :=
  repeat lazymatch goal with
    | |- Forall _ (_ ++ _) => apply Forall_app_2
    | |- Forall _ (_ :: _) => apply Forall_cons_2
    | |- Forall _ [] => apply Forall_nil_2
    | |- Forall _ _ => exact Hlog
    | |- good_add (posted (add_payload _) _) => apply good_add_payload
    | |- good_add (posted _ _) => eapply good_add_other; [cmd_lookup | discriminate]
    | |- income_has_category _ => income_solver
    end.

Ltac unfold_handlers :=
  unfold cmd_start, on_menu, back_router, choose_type, expense_category,
    income_category, amount_received, payment_type_selected, comment_skip,
    comment_received, analysis_period, analysis_type, special_reports,
    balance_edit_start, balance_edit_received, debts_choose_type,
    debts_edit_start, debts_edit_received, cmd_help.

(** Every handler of the table keeps the two facts, of the session it
    runs in and of the requests it sends. [payment_type_selected],
    which writes a payment type into whatever draft there is, is a
    handler of no state. *)
Lemma handler_good h u ud w :
  h ≠ H_payment_type_selected ->
  income_has_category (tx_of ud) ->
  Forall good_add (calls w) ->
  post (callback h u) (ud, w)
       (fun s' _ => Forall good_add (calls s'.2) ∧ income_has_category (tx_of s'.1)).
Proof.
  intros Hh Hinc Hlog. unfold tx_of in *.
  destruct h; try (contradiction Hh; reflexivity);
    cbn [callback]; unfold_handlers; post_steps.
  all: cbn [fst snd ud_tx from_option id].
  all: split.
  all: unfold tx_of, no_user_data; cbn [ud_tx from_option id].
  all: try solve [log_solver Hlog].
  all: try solve [income_solver].
Qed.

Lemma update_state_same n user (c : gmap Z state) :
  update_state n user c !! user = next_conv (c !! user) (Ok n).
Proof.
  destruct n; simpl.
  - apply lookup_insert_eq.
  - apply lookup_delete_eq.
  - reflexivity.
Qed.

Lemma first_match_in l e h : first_match l e = Some h -> h ∈ (snd <$> l).
Proof.
  induction l as [| [f h'] l IH]; simpl; [discriminate |].
  destruct (accepts f e).
  - intros [= ->]. apply list_elem_of_here.
  - intros H. apply list_elem_of_further, IH, H.
Qed.

(** The handler that [check_update] picks is an entry point, or a
    handler of the state the conversation is in, or a fallback. *)
Lemma check_update_in c e h :
  check_update c e = Some h ->
  h = H_cmd_start ∨
  ∃ st, c = Some st ∧ (h ∈ (snd <$> states st) ∨ h = H_cmd_help).
Proof.
  unfold check_update.
  destruct (first_match entry_points e) as [h0 |] eqn:He.
  - intros [= <-]. left. apply first_match_in in He.
    apply list_elem_of_singleton in He. exact He.
  - destruct c as [st |]; [| discriminate].
    destruct (first_match (states st) e) as [h1 |] eqn:Hs.
    + intros [= <-]. right. exists st. split; [reflexivity |].
      left. eapply first_match_in, Hs.
    + intros Hf. right. exists st. split; [reflexivity |]. right.
      apply first_match_in in Hf. apply list_elem_of_singleton in Hf. exact Hf.
Qed.

Lemma check_update_payment c e : check_update c e ≠ Some H_payment_type_selected.
Proof.
  intros H. apply check_update_in in H as [H | (st & -> & [H | H])];
    try discriminate.
  destruct st; cbv [states fmap list_fmap snd] in H;
    repeat (apply elem_of_cons in H as [H | H]; try discriminate);
    apply elem_of_nil in H; contradiction.
Qed.

Lemma cmd_help_changes_nothing u ud w :
  post (cmd_help u) (ud, w)
       (fun s' r => r = Ok NoChange ∧ s'.1 = ud ∧ calls s'.2 = calls w).
Proof. unfold cmd_help. post_steps; auto. Qed.

Lemma user_data_of_insert b user ud st w v :
  user_data_of (Bot st (<[user := ud]> (user_data_store b)) w) v
  = if decide (v = user) then ud else user_data_of b v.
Proof.
  unfold user_data_of. simpl. destruct (decide (v = user)) as [-> | Hv].
  - rewrite lookup_insert_eq. reflexivity.
  - rewrite lookup_insert_ne by congruence. reflexivity.
Qed.

Lemma run_good h (in_conversation : bool) u b :
  good b ->
  h ≠ H_payment_type_selected ->
  good (run h in_conversation u b).
Proof.
  intros [Hlog Hses] Hh. apply run_post.
  eapply post_mono; [apply (handler_good h u _ _ Hh (Hses _) Hlog) |].
  intros [ud' w'] r [Hlog' Hses']. cbn [fst snd] in *.
  destruct r as [n | e]; (split; [exact Hlog' |]); cbn [conversations the_world].
  - intros v. rewrite user_data_of_insert.
    destruct (decide (v = effective_user u)) as [-> | Hv]; [exact Hses' | apply Hses].
  - intros v. rewrite user_data_of_insert.
    destruct (decide (v = effective_user u)) as [-> | Hv]; [exact Hses' | apply Hses].
Qed.

Lemma process_update_good u b : good b -> good (process_update u b).
Proof.
  intros Hb. unfold process_update.
  destruct (check_update _ _) as [h |] eqn:Hcheck.
  - apply run_good; [exact Hb |].
    intros ->. exact (check_update_payment _ _ Hcheck).
  - destruct (accepts _ _); [| exact Hb].
    apply run_good; [exact Hb | discriminate].
Qed.

Lemma reachable_good b : reachable b -> good b.
Proof.
  induction 1 as [| b u Hb IH].
  - split; [apply Forall_nil_2 |].
    intros v. apply income_has_category_empty.
  - apply process_update_good. exact IH.
Qed.

(** ** Finalizing a draft *)

Definition non_add (p : gmap string value) : Prop := p !! "cmd" ≠ Some (VStr "add").

(** The backend answers every read: every request that is no [add] gets
    an answer with a true flag and a data object. *)
Definition reads_succeed : Prop :=
  ∀ h p, non_add p -> ∃ e d, backend h p = Json true e (Some d).

(** The Menu as it is rendered for a user. *)
Definition menu_keyboard (user : Z) : keyboard :=
  if is_owner user then kb_main_owner else kb_main_employee.




Lemma non_add_posted name (p : gmap string value) user :
  p !! "cmd" = Some (VStr name) -> name ≠ "add" -> non_add (posted p user).
Proof.
  intros Hp Hn. unfold non_add, posted. rewrite lookup_insert_ne by done.
  rewrite Hp. congruence.
Qed.

(** Under [reads_succeed] a read cannot have raised. *)
Ltac read_succeeded Hreads :=
  match goal with
  | H : gas_result (backend ?h (posted ?p ?user)) = Raise _ |- _ =>
      let Hn := fresh "Hn" in
      assert (Hn : non_add (posted p user))
        by (eapply non_add_posted; [cmd_lookup_inner | discriminate]);
      let e := fresh "e" in
      let d := fresh "d" in
      let Hb := fresh "Hb" in
      destruct (Hreads h (posted p user) Hn) as (e & d & Hb);
      rewrite Hb in H; discriminate H
  end.


Ltac reads_solver :=
  repeat rewrite <- app_assoc; cbn [app];
  eexists; split;
  [ reflexivity
  | repeat first
      [ apply Forall_nil_2
      | (apply Forall_cons_2;
         [eapply non_add_posted; [cmd_lookup_inner | discriminate] |]) ] ].






(** ** Where a back input leads *)

(** The first read of the main screen, by role. *)
Definition first_menu_read (user : Z) : gmap string value :=
  if is_owner user then cmd "summary_month"
  else <["limit" := VInt 10]> (cmd "get_last_transactions").

(** When [back_router] returns, and what: for the payloads that need
    no read, always, and the state of the payload; for [back:menu],
    when the reads of the main screen are answered; for
    [back:exp_cat], when the categories are answered and list the
    expenses. *)
Lemma back_router_returns user d mid ud w :
  post (back_router (Update user (Callback d mid))) (ud, w)
       (fun _ r =>
          (d ≠ "back:menu" -> d ≠ "back:exp_cat" -> r = Ok (Goto (back_target d))) ∧
          (d = "back:menu" ->
           (reads_succeed -> r = Ok (Goto ST_MENU)) ∧
           (∀ e, gas_result (backend (calls w) (posted (first_menu_read user) user)) = Raise e ->
                 r = Raise e)) ∧
          (d = "back:exp_cat" ->
           r = match gas_result (backend (calls w) (posted (cmd "get_categories") user)) with
               | Ok cats =>
                   match lists cats !! "expenses" with
                   | Some _ => Ok (Goto ST_EXP_CATEGORY)
                   | None => Raise (KeyError "expenses")
                   end
               | Raise e => Raise e
               end)).
Proof.
  unfold back_router, back_target, first_menu_read.
  post_steps.
  all: repeat match goal with
         | H : bool_decide _ = true |- _ => apply bool_decide_eq_true_1 in H
         | H : bool_decide _ = false |- _ => apply bool_decide_eq_false_1 in H
         end.
  all: subst; cbn [calls].
  all: split; [| split].
  all: try (intros; congruence).
  all: try (intros _; split; [intros Hreads; first [reflexivity | read_succeeded Hreads] |]).
  all: try (intros _ _; reflexivity).
  all: try (intros _;
            repeat match goal with
              | H : gas_result ?y = _ |- context [gas_result ?y] => rewrite H
              | H : lists _ !! _ = _ |- _ => rewrite H
              end; reflexivity).
  all: intros e0 He0.
  all: repeat match goal with
         | H : is_owner _ = _ |- _ => rewrite H in He0; clear H
         end.
  all: cbv iota in He0; congruence.
Qed.

Lemma check_update_back st d mid :
  PyStr.startswith "back:" d = true ->
  st ∈ back_states ->
  check_update (Some st) (Callback d mid) = Some H_back_router.
Proof.
  intros Hd Hst. apply startswith_app in Hd as [r ->].
  unfold back_states in Hst.
  repeat (apply elem_of_cons in Hst as [-> | Hst]);
    try (apply elem_of_nil in Hst; contradiction);
    vm_compute; reflexivity.
Qed.

(** The conversation after a back input, in a state that lists
    [back_router]. *)
Lemma back_input_leads st d mid b user :
  PyStr.startswith "back:" d = true ->
  st ∈ back_states ->
  conversations b !! user = Some st ->
  let u := Update user (Callback d mid) in
  let after := conversations (process_update u b) !! user in
  after = match (back_router u (user_data_of b user, the_world b)).2 with
          | Ok _ => Some (back_target d)
          | Raise _ => Some st
          end ∧
  (d ≠ "back:menu" -> d ≠ "back:exp_cat" -> after = Some (back_target d)) ∧
  (d = "back:menu" ->
   (reads_succeed -> after = Some ST_MENU) ∧
   (∀ e, gas_result (backend (calls (the_world b))
                             (posted (first_menu_read user) user)) = Raise e ->
         after = Some st)) ∧
  (d = "back:exp_cat" ->
   after = match gas_result (backend (calls (the_world b))
                                     (posted (cmd "get_categories") user)) with
           | Ok cats =>
               match lists cats !! "expenses" with
               | Some _ => Some ST_EXP_CATEGORY
               | None => Some st
               end
           | Raise _ => Some st
           end).
Proof.
  intros Hd Hst Hc u after.
  pose proof (check_update_back st d mid Hd Hst) as Hcheck.
  assert (Hafter : after
                   = match (back_router u (user_data_of b user, the_world b)).2 with
                     | Ok _ => Some (back_target d)
                     | Raise _ => Some st
                     end).
  { subst after u. unfold process_update.
    cbn [effective_user the_event]. rewrite Hc, Hcheck.
    pose proof (back_router_goes_to_target user d mid
                  (user_data_of b user, the_world b)) as Hgo.
    unfold post in Hgo.
    unfold run. cbn [callback effective_user].
    destruct (back_router _ _) as [[ud w] [n | e]]; cbn [snd] in *.
    - subst n. simpl. apply lookup_insert_eq.
    - simpl. exact Hc. }
  split; [exact Hafter |].
  pose proof (back_router_returns user d mid
                (user_data_of b user) (the_world b)) as (Hfree & Hmenu & Hcat).
  fold u in Hfree, Hmenu, Hcat. rewrite Hafter.
  split; [| split].
  - intros H1 H2. rewrite (Hfree H1 H2). reflexivity.
  - intros Hm. destruct (Hmenu Hm) as [Hok Hfail]. split.
    + intros Hreads. rewrite (Hok Hreads), Hm. reflexivity.
    + intros e He. rewrite (Hfail e He). reflexivity.
  - intros Hm. rewrite (Hcat Hm), Hm. clear Hfree Hmenu Hcat.
    destruct (gas_result (backend (calls (the_world b))
                                  (posted (cmd "get_categories") user)))
      as [cats | e]; [| reflexivity].
    destruct (lists cats !! "expenses"); reflexivity.
Qed.

(** C3, amended: a back input (a button payload that starts with
    [back:]) is handled in the seven states whose entry of the table
    lists [back_router], and there it yields a defined state: the one
    the payload names (the Menu for a payload [back_router] does not
    know) when [back_router] returns, the state the conversation was in
    when it fails. It returns for every payload that needs no read of
    the backend, whatever the backend does; for [back:menu] it returns
    when the reads of the main screen are answered and fails when the
    first is not; for [back:exp_cat] it returns when the categories
    are answered and list the expenses, and fails otherwise. In the
    states that wait for an amount or a comment, whose screens show no
    back button, a back input is not handled and changes nothing. *)
Theorem back_is_handled_where_listed st d mid :
  PyStr.startswith "back:" d = true ->
  (st ∈ back_states ->
   check_update (Some st) (Callback d mid) = Some H_back_router ∧
   ∀ b user, conversations b !! user = Some st ->
     let u := Update user (Callback d mid) in
     let after := conversations (process_update u b) !! user in
     after = match (back_router u (user_data_of b user, the_world b)).2 with
             | Ok _ => Some (back_target d)
             | Raise _ => Some st
             end ∧
     (d ≠ "back:menu" -> d ≠ "back:exp_cat" -> after = Some (back_target d)) ∧
     (d = "back:menu" ->
      (reads_succeed -> after = Some ST_MENU) ∧
      (∀ e, gas_result (backend (calls (the_world b))
                                (posted (first_menu_read user) user)) = Raise e ->
            after = Some st)) ∧
     (d = "back:exp_cat" ->
      after = match gas_result (backend (calls (the_world b))
                                        (posted (cmd "get_categories") user)) with
              | Ok cats =>
                  match lists cats !! "expenses" with
                  | Some _ => Some ST_EXP_CATEGORY
                  | None => Some st
                  end
              | Raise _ => Some st
              end)) ∧
  (st ∈ no_back_states ->
   check_update (Some st) (Callback d mid) = None ∧
   ∀ b user, conversations b !! user = Some st ->
     process_update (Update user (Callback d mid)) b = b).
Proof.
  intros Hd. split; intros Hst.
  - split; [exact (check_update_back st d mid Hd Hst) |].
    intros b user Hc. exact (back_input_leads st d mid b user Hd Hst Hc).
  - apply startswith_app in Hd as [r ->].
    assert (Hcheck : check_update (Some st) (Callback ("back:" +:+ r) mid) = None).
    { unfold no_back_states in Hst.
      repeat (apply elem_of_cons in Hst as [-> | Hst]);
        try (apply elem_of_nil in Hst; contradiction);
        vm_compute; reflexivity. }
    split; [exact Hcheck |].
    intros b user Hc. unfold process_update.
    cbn [effective_user the_event]. rewrite Hc, Hcheck. reflexivity.
Qed.

(** ** The draft and the pending context *)

(** The pending context of the flows that enter no transaction: the
    period of an analysis, the account of a balance, the kind of debt. *)
Definition pending (ud : user_data) : option string * option string * option string :=
  (ud_analysis_period ud, ud_balance_payment_type ud, ud_debt_type ud).

(** The handlers that write the draft, and the ones that write the
    pending context. *)
Definition writes_draft (h : handler) : bool :=
  match h with
  | H_cmd_start | H_choose_type | H_expense_category | H_income_category
  | H_amount_received | H_payment_type_selected | H_comment_skip
  | H_comment_received => true
  | _ => false
  end.

Definition writes_pending (h : handler) : bool :=
  match h with
  | H_cmd_start | H_analysis_period | H_balance_edit_start | H_debts_choose_type => true
  | _ => false
  end.

(** C8, amended: the draft and the pending context are separate fields
    of the session, and nothing keeps one empty while the other is
    set. A handler that is not among those that write the draft leaves
    the draft as it was, and one that is not among those that write
    the pending context leaves that as it was; the one handler that
    writes both is [cmd_start], which, past the allow-list, empties
    the whole session. So a finished draft is still there when an
    analysis period is chosen, and both are then populated. *)
Theorem draft_and_pending_are_separate :
  (∀ h u s,
      post (callback h u) s
        (fun s' _ =>
           (writes_draft h = false -> ud_tx s'.1 = ud_tx s.1) ∧
           (writes_pending h = false -> pending s'.1 = pending s.1))) ∧
  (∀ h, writes_draft h = true -> writes_pending h = true -> h = H_cmd_start) ∧
  (∀ u s, is_allowed u = true -> post (cmd_start u) s (fun s' _ => s'.1 = no_user_data)).
Proof.
  split; [| split].
  - intros h u [ud w]. unfold pending.
    destruct h; cbn [callback writes_draft writes_pending]; unfold_handlers;
      post_steps; (split; intros Hw; first [discriminate Hw | reflexivity]).
  - intros h. destruct h; simpl; intros; first [discriminate | reflexivity].
  - intros u [ud w] Hall. unfold cmd_start. rewrite Hall. cbn [negb].
    post_steps; reflexivity.
Qed.

(** ** The entry of an expense *)

(** The world that [run] leaves, by the outcome of the callback. *)
Definition world_after (user : Z) (w : world) (r : result next) : world :=
  match r with
  | Ok _ => w
  | Raise _ =>
      World (calls w)
            (outbox w ++ [(user, reply_text (Lit SOMETHING_WENT_WRONG) None)])
            (next_message_id w) (draws w)
  end.

(** An update that a handler of the conversation takes, seen from the
    session of its user. *)
Lemma process_update_view u b h (P : bot -> Prop) :
  check_update (conversations b !! effective_user u) (the_event u) = Some h ->
  post (callback h u) (user_data_of b (effective_user u), the_world b)
    (fun s' r =>
       ∀ b',
         conversations b' !! effective_user u
         = next_conv (conversations b !! effective_user u) r ->
         user_data_of b' (effective_user u) = s'.1 ->
         the_world b' = world_after (effective_user u) s'.2 r ->
         P b') ->
  P (process_update u b).
Proof.
  intros Hcheck Hpost. unfold process_update. rewrite Hcheck.
  apply run_post. eapply post_mono; [exact Hpost |].
  intros [ud' w'] r H. cbn [fst snd] in *.
  destruct r as [n | e]; apply H; cbn [conversations the_world world_after].
  - apply update_state_same.
  - rewrite user_data_of_insert. apply decide_True. reflexivity.
  - reflexivity.
  - reflexivity.
  - rewrite user_data_of_insert. apply decide_True. reflexivity.
  - reflexivity.
Qed.

Lemma process_updates_cons u us b :
  process_updates (u :: us) b = process_updates us (process_update u b).
Proof. reflexivity. Qed.

Lemma check_update_start c i : check_update c (Command "start" i) = Some H_cmd_start.
Proof. reflexivity. Qed.

(** The backend answers every request, and answers [get_categories]
    with [cats]. *)
Definition answers_with (user : Z) (cats : data) : Prop :=
  (∀ h p, ∃ e d, backend h p = Json true e (Some d)) ∧
  (∀ h, ∃ e, backend h (posted (cmd "get_categories") user) = Json true e (Some cats)).

(** The draft of the scenario before the amount, and with it. *)
Definition tools : gmap string value :=
  <["category" := VStr "Tools"]> (<["type" := VStr EXPENSE]> ∅).

Definition tools_for_2500 : gmap string value :=
  <["amount" := VFloat (PyFloat.of_Z 2500)]> tools.

(** The scenario, as far as the category; then the amount; then the
    presses of a payment type and of the skip button. *)
Definition expense_to_amount (user : Z) (m0 m1 : Z) : list update :=
  Update user <$>
    [ Command "start" m0;
      Callback "menu:add" m1;
      Callback "type:expense" m1;
      Callback "expcat:0" m1 ].

Definition expense_flow (user : Z) (m0 m1 m2 : Z) : list update :=
  (expense_to_amount user m0 m1
     ++ (Update user <$> [ TextMsg "2500" m2;
                           Callback "payment:0" m1;
                           Callback "comment:skip" m1 ]))%list.

(** Tests and parses on closed strings are decided by evaluation. *)
Ltac eval_closed :=
  repeat match goal with
    | |- context [bool_decide ?P] =>
        let v := eval vm_compute in (bool_decide P) in
        lazymatch v with
        | true => replace (bool_decide P) with true by (vm_compute; reflexivity)
        | false => replace (bool_decide P) with false by (vm_compute; reflexivity)
        end
    | |- context [PyStr.split_colon ?d !! ?i] =>
        let v := eval vm_compute in (PyStr.split_colon d !! i) in
        lazymatch v with
        | Some _ => replace (PyStr.split_colon d !! i) with v by (vm_compute; reflexivity)
        end
    | |- context [py_int ?d] =>
        let v := eval vm_compute in (py_int d) in
        lazymatch v with
        | Some _ => replace (py_int d) with v by (vm_compute; reflexivity)
        end
    | |- context [(<[?k0 := ?v0]> ?m) !! ?k] =>
        let t := constr:((<[k0 := v0]> m) !! k) in
        let v := eval vm_compute in t in
        lazymatch v with
        | Some _ => replace t with v by (vm_compute; reflexivity)
        | None => replace t with v by (vm_compute; reflexivity)
        end
    | |- context [parse_amount "2500"] =>
        replace (parse_amount "2500") with (Some (PyFloat.of_Z 2500))
          by (vm_compute; reflexivity)
    end.

Ltac flow_simpl Hall Hown Hok Hcats Hexp Hpay :=
  post_simpl;
  unfold is_allowed, cached;
  cbn [effective_user the_event ud_categories Z.to_nat lookup list_lookup];
  rewrite ?Hall, ?Hown, ?Hexp, ?Hpay;
  eval_closed;
  repeat match goal with
    | |- context [(?x :: ?l) !! Z.to_nat 0] =>
        change ((x :: l) !! Z.to_nat 0) with (Some x)
    end;
  try match goal with
    | |- context [gas_result (backend ?h (posted (cmd "get_categories") ?user))] =>
        let e := fresh "e" in
        let Hb := fresh "Hb" in
        destruct (Hcats h) as (e & Hb); rewrite Hb; clear Hb
    | |- context [gas_result (backend ?h ?p)] =>
        let e := fresh "e" in
        let d := fresh "d" in
        let Hb := fresh "Hb" in
        destruct (Hok h p) as (e & d & Hb); rewrite Hb; clear Hb
    end;
  cbn [gas_result negb from_option id].

Ltac flow_steps Hall Hown Hok Hcats Hexp Hpay :=
  flow_simpl Hall Hown Hok Hcats Hexp Hpay;
  repeat (post_step; flow_simpl Hall Hown Hok Hcats Hexp Hpay).

Ltac flow_step h :=
  rewrite process_updates_cons;
  match goal with
  | |- context [process_update ?u ?b] =>
      pattern (process_update u b); apply (process_update_view u b h)
  end.

Ltac next_update h Hall Hown Hok Hcats Hexp Hpay :=
  let b := fresh "b" in
  let Hc := fresh "Hc" in
  let Hu := fresh "Hu" in
  let Hw := fresh "Hw" in
  intros b Hc Hu Hw;
  cbn [next_conv world_after] in Hc, Hw;
  flow_step h;
  [ cbn [effective_user the_event]; rewrite Hc; vm_compute; reflexivity
  | cbn [effective_user]; rewrite Hu, Hw, ?Hc; clear b Hc Hu Hw;
    cbn [callback]; unfold_handlers;
    flow_steps Hall Hown Hok Hcats Hexp Hpay ].

(** An update that no handler takes leaves the bot as it is. *)
Lemma process_update_ignored u b :
  check_update (conversations b !! effective_user u) (the_event u) = None ->
  accepts (CommandHandler "help") (the_event u) = false ->
  process_update u b = b.
Proof. intros Hc Hh. unfold process_update. rewrite Hc, Hh. reflexivity. Qed.

Lemma process_updates_app us1 us2 b :
  process_updates (us1 ++ us2) b = process_updates us2 (process_updates us1 b).
Proof. apply foldl_app. Qed.

(** The scenario reaches the state that waits for the amount, with the
    category in the draft, the categories cached and the message of
    the Menu as the working message; the backend has been asked to
    read three times. *)
Lemma expense_flow_reaches_the_amount b user cats exps m0 m1 :
  user ∈ USER_TG_IDS ->
  user ∈ OWNER_IDS ->
  answers_with user cats ->
  lists cats !! "expenses" = Some ("Tools" :: exps) ->
  let b4 := process_updates (expense_to_amount user m0 m1) b in
  conversations b4 !! user = Some ST_AMOUNT ∧
  user_data_of b4 user = UserData (Some tools) (Some cats) (Some m1) None None None ∧
  calls (the_world b4)
  = (calls (the_world b)
       ++ [posted (cmd "summary_month") user;
           posted (<["limit" := VInt 5]> (cmd "get_last_transactions")) user;
           posted (cmd "get_categories") user])%list.
Proof.
  intros Hall Hown [Hok Hcats] Hexp. cbv zeta.
  apply (bool_decide_eq_true_2 _) in Hall.
  assert (Hown' : is_owner user = true) by (apply bool_decide_eq_true_2; exact Hown).
  unfold expense_to_amount. cbn [fmap list_fmap].
  flow_step H_cmd_start; [apply check_update_start |].
  cbn [callback]. unfold cmd_start.
  flow_steps Hall Hown' Hok Hcats Hexp Hexp.
  next_update H_on_menu Hall Hown' Hok Hcats Hexp Hexp.
  next_update H_choose_type Hall Hown' Hok Hcats Hexp Hexp.
  next_update H_expense_category Hall Hown' Hok Hcats Hexp Hexp.
  intros b4 Hc Hu Hw; cbn [next_conv world_after] in Hc, Hw.
  unfold process_updates; cbn [foldl].
  rewrite Hw, Hc, Hu; cbn [calls].
  split; [reflexivity |]. split; [reflexivity |].
  repeat rewrite <- app_assoc. reflexivity.
Qed.

(** The handler of the amount, on the draft of an expense: the amount
    is written into the draft, the text of the user is deleted, the
    payment types are shown on the working message, if there is one,
    and the handler raises, on the name of the state to return. *)
Lemma amount_received_of_expense user txt a mid ud w :
  user ∈ USER_TG_IDS ->
  parse_amount txt = Some a ->
  default ∅ (ud_tx ud) !! "type" = Some (VStr EXPENSE) ->
  amount_received (Update user (TextMsg txt mid)) (ud, w)
  = ((set_tx (<["amount" := VFloat a]> (default ∅ (ud_tx ud))) ud,
      World (calls w)
            (outbox w
               ++ (user, delete_message mid)
               :: (if truthy (ud_working_message_id ud)
                   then [(user, edit_message_text (default 0 (ud_working_message_id ud))
                                  (Lit "Откуда списываем?")
                                  (Some (kb_payment_types (cached ud "payment_types"))))]
                   else []))
            (next_message_id w) (draws w)),
     Raise (NameError "ST_PAYMENT_TYPE")).
Proof.
  intros Hall Hp Hty.
  assert (Hpost : post (amount_received (Update user (TextMsg txt mid))) (ud, w)
            (fun s' r =>
               s' = (set_tx (<["amount" := VFloat a]> (default ∅ (ud_tx ud))) ud,
                     World (calls w)
                       (outbox w
                          ++ (user, delete_message mid)
                          :: (if truthy (ud_working_message_id ud)
                              then [(user, edit_message_text
                                             (default 0 (ud_working_message_id ud))
                                             (Lit "Откуда списываем?")
                                             (Some (kb_payment_types
                                                      (cached ud "payment_types"))))]
                              else []))
                       (next_message_id w) (draws w))
               ∧ r = Raise (NameError "ST_PAYMENT_TYPE"))).
  { unfold amount_received, is_allowed. cbn [effective_user].
    rewrite (bool_decide_eq_true_2 _ Hall). cbn [negb].
    post_steps.
    all: try congruence.
    all: repeat match goal with
           | H : bool_decide (<["amount" := _]> _ !! "type" = _) = _ |- _ =>
               rewrite lookup_insert_ne in H by done;
               rewrite (bool_decide_eq_true_2 _ Hty) in H; try discriminate H
           end.
    all: simplify_eq.
    all: unfold cached; cbn [ud_categories set_tx].
    all: repeat match goal with
           | H : truthy _ = _ |- _ => rewrite H
           end.
    all: rewrite <- ?app_assoc; split; reflexivity. }
  unfold post in Hpost.
  destruct (amount_received _ _) as [s' r]. cbn [fst snd] in Hpost.
  destruct Hpost as [-> ->]. reflexivity.
Qed.

(** What the scenario leaves: no [add] among the requests it sent;
    the conversation still waiting for the amount, with the amount in
    the draft; and, as the last things sent, the payment types, on the
    message of the Menu (unless its identifier is 0), and the
    apology of [error_handler]. *)
Definition expense_stopped (user m1 : Z) (pts : list string) (b b' : bot) : Prop :=
  PyFloat.to_Q (PyFloat.of_Z 2500) = Some (Qmake 2500 1) ∧
  (∃ reads, calls (the_world b') = (calls (the_world b) ++ reads)%list
            ∧ Forall non_add reads) ∧
  conversations b' !! user = Some ST_AMOUNT ∧
  ud_tx (user_data_of b' user) = Some tools_for_2500 ∧
  ∃ pre,
    outbox (the_world b')
    = (pre ++ (if truthy (Some m1)
               then [(user, edit_message_text m1 (Lit "Откуда списываем?")
                              (Some (kb_payment_types ("Cash" :: pts))))]
               else [])
           ++ [(user, reply_text (Lit SOMETHING_WENT_WRONG) None)])%list.

(** C1, as the code has it: an owner who goes through the entry of an
    expense ([/start], the add button, the expense button, the
    category "Tools", the text "2500", the payment type "Cash", the
    skip button), with a backend that answers, never gets an [add]
    request sent. The handler of the amount stores the amount, shows
    the payment types and then raises [NameError] on the name
    [ST_PAYMENT_TYPE], which no assignment binds: [error_handler]
    apologizes and the conversation stays where it waits for the
    amount. There the presses of the payment type and of the skip
    button are taken by no handler and change nothing. The table of
    [build_app] has the same name as a key, so that [build_app]
    itself raises [NameError] when it evaluates the table. *)
Theorem expense_flow_stops_at_the_amount b user cats exps pts m0 m1 m2 :
  user ∈ USER_TG_IDS ->
  user ∈ OWNER_IDS ->
  answers_with user cats ->
  lists cats !! "expenses" = Some ("Tools" :: exps) ->
  lists cats !! "payment_types" = Some ("Cash" :: pts) ->
  let b4 := process_updates (expense_to_amount user m0 m1) b in
  let b5 := process_update (Update user (TextMsg "2500" m2)) b4 in
  (amount_received (Update user (TextMsg "2500" m2)) (user_data_of b4 user, the_world b4)).2
  = Raise (NameError "ST_PAYMENT_TYPE") ∧
  expense_stopped user m1 pts b b5 ∧
  process_updates (expense_flow user m0 m1 m2) b = b5 ∧
  state_named "ST_PAYMENT_TYPE" = Raise (NameError "ST_PAYMENT_TYPE") ∧
  build_app = Raise (NameError "ST_PAYMENT_TYPE").
Proof.
  intros Hall Hown Hans Hexp Hpay. cbv zeta.
  destruct (expense_flow_reaches_the_amount b user cats exps m0 m1 Hall Hown Hans Hexp)
    as (Hc4 & Hu4 & Hcalls4).
  cbv zeta in Hc4, Hu4, Hcalls4.
  set (b4 := process_updates (expense_to_amount user m0 m1) b) in *.
  assert (Hparse : parse_amount "2500" = Some (PyFloat.of_Z 2500))
    by (vm_compute; reflexivity).
  assert (Hrun : amount_received (Update user (TextMsg "2500" m2))
                   (user_data_of b4 user, the_world b4)
                 = ((UserData (Some tools_for_2500) (Some cats) (Some m1) None None None,
                     World (calls (the_world b4))
                           (outbox (the_world b4)
                              ++ (user, delete_message m2)
                              :: (if truthy (Some m1)
                                  then [(user, edit_message_text m1 (Lit "Откуда списываем?")
                                                 (Some (kb_payment_types ("Cash" :: pts))))]
                                  else []))
                           (next_message_id (the_world b4)) (draws (the_world b4))),
                    Raise (NameError "ST_PAYMENT_TYPE"))).
  { rewrite (amount_received_of_expense user "2500" (PyFloat.of_Z 2500) m2 _ _ Hall Hparse)
      by (rewrite Hu4; vm_compute; reflexivity).
    rewrite Hu4. unfold cached.
    cbn [ud_tx ud_categories ud_working_message_id set_tx from_option id].
    rewrite Hpay. reflexivity. }
  assert (Hb5 : expense_stopped user m1 pts b
                  (process_update (Update user (TextMsg "2500" m2)) b4)
                ∧ conversations (process_update (Update user (TextMsg "2500" m2)) b4) !! user
                  = Some ST_AMOUNT).
  { pattern (process_update (Update user (TextMsg "2500" m2)) b4).
    apply (process_update_view _ _ H_amount_received).
    { cbn [effective_user the_event]. rewrite Hc4. reflexivity. }
    cbn [callback effective_user]. unfold post. rewrite Hrun. cbn [fst snd].
    intros b5 Hc Hu Hw. rewrite Hc4 in Hc. cbn [next_conv world_after calls outbox] in Hc, Hw.
    split; [| exact Hc].
    unfold expense_stopped. rewrite Hc, Hu, Hw. cbn [calls outbox ud_tx].
    split; [vm_compute; reflexivity |].
    split.
    { eexists. split; [exact Hcalls4 |].
      repeat first
        [ apply Forall_nil_2
        | (apply Forall_cons_2;
           [eapply non_add_posted; [cmd_lookup_inner | discriminate] |]) ]. }
    split; [reflexivity |]. split; [reflexivity |].
    exists (outbox (the_world b4) ++ [(user, delete_message m2)])%list.
    rewrite <- !app_assoc. reflexivity. }
  destruct Hb5 as [Hstopped Hc5].
  split; [rewrite Hrun; reflexivity |].
  split; [exact Hstopped |].
  split; [| split; reflexivity].
  unfold expense_flow. rewrite process_updates_app. fold b4.
  cbn [fmap list_fmap]. rewrite process_updates_cons.
  set (b5 := process_update (Update user (TextMsg "2500" m2)) b4) in *.
  rewrite process_updates_cons.
  rewrite (process_update_ignored (Update user (Callback "payment:0" m1)) b5)
    by (cbn [effective_user the_event]; rewrite ?Hc5; reflexivity).
  rewrite process_updates_cons.
  rewrite (process_update_ignored (Update user (Callback "comment:skip" m1)) b5)
    by (cbn [effective_user the_event]; rewrite ?Hc5; reflexivity).
  reflexivity.
Qed.

(** * Further properties of the handlers and of the table *)

(** ** The payloads of the numbered buttons *)

(** The buttons of a list (categories, payment types) carry the index
    of their entry, written in decimal after a prefix; the handler of
    the button reads the index back with [int]. *)

Lemma append_cons (a : ascii) (s t : string) : String a s +:+ t = String a (s +:+ t).
Proof. reflexivity. Qed.

Lemma append_assoc (s1 s2 s3 : string) : (s1 +:+ s2) +:+ s3 = s1 +:+ (s2 +:+ s3).
Proof.
  induction s1 as [| a s1 IH]; [reflexivity |].
  rewrite !append_cons, IH. reflexivity.
Qed.

Lemma bytes_app (s1 s2 : string) :
  PyStr.bytes (s1 +:+ s2) = (PyStr.bytes s1 ++ PyStr.bytes s2)%list.
Proof.
  induction s1 as [| a s1 IH]; [reflexivity |].
  rewrite append_cons. cbn [PyStr.bytes app]. rewrite IH. reflexivity.
Qed.

Lemma rev_app_append (acc t s : string) :
  String.rev_app acc t +:+ s = String.rev_app acc (t +:+ s).
Proof.
  revert t. induction acc as [| a acc IH]; intros t; [reflexivity |].
  cbn [String.rev_app]. rewrite IH. reflexivity.
Qed.

Lemma pretty_N_go_app (x : N) (s : string) : pretty_N_go x s = pretty_N_go x "" +:+ s.
Proof.
  revert s. induction (N.lt_wf_0 x) as [x _ IH]; intros s.
  destruct (decide (x = 0)%N) as [-> | Hx]; [reflexivity |].
  rewrite !(pretty_N_go_step x) by lia.
  rewrite (IH (x `div` 10)%N) by (apply N.div_lt; lia).
  rewrite (IH (x `div` 10)%N ltac:(apply N.div_lt; lia) (String _ "")).
  rewrite append_assoc. reflexivity.
Qed.

Lemma pretty_N_char_digit (x : N) :
  (x < 10)%N ->
  Z.of_N (Ascii.N_of_ascii (pretty_N_char x)) = 48 + Z.of_N x.
Proof.
  intros Hx.
  assert (x = 0 ∨ x = 1 ∨ x = 2 ∨ x = 3 ∨ x = 4 ∨ x = 5 ∨ x = 6 ∨ x = 7 ∨ x = 8 ∨ x = 9)%N
    as H by lia.
  repeat (destruct H as [-> | H]; [reflexivity |]). subst. reflexivity.
Qed.

(** The digits that [pretty_N_go] writes: all decimal, and they read
    back as the number. *)
Lemma pretty_N_go_digits (x : N) :
  forallb PyFloat.is_digit (PyStr.bytes (pretty_N_go x "")) = true ∧
  PyFloat.digits_val (PyStr.bytes (pretty_N_go x "")) = Z.of_N x ∧
  ((0 < x)%N -> PyStr.bytes (pretty_N_go x "") ≠ []).
Proof.
  induction (N.lt_wf_0 x) as [x _ IH].
  destruct (decide (x = 0)%N) as [-> | Hx].
  { split; [reflexivity |]. split; [reflexivity |]. lia. }
  rewrite pretty_N_go_step by lia. rewrite pretty_N_go_app, bytes_app.
  destruct (IH (x `div` 10)%N ltac:(apply N.div_lt; lia)) as (Hd & Hv & _).
  assert (Hm : (x `mod` 10 < 10)%N) by (apply N.mod_lt; lia).
  pose proof (N2Z.is_nonneg (x `mod` 10)) as Hm0.
  cbn [PyStr.bytes]. rewrite pretty_N_char_digit by exact Hm.
  split; [| split].
  - rewrite forallb_app, Hd. cbn [forallb andb]. unfold PyFloat.is_digit.
    rewrite andb_true_r. apply andb_true_intro. split; apply Z.leb_le; lia.
  - unfold PyFloat.digits_val in *. rewrite foldl_snoc, Hv.
    pose proof (N.div_mod x 10 ltac:(lia)) as Hdm. lia.
  - intros _ H. apply app_eq_nil in H as [_ H]. discriminate H.
Qed.

Lemma pretty_nat_digits (i : nat) :
  forallb PyFloat.is_digit (PyStr.bytes (pretty i)) = true ∧
  PyFloat.digits_val (PyStr.bytes (pretty i)) = Z.of_nat i ∧
  PyStr.bytes (pretty i) ≠ [].
Proof.
  unfold pretty, pretty_nat, pretty, pretty_N.
  destruct (decide (N.of_nat i = 0)%N) as [H0 | Hne].
  - destruct i; [| discriminate H0].
    split; [reflexivity |]. split; [reflexivity | discriminate].
  - destruct (pretty_N_go_digits (N.of_nat i)) as (Hd & Hv & Hn).
    split; [exact Hd |]. split; [rewrite Hv; apply nat_N_Z |].
    apply Hn, N.neq_0_lt_0, Hne.
Qed.

Lemma last_digit_is_no_line_feed (ds : list Z) :
  forallb PyFloat.is_digit ds = true -> last ds ≠ Some 10.
Proof.
  intros Hd Hl. apply last_Some in Hl as [l' ->].
  rewrite forallb_app in Hd. apply andb_prop in Hd as [_ Hd].
  discriminate Hd.
Qed.

(** [int(str(i)) = i] *)
Lemma py_int_pretty (i : nat) : py_int (pretty i) = Some (Z.of_nat i).
Proof.
  destruct (pretty_nat_digits i) as (Hd & Hv & Hn). unfold py_int.
  pose proof (last_digit_is_no_line_feed _ Hd) as Hl.
  assert (Hds : match last (PyStr.bytes (pretty i)) with
                | Some 10 => removelast (PyStr.bytes (pretty i))
                | _ => PyStr.bytes (pretty i)
                end = PyStr.bytes (pretty i)).
  { destruct (last (PyStr.bytes (pretty i))) as [z |]; [| reflexivity].
    destruct (decide (z = 10)) as [-> | Hz]; [contradiction Hl; reflexivity |].
    destruct z as [| p | p]; try reflexivity.
    repeat (destruct p as [p | p |]; try reflexivity). contradiction Hz; reflexivity. }
  rewrite Hds, Hd, Hv. rewrite bool_decide_eq_true_2 by exact Hn. reflexivity.
Qed.

Lemma span_digits_all (ds : list Z) :
  forallb PyFloat.is_digit ds = true -> PyFloat.span_digits ds = (ds, []).
Proof.
  induction ds as [| d ds IH]; simpl; [reflexivity |].
  intros H. apply andb_prop in H as [Hd Hds].
  rewrite Hd, (IH Hds). reflexivity.
Qed.

Lemma strip_prefix_append (p s : string) : PyStr.strip_prefix p (p +:+ s) = Some s.
Proof.
  induction p as [| a p IH]; [destruct s; reflexivity |].
  rewrite append_cons. cbn [PyStr.strip_prefix]. rewrite Ascii.eqb_refl. exact IH.
Qed.

(** A payload [prefix ++ str(i)] matches the pattern [^prefix\d+$]. *)
Lemma re_match_numbered (p : string) (i : nat) :
  re_match (Numbered p) (p +:+ pretty i) = true.
Proof.
  unfold re_match. rewrite strip_prefix_append.
  destruct (pretty_nat_digits i) as (Hd & _ & Hn).
  rewrite (span_digits_all _ Hd).
  rewrite (bool_decide_eq_true_2 _ Hn). reflexivity.
Qed.

Lemma no_colon_in_digits (s : string) :
  forallb PyFloat.is_digit (PyStr.bytes s) = true ->
  ∀ acc, PyStr.split_colon_aux acc s = [String.rev acc +:+ s].
Proof.
  induction s as [| a s IH]; intros Hd acc; cbn [PyStr.split_colon_aux].
  - unfold String.rev. rewrite rev_app_append. reflexivity.
  - cbn [PyStr.bytes forallb] in Hd. apply andb_prop in Hd as [Ha Hs].
    destruct (Ascii.eqb_spec a ":"%char) as [-> | _]; [discriminate Ha |].
    rewrite (IH Hs). unfold String.rev. cbn [String.rev_app].
    rewrite !rev_app_append. reflexivity.
Qed.

Lemma split_colon_prefix (p s acc : string) :
  forallb (fun a => negb (Ascii.eqb a ":"%char)) (list_ascii_of_string p) = true ->
  PyStr.split_colon_aux acc (p +:+ String ":"%char s)
  = (String.rev acc +:+ p) :: PyStr.split_colon_aux "" s.
Proof.
  revert acc. induction p as [| a p IH]; intros acc Hp.
  - change ("" +:+ String ":"%char s) with (String ":"%char s).
    cbn [PyStr.split_colon_aux]. rewrite Ascii.eqb_refl.
    unfold String.rev. rewrite rev_app_append. reflexivity.
  - cbn [list_ascii_of_string forallb] in Hp. apply andb_prop in Hp as [Ha Hp].
    rewrite append_cons. cbn [PyStr.split_colon_aux].
    destruct (Ascii.eqb a ":"%char); [discriminate Ha |].
    rewrite (IH _ Hp). unfold String.rev. cbn [String.rev_app].
    rewrite !rev_app_append. reflexivity.
Qed.

(** The prefixes of the numbered payloads. *)
Definition numbered_prefixes : list string := ["expcat"; "inccat"; "payment"].

(** [int(f"{prefix}:{i}".split(":")[1])] is [i]. *)
Lemma index_of_numbered (p : string) (i : nat) s :
  p ∈ numbered_prefixes ->
  index_of (p +:+ String ":"%char (pretty i)) s = (s, Ok i).
Proof.
  intros Hp.
  assert (Hsplit : PyStr.split_colon (p +:+ String ":"%char (pretty i)) !! 1%nat
                   = Some (pretty i)).
  { unfold PyStr.split_colon. rewrite split_colon_prefix.
    - destruct (pretty_nat_digits i) as (Hd & _ & _).
      rewrite (no_colon_in_digits _ Hd). reflexivity.
    - unfold numbered_prefixes in Hp.
      repeat (apply elem_of_cons in Hp as [-> | Hp]); [reflexivity .. |].
      apply elem_of_nil in Hp. contradiction. }
  unfold index_of, second_piece. rewrite Hsplit.
  unfold mbind, M_bind, mret, M_ret. rewrite py_int_pretty, Nat2Z.id. reflexivity.
Qed.

(** ** The keyboards of the lists *)

Lemma list_ind_pairs {A} (P : list A -> Prop) :
  P [] -> (∀ x, P [x]) -> (∀ x y l, P l -> P (x :: y :: l)) -> ∀ l, P l.
Proof.
  intros H0 H1 H2. fix IH 1. intros [| x [| y l]]; [exact H0 | apply H1 |].
  apply H2, IH.
Qed.

Lemma expense_rows_concat (i : nat) (cs : list string) :
  concat (expense_rows i cs)
  = imap (fun j c => Button c ("expcat:" +:+ pretty (i + j)%nat)) cs.
Proof.
  revert i. induction cs as [| c | c1 c2 cs IH] using list_ind_pairs; intros i.
  - reflexivity.
  - cbn [expense_rows concat imap app]. rewrite Nat.add_0_r. reflexivity.
  - cbn [expense_rows concat imap app]. rewrite IH, Nat.add_0_r.
    unfold compose. cbn [imap]. rewrite Nat.add_1_r. do 2 f_equal.
    apply imap_ext. intros j x _. cbn. do 3 f_equal. lia.
Qed.

Lemma expense_rows_rows (i : nat) (cs : list string) :
  Forall (fun row => (1 <= length row <= 2)%nat) (expense_rows i cs) ∧
  length (expense_rows i cs) = Nat.div2 (S (length cs)).
Proof.
  revert i. induction cs as [| c | c1 c2 cs IH] using list_ind_pairs; intros i.
  - split; [constructor | reflexivity].
  - split; [| reflexivity]. repeat constructor.
  - destruct (IH (S (S i))) as [Hrows Hlen]. cbn [expense_rows]. split.
    + constructor; [cbn; lia | exact Hrows].
    + cbn [length]. rewrite Hlen. reflexivity.
Qed.

(** The row [k] of the categories: the entries [2k] and [2k+1] of the
    list, the second only if the list has it. *)
Definition expense_row (i : nat) (cs : list string) (k : nat) (c : string) : list button :=
  Button c ("expcat:" +:+ pretty (i + 2 * k)%nat)
  :: match cs !! S (2 * k) with
     | Some c' => [Button c' ("expcat:" +:+ pretty (i + S (2 * k))%nat)]
     | None => []
     end.

Lemma expense_rows_row (i : nat) (cs : list string) (k : nat) (c : string) :
  cs !! (2 * k)%nat = Some c ->
  expense_rows i cs !! k = Some (expense_row i cs k c).
Proof.
  revert i k. induction cs as [| c1 | c1 c2 cs IH] using list_ind_pairs; intros i k Hk.
  - rewrite lookup_nil in Hk. discriminate Hk.
  - destruct k as [| k]; [| replace (2 * S k)%nat with (S (S (2 * k))) in Hk by lia;
                            discriminate Hk].
    injection Hk as <-. unfold expense_row. cbn [expense_rows lookup list_lookup].
    rewrite Nat.add_0_r. reflexivity.
  - destruct k as [| k].
    + injection Hk as <-. unfold expense_row. cbn [expense_rows lookup list_lookup Nat.mul].
      rewrite Nat.add_0_r, Nat.add_1_r. reflexivity.
    + replace (2 * S k)%nat with (S (S (2 * k))) in Hk by lia.
      cbn [lookup list_lookup] in Hk.
      cbn [expense_rows]. change ((?x :: ?l) !! S k) with (l !! k).
      rewrite (IH (S (S i)) k Hk). unfold expense_row.
      replace (S (2 * S k)) with (S (S (S (2 * k)))) by lia.
      change ((c1 :: c2 :: cs) !! S (S (S (2 * k)))) with (cs !! S (2 * k)).
      replace (S (S i) + 2 * k)%nat with (i + 2 * S k)%nat by lia.
      replace (S (S i) + S (2 * k))%nat with (i + S (S (S (2 * k))))%nat by lia.
      reflexivity.
Qed.

(** X1: The keyboard of the expense categories: one button for each
    category, in the order of the list and numbered from 0, two to a
    row: the row [k] holds the buttons of the entries [2k] and [2k+1],
    so that a list of odd length ends in a row with the one button of
    its last entry; and the back button alone in a row of its own,
    the last. *)
Theorem kb_expense_categories_layout (cs : list string) :
  concat (kb_expense_categories cs)
  = (imap (fun i c => Button c ("expcat:" +:+ pretty i)) cs
       ++ [Button BACK "back:choose_type"])%list ∧
  Forall (fun row => (1 <= length row <= 2)%nat) (kb_expense_categories cs) ∧
  length (kb_expense_categories cs) = S (Nat.div2 (S (length cs))) ∧
  last (kb_expense_categories cs) = Some [Button BACK "back:choose_type"] ∧
  ∀ k c, cs !! (2 * k)%nat = Some c ->
         kb_expense_categories cs !! k
         = Some (Button c ("expcat:" +:+ pretty (2 * k)%nat)
                 :: match cs !! S (2 * k) with
                    | Some c' => [Button c' ("expcat:" +:+ pretty (S (2 * k)))]
                    | None => []
                    end).
Proof.
  unfold kb_expense_categories.
  destruct (expense_rows_rows 0 cs) as [Hrows Hlen].
  split; [| split; [| split; [| split]]].
  - rewrite concat_app, expense_rows_concat. reflexivity.
  - apply Forall_app_2; [exact Hrows |]. repeat constructor.
  - rewrite length_app, Hlen. cbn [length]. lia.
  - apply last_snoc.
  - intros k c Hk. apply lookup_app_l_Some.
    exact (expense_rows_row 0 cs k c Hk).
Qed.

Lemma check_update_numbered st p h rest (i : nat) mid :
  states st = (CallbackQueryHandler (Numbered p), h) :: rest ->
  check_update (Some st) (Callback (p +:+ pretty i) mid) = Some h.
Proof.
  intros Hst. unfold check_update, entry_points. cbn [first_match accepts].
  rewrite Hst. cbn [first_match accepts]. rewrite re_match_numbered. reflexivity.
Qed.

Lemma post_index_of_numbered (p : string) (i : nat) s Q :
  p ∈ numbered_prefixes ->
  Q s (Ok i) -> post (index_of (p +:+ String ":"%char (pretty i))) s Q.
Proof. intros Hp HQ. unfold post. rewrite index_of_numbered by exact Hp. exact HQ. Qed.

Ltac numbered_prefix :=
  unfold numbered_prefixes;
  repeat first [apply list_elem_of_here | apply list_elem_of_further].

(** The steps of a handler of a numbered button, on the payload of the
    button of the entry [i]. *)
Ltac numbered_steps p :=
  post_simpl;
  repeat (first [ apply (post_index_of_numbered p); [numbered_prefix |]
                | post_step ];
          post_simpl).

(** X2: Every expense category has its button, and the button selects it:
    in the state that shows the categories, the press of the button of
    the entry [i] of the cached list moves to the amount and writes
    into the draft that it is an expense of that category. Nothing is
    asked of the backend: the list is the one cached with the
    keyboard. *)
Theorem expense_button_selects_its_category b user (i : nat) (c : string) mid :
  conversations b !! user = Some ST_EXP_CATEGORY ->
  cached (user_data_of b user) "expenses" !! i = Some c ->
  let d := "expcat:" +:+ pretty i in
  Button c d ∈ concat (kb_expense_categories (cached (user_data_of b user) "expenses")) ∧
  let b' := process_update (Update user (Callback d mid)) b in
  conversations b' !! user = Some ST_AMOUNT ∧
  tx_of (user_data_of b' user)
  = <["category" := VStr c]> (<["type" := VStr EXPENSE]> (tx_of (user_data_of b user))) ∧
  calls (the_world b') = calls (the_world b) ∧
  outbox (the_world b')
  = (outbox (the_world b)
       ++ [(user, answer None false); (user, edit_message_text mid AmountPrompt None)])%list.
Proof.
  intros Hc Hi. cbv zeta. split.
  - unfold kb_expense_categories. rewrite concat_app, expense_rows_concat.
    apply elem_of_app. left.
    apply (elem_of_lookup_imap_2 (fun j c => Button c ("expcat:" +:+ pretty (0 + j)%nat))
             _ _ _ Hi).
  - pattern (process_update (Update user (Callback ("expcat:" +:+ pretty i) mid)) b).
    apply (process_update_view _ _ H_expense_category).
    + cbn [effective_user the_event]. rewrite Hc.
      eapply (check_update_numbered ST_EXP_CATEGORY "expcat:"). reflexivity.
    + cbn [callback effective_user]. unfold expense_category.
      numbered_steps "expcat".
      * intros b' Hconv Hud Hw. rewrite Hconv, Hud, Hw.
        cbn [next_conv world_after calls outbox]. unfold tx_of.
        cbn [ud_tx set_tx from_option id]. rewrite <- app_assoc.
        split; [reflexivity |]. split; [| split; reflexivity].
        congruence.
      * congruence.
Qed.

(** X3: The same of the income categories: the button of the entry [i]
    writes the category into the draft twice, as the category and as
    the payment type of an income. *)
Theorem income_button_selects_its_category b user (i : nat) (c : string) mid :
  conversations b !! user = Some ST_INC_CATEGORY ->
  cached (user_data_of b user) "incomes" !! i = Some c ->
  let d := "inccat:" +:+ pretty i in
  [Button c d] ∈ kb_income_categories (cached (user_data_of b user) "incomes") ∧
  let b' := process_update (Update user (Callback d mid)) b in
  conversations b' !! user = Some ST_AMOUNT ∧
  tx_of (user_data_of b' user)
  = <["payment_type" := VStr c]>
      (<["category" := VStr c]> (<["type" := VStr INCOME]> (tx_of (user_data_of b user)))) ∧
  calls (the_world b') = calls (the_world b) ∧
  outbox (the_world b')
  = (outbox (the_world b)
       ++ [(user, answer None false); (user, edit_message_text mid AmountPrompt None)])%list.
Proof.
  intros Hc Hi. cbv zeta. split.
  - unfold kb_income_categories. apply elem_of_app. left.
    apply (elem_of_lookup_imap_2 (fun j c => [Button c ("inccat:" +:+ pretty j)])
             _ _ _ Hi).
  - pattern (process_update (Update user (Callback ("inccat:" +:+ pretty i) mid)) b).
    apply (process_update_view _ _ H_income_category).
    + cbn [effective_user the_event]. rewrite Hc.
      eapply (check_update_numbered ST_INC_CATEGORY "inccat:"). reflexivity.
    + cbn [callback effective_user]. unfold income_category.
      numbered_steps "inccat".
      * intros b' Hconv Hud Hw. rewrite Hconv, Hud, Hw.
        cbn [next_conv world_after calls outbox]. unfold tx_of.
        cbn [ud_tx set_tx from_option id]. rewrite <- app_assoc.
        split; [reflexivity |]. split; [| split; reflexivity].
        congruence.
      * congruence.
Qed.

(** The mark a payment type is shown with. *)
Definition payment_emoji (p : string) : string :=
  if bool_decide (p = "Наличные") then "💵"
  else if bool_decide (p = "QR код") then "📱" else "🏢".

(** X4: [payment_type_selected], the handler the table names for the
    buttons of the payment types, run on the press of the button of
    the entry [i]: when the cached list has that entry, the button,
    labelled with a mark and the name, is on the keyboard of the list,
    and the handler writes the name into the draft as its payment type,
    asks for the comment, which may be skipped, and returns the state
    of the comment; when the list is shorter, the handler fails on the
    index and the session is as it was. Nothing is asked of the
    backend either way. *)
Theorem payment_button_selects_its_type user (i : nat) mid ud w :
  let d := "payment:" +:+ pretty i in
  post (payment_type_selected (Update user (Callback d mid))) (ud, w)
       (fun s' r =>
          calls s'.2 = calls w ∧
          match cached ud "payment_types" !! i with
          | Some p =>
              [Button (payment_emoji p +:+ " " +:+ p) d]
                ∈ kb_payment_types (cached ud "payment_types") ∧
              r = Ok (Goto ST_COMMENT) ∧
              tx_of s'.1 = <["payment_type" := VStr p]> (tx_of ud) ∧
              outbox s'.2
              = (outbox w
                   ++ [(user, answer None false);
                       (user, edit_message_text mid (Lit "Добавишь коммент?")
                                (Some kb_skip_comment))])%list
          | None =>
              r = Raise IndexError ∧ s'.1 = ud ∧
              outbox s'.2 = (outbox w ++ [(user, answer None false)])%list
          end).
Proof.
  cbv zeta. unfold payment_type_selected.
  numbered_steps "payment".
  all: cbn [fst snd calls outbox]; (split; [reflexivity |]).
  - split.
    + unfold kb_payment_types, payment_emoji.
      match goal with H : _ !! _ = Some _ |- _ =>
        apply (elem_of_lookup_imap_2
                 (fun j p =>
                    [Button ((if bool_decide (p = "Наличные") then "💵"
                              else if bool_decide (p = "QR код") then "📱" else "🏢")
                               +:+ " " +:+ p) ("payment:" +:+ pretty j)])
                 _ _ _ H)
      end.
    + unfold tx_of. cbn [ud_tx set_tx from_option id]. rewrite <- app_assoc.
      split; [reflexivity |]. split; reflexivity.
  - split; [reflexivity |]. split; reflexivity.
Qed.

(** ** Where the handlers lead *)

(** What each handler may return, read off its [return] statements. *)
Definition targets (h : handler) : list next :=
  match h with
  | H_cmd_start => [END; Goto ST_MENU]
  | H_on_menu =>
      [END; Goto ST_ADD_CHOOSE_TYPE; Goto ST_MENU; Goto ST_ANALYSIS_PERIOD;
       Goto ST_DEBTS_CHOOSE_TYPE]
  | H_back_router =>
      Goto <$> [ST_MENU; ST_ADD_CHOOSE_TYPE; ST_EXP_CATEGORY; ST_ANALYSIS_PERIOD;
                ST_ANALYSIS_TYPE; ST_DEBTS_CHOOSE_TYPE]
  | H_choose_type => Goto <$> [ST_EXP_CATEGORY; ST_INC_CATEGORY; ST_ADD_CHOOSE_TYPE]
  | H_expense_category | H_income_category => [Goto ST_AMOUNT]
  | H_amount_received => [END; Goto ST_AMOUNT; Goto ST_COMMENT]
  | H_payment_type_selected => [Goto ST_COMMENT]
  | H_comment_skip => [Goto ST_MENU]
  | H_comment_received => [END; Goto ST_COMMENT; Goto ST_MENU]
  | H_analysis_period => Goto <$> [ST_SPECIAL_REPORTS; ST_ANALYSIS_TYPE]
  | H_analysis_type | H_special_reports => [Goto ST_MENU]
  | H_balance_edit_start => [Goto ST_BALANCE_EDIT]
  | H_balance_edit_received => [END; Goto ST_BALANCE_EDIT; Goto ST_MENU]
  | H_debts_choose_type => [Goto ST_DEBTS_CHOOSE_TYPE]
  | H_debts_edit_start => [Goto ST_DEBTS_EDIT]
  | H_debts_edit_received => [END; Goto ST_DEBTS_EDIT; Goto ST_MENU]
  | H_cmd_help => [NoChange]
  end.

Ltac in_list :=
  cbn [fmap list_fmap];
  repeat first [apply list_elem_of_here | apply list_elem_of_further].

(** A handler returns one of its targets, and it ends the conversation
    only for a user who is not on the allow-list. *)
Lemma handler_targets h u s :
  post (callback h u) s
       (fun _ r => ∀ n, r = Ok n -> n ∈ targets h ∧ (n = END -> is_allowed u = false)).
Proof.
  destruct s as [ud w].
  destruct h; cbn [callback targets]; unfold_handlers; post_steps.
  all: (let n := fresh "n" in let Hn := fresh "Hn" in
        intros n Hn; try discriminate Hn; injection Hn as <-).
  all: (split; [in_list | let HE := fresh "HE" in intros HE; try discriminate HE]).
  all: match goal with
       | H : negb (is_allowed ?u) = true |- is_allowed ?u = false =>
           destruct (is_allowed u); [discriminate H | reflexivity]
       end.
Qed.

(** The conversation of the user of an update, after the update: as it
    was, or as a target of the handler that took the update sets it. *)
Lemma process_update_conversation u b :
  let c := conversations b !! effective_user u in
  let c' := conversations (process_update u b) !! effective_user u in
  c' = c ∨
  ∃ h n, check_update c (the_event u) = Some h ∧ n ∈ targets h ∧
         (n = END -> is_allowed u = false) ∧ c' = next_conv c (Ok n).
Proof.
  cbv zeta. unfold process_update.
  destruct (check_update _ _) as [h |] eqn:Hcheck.
  - apply run_post. eapply post_mono; [apply (handler_targets h u) |].
    intros [ud' w'] r Hr. cbn [fst snd conversations].
    destruct r as [n | e]; [| left; reflexivity].
    destruct (Hr n eq_refl) as [Hn HE]. right. exists h, n.
    split; [reflexivity |]. split; [exact Hn |]. split; [exact HE |].
    apply update_state_same.
  - destruct (accepts _ _); [| left; reflexivity].
    apply run_post. unfold post.
    destruct (callback H_cmd_help u _) as [[ud' w'] [n | e]]; left; reflexivity.
Qed.

(** X5: A conversation, once it is there, is never ended: the handlers
    return [ConversationHandler.END] only to a user who is not on the
    allow-list, and such a user has no conversation. Whatever the
    updates, the user stays in some state of the table. *)
Theorem conversation_never_ends b u v st :
  reachable b ->
  conversations b !! v = Some st ->
  is_Some (conversations (process_update u b) !! v).
Proof.
  intros Hb Hc.
  destruct (decide (v = effective_user u)) as [-> | Hv].
  - pose proof (reachable_conversation_allowed b _ _ Hb Hc) as Hall.
    destruct (process_update_conversation u b) as [H | (h & n & _ & _ & HE & H)];
      rewrite H, Hc; [eexists; reflexivity |].
    destruct n as [st' | |]; cbn [next_conv]; try (eexists; reflexivity).
    specialize (HE eq_refl). unfold is_allowed in HE.
    apply bool_decide_eq_false_1 in HE. contradiction.
  - destruct (process_update_other u b v Hv) as [H _]. rewrite H, Hc.
    eexists; reflexivity.
Qed.

(** X6: Two states of the enumeration are never entered: no handler
    returns [ST_EXP_PAYMENT_TYPE] or [ST_BALANCE_CHOOSE_TYPE] (and the
    table has no entry for either). *)
Theorem unused_states_are_never_entered b v :
  reachable b ->
  conversations b !! v ≠ Some ST_EXP_PAYMENT_TYPE ∧
  conversations b !! v ≠ Some ST_BALANCE_CHOOSE_TYPE.
Proof.
  intros Hb. revert v. induction Hb as [| b u Hb IH]; intros v.
  - unfold initial. cbn [conversations]. rewrite lookup_empty. split; discriminate.
  - destruct (decide (v = effective_user u)) as [-> | Hv].
    + destruct (process_update_conversation u b) as [H | (h & n & _ & Hn & _ & H)];
        rewrite H; [apply IH |].
      destruct n as [st' | |]; cbn [next_conv]; [| split; discriminate | apply IH].
      destruct h; cbn [targets fmap list_fmap] in Hn;
        repeat (apply elem_of_cons in Hn as [Hn | Hn]; [simplify_eq; split; discriminate |]);
        apply elem_of_nil in Hn; contradiction.
    + destruct (process_update_other u b v Hv) as [H _]. rewrite H. apply IH.
Qed.

(** The moves of the conversation, state by state; from every state
    [/start] leads to the Menu besides. A back button leads where its
    payload says, whatever the state it is pressed in. *)
Definition back_moves : list state :=
  [ST_ADD_CHOOSE_TYPE; ST_EXP_CATEGORY; ST_ANALYSIS_PERIOD; ST_ANALYSIS_TYPE;
   ST_DEBTS_CHOOSE_TYPE].

Definition successors (st : state) : list state :=
  match st with
  | ST_MENU => [ST_ADD_CHOOSE_TYPE; ST_ANALYSIS_PERIOD; ST_DEBTS_CHOOSE_TYPE; ST_BALANCE_EDIT]
  | ST_ADD_CHOOSE_TYPE => ST_EXP_CATEGORY :: ST_INC_CATEGORY :: back_moves
  | ST_EXP_CATEGORY | ST_INC_CATEGORY => ST_AMOUNT :: back_moves
  | ST_AMOUNT => [ST_COMMENT]
  | ST_ANALYSIS_PERIOD => ST_SPECIAL_REPORTS :: ST_ANALYSIS_TYPE :: back_moves
  | ST_ANALYSIS_TYPE | ST_SPECIAL_REPORTS => back_moves
  | ST_DEBTS_CHOOSE_TYPE => ST_DEBTS_EDIT :: back_moves
  | ST_COMMENT | ST_BALANCE_EDIT | ST_DEBTS_EDIT
  | ST_EXP_PAYMENT_TYPE | ST_BALANCE_CHOOSE_TYPE => []
  end.

(** A target of a handler of the state [st] is a move from [st]. *)
Definition is_move (st : state) (n : next) : bool :=
  match n with
  | Goto st' =>
      bool_decide (st' = st) || bool_decide (st' = ST_MENU)
      || bool_decide (st' ∈ successors st)
  | END | NoChange => true
  end.

Lemma targets_are_moves st h n :
  h = H_cmd_start ∨ h = H_cmd_help ∨ h ∈ (snd <$> states st) ->
  n ∈ targets h -> is_move st n = true.
Proof.
  intros Hh Hn.
  assert (Hall : forallb (fun h => forallb (is_move st) (targets h))
                   (H_cmd_start :: H_cmd_help :: (snd <$> states st)) = true)
    by (destruct st; vm_compute; reflexivity).
  rewrite forallb_forall in Hall. specialize (Hall h).
  rewrite forallb_forall in Hall. apply Hall.
  - apply list_elem_of_In.
    destruct Hh as [-> | [-> | Hh]];
      [apply list_elem_of_here | apply list_elem_of_further, list_elem_of_here |].
    do 2 apply list_elem_of_further. exact Hh.
  - apply list_elem_of_In. exact Hn.
Qed.

(** X7: The conversation moves along the table: after an update, the
    conversation of a user who was in the state [st] is in [st]
    still, or in the Menu, or in one of the successors of [st]. *)
Theorem conversation_moves_along_the_table b u st :
  reachable b ->
  conversations b !! effective_user u = Some st ->
  ∃ st', conversations (process_update u b) !! effective_user u = Some st' ∧
         (st' = st ∨ st' = ST_MENU ∨ st' ∈ successors st).
Proof.
  intros Hb Hc.
  pose proof (reachable_conversation_allowed b _ _ Hb Hc) as Hall.
  destruct (process_update_conversation u b) as [H | (h & n & Hcheck & Hn & HE & H)];
    rewrite H, Hc; [exists st; auto |].
  rewrite Hc in Hcheck.
  assert (Hmove : is_move st n = true).
  { apply (targets_are_moves st h); [| exact Hn].
    apply check_update_in in Hcheck as [-> | (st0 & [= <-] & [Hh | ->])]; auto. }
  destruct n as [st' | |]; cbn [next_conv].
  - exists st'. split; [reflexivity |]. unfold is_move in Hmove.
    apply orb_prop in Hmove as [Hmove | Hmove];
      [apply orb_prop in Hmove as [Hmove | Hmove] |];
      apply bool_decide_eq_true_1 in Hmove; auto.
  - specialize (HE eq_refl). unfold is_allowed in HE.
    apply bool_decide_eq_false_1 in HE. contradiction.
  - exists st. auto.
Qed.

(** ** On whose behalf the backend is asked *)

Definition sent_by (user : Z) (p : gmap string value) : Prop :=
  p !! "user_id" = Some (VInt user).

Lemma sent_by_posted payload user : sent_by user (posted payload user).
Proof. apply lookup_insert_eq. Qed.

Ltac new_calls :=
  repeat rewrite <- app_assoc; cbn [app];
  first [ (exists []; split; [symmetry; apply app_nil_r |])
        | (eexists; split; [reflexivity |]) ].

(** The requests a handler sends carry the identifier of the user of
    the update; [cmd_start] and [cmd_help] send none for a user who is
    not on the allow-list. *)
Lemma handler_calls h u ud w :
  post (callback h u) (ud, w)
       (fun s' _ =>
          ∃ new, calls s'.2 = (calls w ++ new)%list ∧
                 Forall (sent_by (effective_user u)) new ∧
                 (is_allowed u = false -> h = H_cmd_start ∨ h = H_cmd_help -> new = [])).
Proof.
  destruct h; cbn [callback]; unfold_handlers; post_steps.
  all: new_calls.
  all: (split; [repeat first [apply Forall_nil_2
                             | apply Forall_cons_2; [apply sent_by_posted |]] |]).
  all: let Ha := fresh "Ha" in
       let Hh := fresh "Hh" in
       intros Ha Hh;
       first [ reflexivity
             | (destruct Hh as [Hh | Hh]; discriminate Hh)
             | match goal with
               | H : negb (is_allowed ?u) = false |- _ => rewrite Ha in H; discriminate H
               end ].
Qed.

Lemma check_update_without_conversation e h :
  check_update None e = Some h -> h = H_cmd_start.
Proof.
  intros H. apply check_update_in in H as [-> | (st & Hst & _)];
    [reflexivity | discriminate Hst].
Qed.

(** The calls of the world after an update: the ones before, and then
    the ones of the user of the update, none if that user is not on
    the allow-list and has no conversation. *)
Lemma process_update_calls u b :
  ∃ new, calls (the_world (process_update u b)) = (calls (the_world b) ++ new)%list ∧
         Forall (sent_by (effective_user u)) new ∧
         (is_allowed u = false -> conversations b !! effective_user u = None -> new = []).
Proof.
  unfold process_update.
  destruct (check_update _ _) as [h |] eqn:Hcheck.
  - apply run_post. eapply post_mono; [apply (handler_calls h u) |].
    intros [ud' w'] r (new & Hnew & Hby & Hnone). cbn [fst snd] in *.
    assert (Hgoal : ∃ new0, calls w' = (calls (the_world b) ++ new0)%list ∧
              Forall (sent_by (effective_user u)) new0 ∧
              (is_allowed u = false -> conversations b !! effective_user u = None ->
               new0 = [])).
    { exists new. split; [exact Hnew |]. split; [exact Hby |].
      intros Ha Hc. apply Hnone; [exact Ha |]. left.
      rewrite Hc in Hcheck. apply check_update_without_conversation in Hcheck.
      exact Hcheck. }
    destruct r; exact Hgoal.
  - destruct (accepts _ _).
    + apply run_post. eapply post_mono; [apply (handler_calls H_cmd_help u) |].
      intros [ud' w'] r (new & Hnew & Hby & Hnone). cbn [fst snd] in *.
      assert (Hgoal : ∃ new0, calls w' = (calls (the_world b) ++ new0)%list ∧
                Forall (sent_by (effective_user u)) new0 ∧
                (is_allowed u = false -> conversations b !! effective_user u = None ->
                 new0 = [])).
      { exists new. split; [exact Hnew |]. split; [exact Hby |].
        intros Ha _. apply Hnone; auto. }
      destruct r; exact Hgoal.
    + exists []. split; [symmetry; apply app_nil_r |]. split; [constructor | auto].
Qed.

(** X8: The backend is only ever asked on behalf of a user of the
    allow-list: every request the bot has sent carries, under
    ["user_id"], the identifier of such a user. *)
Theorem requests_carry_an_allowed_user b p :
  reachable b ->
  p ∈ calls (the_world b) ->
  ∃ user, user ∈ USER_TG_IDS ∧ p !! "user_id" = Some (VInt user).
Proof.
  intros Hb. revert p. induction Hb as [| b u Hb IH]; intros p Hp.
  - apply elem_of_nil in Hp. contradiction.
  - destruct (process_update_calls u b) as (new & Hnew & Hby & Hnone).
    rewrite Hnew in Hp. apply elem_of_app in Hp as [Hp | Hp]; [apply IH, Hp |].
    destruct (decide (effective_user u ∈ USER_TG_IDS)) as [Hall | Hout].
    + exists (effective_user u). split; [exact Hall |].
      rewrite Forall_forall in Hby. apply Hby, Hp.
    + destruct (reachable_no_session_outside b Hb _ Hout) as [Hc _].
      rewrite Hnone in Hp; [apply elem_of_nil in Hp; contradiction | | exact Hc].
      apply bool_decide_eq_false_2. exact Hout.
Qed.

(** ** No button without a handler *)

(** The keyboard an action shows. *)
Definition keyboard_of (a : action) : option keyboard :=
  match a with
  | reply_text _ kb | edit_message_text _ _ kb | send_message _ _ kb => kb
  | answer _ _ | delete_message _ => None
  end.

(** The press of the button [b] is taken by a handler in the state [st]. *)
Definition taken (st : state) (b : button) : Prop :=
  ∀ mid, is_Some (check_update (Some st) (Callback (callback_data b) mid)).

Definition all_taken (st : state) (kb : keyboard) : Prop :=
  ∀ row b, row ∈ kb -> b ∈ row -> taken st b.

Definition takenb (st : state) (b : button) : bool :=
  match check_update (Some st) (Callback (callback_data b) 0) with
  | Some _ => true
  | None => false
  end.

(** The table does not look at the message a button is pressed on. *)
Lemma first_match_any_message l d mid mid' :
  first_match l (Callback d mid) = first_match l (Callback d mid').
Proof.
  induction l as [| [f h] l IH]; [reflexivity |].
  cbn [first_match]. rewrite IH. destruct f; reflexivity.
Qed.

Lemma check_update_any_message c d mid mid' :
  check_update c (Callback d mid) = check_update c (Callback d mid').
Proof.
  unfold check_update.
  rewrite (first_match_any_message entry_points d mid mid').
  destruct c as [st |]; [| reflexivity].
  rewrite (first_match_any_message (states st) d mid mid').
  rewrite (first_match_any_message fallbacks d mid mid'). reflexivity.
Qed.

Lemma takenb_taken st b : takenb st b = true -> taken st b.
Proof.
  unfold takenb, taken. intros H mid.
  rewrite (check_update_any_message _ _ mid 0).
  destruct (check_update _ _); [eexists; reflexivity | discriminate H].
Qed.

Lemma all_taken_static st kb :
  forallb (forallb (takenb st)) kb = true -> all_taken st kb.
Proof.
  intros H row b Hrow Hb. apply takenb_taken.
  rewrite forallb_forall in H. specialize (H row (proj1 (list_elem_of_In _ _) Hrow)).
  rewrite forallb_forall in H. apply H, list_elem_of_In, Hb.
Qed.

Lemma all_taken_app st kb1 kb2 :
  all_taken st kb1 -> all_taken st kb2 -> all_taken st (kb1 ++ kb2)%list.
Proof.
  intros H1 H2 row b Hrow Hb.
  apply elem_of_app in Hrow as [Hrow | Hrow]; eauto.
Qed.

Lemma taken_numbered st p h rest c (i : nat) :
  states st = (CallbackQueryHandler (Numbered p), h) :: rest ->
  taken st (Button c (p +:+ pretty i)).
Proof.
  intros Hst mid. exists h. cbn [callback_data].
  eapply check_update_numbered. exact Hst.
Qed.

Lemma expense_rows_taken (i : nat) (cs : list string) :
  all_taken ST_EXP_CATEGORY (expense_rows i cs).
Proof.
  revert i. induction cs as [| c | c1 c2 cs IH] using list_ind_pairs;
    intros i row b Hrow Hb; cbn [expense_rows] in Hrow.
  - apply elem_of_nil in Hrow. contradiction.
  - apply list_elem_of_singleton in Hrow as ->.
    apply list_elem_of_singleton in Hb as ->.
    eapply (taken_numbered ST_EXP_CATEGORY "expcat:"). reflexivity.
  - apply elem_of_cons in Hrow as [-> | Hrow]; [| exact (IH _ _ _ Hrow Hb)].
    apply elem_of_cons in Hb as [-> | Hb];
      [| apply list_elem_of_singleton in Hb as ->];
      eapply (taken_numbered ST_EXP_CATEGORY "expcat:"); reflexivity.
Qed.

Lemma kb_expense_categories_taken cs :
  all_taken ST_EXP_CATEGORY (kb_expense_categories cs).
Proof.
  apply all_taken_app; [apply expense_rows_taken |].
  apply all_taken_static. reflexivity.
Qed.

Lemma kb_income_categories_taken cs :
  all_taken ST_INC_CATEGORY (kb_income_categories cs).
Proof.
  apply all_taken_app; [| apply all_taken_static; reflexivity].
  intros row b Hrow Hb.
  apply elem_of_lookup_imap_1 in Hrow as (i & c & -> & _).
  apply list_elem_of_singleton in Hb as ->.
  eapply (taken_numbered ST_INC_CATEGORY "inccat:"). reflexivity.
Qed.

(** The one button that is shown where nothing takes it: the back
    button of the screen of the balances, which [on_menu] shows while
    it stays in the Menu. *)
Definition balance_back (h : handler) (kb : keyboard) (b : button) : Prop :=
  h = H_on_menu ∧ kb = kb_balance_menu ∧ b = Button BACK "back:menu".

Definition shown_well (h : handler) (st : state) (a : action) : Prop :=
  match keyboard_of a with
  | Some kb => ∀ row b, row ∈ kb -> b ∈ row -> taken st b ∨ balance_back h kb b
  | None => True
  end.

Lemma shown_well_taken h st kb :
  all_taken st kb -> ∀ row b, row ∈ kb -> b ∈ row -> taken st b ∨ balance_back h kb b.
Proof. intros H row b Hrow Hb. left. exact (H row b Hrow Hb). Qed.

Lemma shown_well_balance :
  ∀ row b, row ∈ kb_balance_menu -> b ∈ row ->
           taken ST_MENU b ∨ balance_back H_on_menu kb_balance_menu b.
Proof.
  intros row b Hrow Hb. unfold kb_balance_menu in Hrow.
  repeat (apply elem_of_cons in Hrow as [-> | Hrow];
          [apply list_elem_of_singleton in Hb as ->;
           first [left; apply takenb_taken; reflexivity
                 | right; repeat split]
          |]).
  apply elem_of_nil in Hrow. contradiction.
Qed.

Ltac taken_solver :=
  first
    [ apply shown_well_balance
    | (apply shown_well_taken;
       first [ apply kb_expense_categories_taken
             | apply kb_income_categories_taken
             | (apply all_taken_static; vm_compute; reflexivity) ]) ].

Ltac new_out :=
  repeat rewrite <- app_assoc; cbn [app];
  first [ (exists []; split; [symmetry; apply app_nil_r |])
        | (eexists; split; [reflexivity |]) ].

(** What a handler shows when it enters a state can be pressed there. *)
Lemma handler_keyboards h u ud w :
  post (callback h u) (ud, w)
       (fun s' r =>
          ∀ st, r = Ok (Goto st) ->
                ∃ new, outbox s'.2 = (outbox w ++ new)%list ∧
                       Forall (fun ca => shown_well h st ca.2) new).
Proof.
  destruct h; cbn [callback]; unfold_handlers; post_steps.
  all: (let st := fresh "st" in let Hst := fresh "Hst" in
        intros st Hst; try discriminate Hst; injection Hst as <-).
  all: new_out.
  all: repeat first
         [ apply Forall_nil_2
         | (apply Forall_cons_2;
            [unfold shown_well; cbn [snd keyboard_of]; first [exact I | taken_solver] |])
         | match goal with
           | |- Forall _ ((if ?c then _ else _) ++ _) => destruct c; cbn [app]
           end ].
Qed.

(** X9: No button without a handler, but for one: when a handler enters a
    state, every button of every keyboard it has just shown is taken
    by a handler of that state (whatever message it is pressed on),
    except the back button of the screen of the balances, which
    [on_menu] shows while the conversation stays in the Menu. *)
Theorem shown_buttons_are_taken h u ud w :
  post (callback h u) (ud, w)
       (fun s' r =>
          ∀ st, r = Ok (Goto st) ->
                ∃ new, outbox s'.2 = (outbox w ++ new)%list ∧
                       ∀ chat a kb row b,
                         (chat, a) ∈ new -> keyboard_of a = Some kb ->
                         row ∈ kb -> b ∈ row ->
                         taken st b ∨ balance_back h kb b) ∧
  (∀ mid, check_update (Some ST_MENU) (Callback "back:menu" mid) = None).
Proof.
  split; [| reflexivity].
  eapply post_mono; [apply handler_keyboards |].
  intros s' r H st Hr. destruct (H st Hr) as (new & Hnew & Hall).
  exists new. split; [exact Hnew |].
  intros chat a kb row b Hin Hkb Hrow Hb.
  rewrite Forall_forall in Hall. specialize (Hall _ Hin).
  unfold shown_well in Hall. cbn [snd] in Hall. rewrite Hkb in Hall.
  exact (Hall row b Hrow Hb).
Qed.

(** ** Commands, and input that nothing takes *)

Lemma no_state_takes_a_command st n mid :
  first_match (states st) (Command n mid) = None.
Proof. destruct st; reflexivity. Qed.

(** What [/help] is answered with. *)
Definition help_reply (user : Z) : text :=
  if bool_decide (user ∈ USER_TG_IDS) then HelpText else Lit DENY_TEXT.

(** X10: [/help] is answered in every state, and changes nothing: the
    conversation of the user stays where it is, no session is
    written, nothing is asked of the backend; one message is sent, the
    help for a user of the allow-list and the denial for another. *)
Theorem help_changes_nothing b user mid :
  let b' := process_update (Update user (Command "help" mid)) b in
  conversations b' = conversations b ∧
  (∀ v, user_data_of b' v = user_data_of b v) ∧
  calls (the_world b') = calls (the_world b) ∧
  outbox (the_world b')
  = (outbox (the_world b) ++ [(user, reply_text (help_reply user) None)])%list.
Proof.
  cbv zeta.
  assert (Hrun : ∀ (ic : bool),
            run H_cmd_help ic (Update user (Command "help" mid)) b
            = Bot (conversations b)
                  (<[user := user_data_of b user]> (user_data_store b))
                  (World (calls (the_world b))
                         (outbox (the_world b) ++ [(user, reply_text (help_reply user) None)])
                         (next_message_id (the_world b)) (draws (the_world b)))).
  { intros ic. unfold run, help_reply. cbn [callback effective_user].
    unfold cmd_help, is_allowed. cbn [effective_user].
    destruct (bool_decide (user ∈ USER_TG_IDS)); cbn [negb];
      unfold_monad; cbn [fst snd]; destruct ic; reflexivity. }
  assert (Hp : process_update (Update user (Command "help" mid)) b
               = run H_cmd_help (bool_decide (is_Some (conversations b !! user)))
                     (Update user (Command "help" mid)) b).
  { unfold process_update. cbn [effective_user the_event].
    unfold check_update. cbn [entry_points first_match accepts].
    replace (bool_decide ("help" = "start")) with false by (vm_compute; reflexivity).
    destruct (conversations b !! user) as [st |].
    - rewrite no_state_takes_a_command. reflexivity.
    - reflexivity. }
  rewrite Hp, Hrun. cbn [conversations the_world calls outbox].
  split; [reflexivity |]. split; [apply user_data_of_insert_same |].
  split; reflexivity.
Qed.

(** The main screen leaves the session as it is, and comes with the
    keyboard of the role. *)
Lemma main_screen_post user ud w :
  post (main_screen user) (ud, w)
       (fun s' r => s'.1 = ud ∧
                    match r with
                    | Ok (_, kb) => kb = menu_keyboard user
                    | Raise _ => True
                    end).
Proof.
  unfold menu_keyboard. post_steps.
  all: cbn [fst]; split; [reflexivity |]; first [exact I | reflexivity].
Qed.

(** X11: [/start] starts over from any state: for a user of the allow-list
    it empties the session first; then, if the reads of the main
    screen are answered, the Menu is shown and the conversation is in
    the Menu; if one fails, the apology is sent and the conversation
    stays where it was (nowhere, if there was none), with the session
    already emptied. *)
Theorem start_starts_over b user mid :
  user ∈ USER_TG_IDS ->
  let b' := process_update (Update user (Command "start" mid)) b in
  user_data_of b' user = no_user_data ∧
  match (main_screen user (no_user_data, the_world b)).2 with
  | Ok (txt, kb) =>
      conversations b' !! user = Some ST_MENU ∧
      kb = menu_keyboard user ∧
      last (outbox (the_world b')) = Some (user, reply_text txt (Some kb))
  | Raise _ =>
      conversations b' !! user = conversations b !! user ∧
      last (outbox (the_world b'))
      = Some (user, reply_text (Lit SOMETHING_WENT_WRONG) None)
  end.
Proof.
  intros Hall. cbv zeta.
  unfold process_update. cbn [effective_user the_event].
  rewrite check_update_start. unfold run. cbn [callback effective_user].
  unfold cmd_start, is_allowed. cbn [effective_user].
  rewrite (bool_decide_eq_true_2 _ Hall). cbn [negb].
  unfold mbind, M_bind, set_user_data. cbn [fst snd].
  pose proof (main_screen_post user no_user_data (the_world b)) as Hm.
  unfold post in Hm.
  destruct (main_screen user (no_user_data, the_world b)) as [[ud' w'] [[txt kb] | e]];
    cbn [fst snd] in *; destruct Hm as [-> Hkb].
  - subst kb. unfold_monad. cbn [fst snd update_state].
    split; [unfold user_data_of; cbn [user_data_store]; rewrite lookup_insert_eq; reflexivity |].
    split; [apply lookup_insert_eq |]. split; [reflexivity |].
    cbn [the_world outbox]. apply last_snoc.
  - unfold error_handler. unfold_monad. cbn [fst snd].
    split; [unfold user_data_of; cbn [user_data_store]; rewrite lookup_insert_eq; reflexivity |].
    split; [reflexivity |].
    cbn [the_world outbox]. apply last_snoc.
Qed.

(** The states that wait for a text. *)
Definition text_states : list state := [ST_AMOUNT; ST_COMMENT; ST_BALANCE_EDIT; ST_DEBTS_EDIT].

(** The states that wait for a text and show no button. *)
Definition text_only_states : list state := [ST_AMOUNT; ST_BALANCE_EDIT; ST_DEBTS_EDIT].

(** X12: Input that nothing takes is ignored, silently: a command other
    than [/start] and [/help], in any state; a text in a state that
    waits for a button; a button in a state that waits for a text and
    shows none; and, for a user without a conversation, everything but
    the two commands. The bot is left exactly as it was. *)
Theorem unlisted_input_is_ignored b user mid :
  (∀ n, n ≠ "start" -> n ≠ "help" ->
        process_update (Update user (Command n mid)) b = b) ∧
  (∀ st t, conversations b !! user = Some st -> st ∉ text_states ->
           process_update (Update user (TextMsg t mid)) b = b) ∧
  (∀ st d, conversations b !! user = Some st -> st ∈ text_only_states ->
           process_update (Update user (Callback d mid)) b = b) ∧
  (∀ d t, conversations b !! user = None ->
          process_update (Update user (Callback d mid)) b = b ∧
          process_update (Update user (TextMsg t mid)) b = b).
Proof.
  split; [| split; [| split]].
  - intros n Hs Hh. unfold process_update. cbn [effective_user the_event].
    unfold check_update. cbn [entry_points fallbacks first_match accepts].
    rewrite (bool_decide_eq_false_2 _ Hs), (bool_decide_eq_false_2 _ Hh).
    destruct (conversations b !! user) as [st |]; [| reflexivity].
    rewrite no_state_takes_a_command. reflexivity.
  - intros st t Hc Hst. unfold process_update. cbn [effective_user the_event].
    rewrite Hc. unfold check_update. cbn [entry_points fallbacks first_match accepts].
    unfold text_states in Hst.
    destruct st; try reflexivity; exfalso; apply Hst; in_list.
  - intros st d Hc Hst. unfold process_update. cbn [effective_user the_event].
    rewrite Hc. unfold text_only_states in Hst.
    repeat (apply elem_of_cons in Hst as [-> | Hst]); [reflexivity .. |].
    apply elem_of_nil in Hst. contradiction.
  - intros d t Hc. unfold process_update. cbn [effective_user the_event].
    rewrite Hc. split; reflexivity.
Qed.

(** ** Entering a transaction, step by step *)


(** The lists with numbered buttons: the state that shows the list,
    the prefix of the payloads and the key of the cached list. *)
Definition numbered_lists : list (state * string * string) :=
  [ (ST_EXP_CATEGORY, "expcat", "expenses");
    (ST_INC_CATEGORY, "inccat", "incomes") ].

(** X14: A button whose index is past the end of the cached list (a button
    of an older keyboard, say, or a session emptied since) selects
    nothing: the handler fails on the index, the apology is sent, and
    the conversation, the draft and the log of requests are as they
    were. *)
Theorem button_past_the_list_selects_nothing b user st p key (i : nat) mid :
  (st, p, key) ∈ numbered_lists ->
  conversations b !! user = Some st ->
  cached (user_data_of b user) key !! i = None ->
  let b' := process_update (Update user (Callback (p +:+ String ":"%char (pretty i)) mid)) b in
  conversations b' = conversations b ∧
  (∀ v, user_data_of b' v = user_data_of b v) ∧
  calls (the_world b') = calls (the_world b) ∧
  outbox (the_world b')
  = (outbox (the_world b)
       ++ [(user, answer None false);
           (user, reply_text (Lit SOMETHING_WENT_WRONG) None)])%list.
Proof.
  intros Hin Hc Hi. cbv zeta. unfold process_update. cbn [effective_user the_event].
  rewrite Hc. unfold numbered_lists in Hin.
  repeat (apply elem_of_cons in Hin as [[= -> -> ->] | Hin]);
    [| | apply elem_of_nil in Hin; contradiction].
  - replace (check_update _ _) with (Some H_expense_category)
      by (symmetry; eapply (check_update_numbered ST_EXP_CATEGORY "expcat:"); reflexivity).
    apply run_post. cbn [callback effective_user]. unfold expense_category.
    numbered_steps "expcat"; [congruence |].
    cbn [fst snd conversations the_world calls outbox]. rewrite <- app_assoc.
    split; [reflexivity |]. split; [apply user_data_of_insert_same |].
    split; reflexivity.
  - replace (check_update _ _) with (Some H_income_category)
      by (symmetry; eapply (check_update_numbered ST_INC_CATEGORY "inccat:"); reflexivity).
    apply run_post. cbn [callback effective_user]. unfold income_category.
    numbered_steps "inccat"; [congruence |].
    cbn [fst snd conversations the_world calls outbox]. rewrite <- app_assoc.
    split; [reflexivity |]. split; [apply user_data_of_insert_same |].
    split; reflexivity.
Qed.

(** X15: [amount_received] never asks the backend. A text that is no
    amount leaves the draft as it is and asks again; an amount is
    written into the draft. Then, for a draft without a kind or of an
    income, the conversation goes on to the comment; for an expense
    the payment types are shown on the working message, if there is
    one, and the handler fails: the state it means to return,
    [ST_PAYMENT_TYPE], is a name that is not bound. *)
Theorem amount_received_stores_the_amount user txt mid ud w :
  user ∈ USER_TG_IDS ->
  post (amount_received (Update user (TextMsg txt mid))) (ud, w)
       (fun s' r =>
          calls s'.2 = calls w ∧
          match parse_amount txt with
          | None =>
              r = Ok (Goto ST_AMOUNT) ∧ ud_tx s'.1 = ud_tx ud ∧
              ∃ i, ud_working_message_id s'.1 = Some i ∧
                   last (outbox s'.2)
                   = Some (user, send_message i
                                   (AmountNotUnderstood "2500 / 2 500 / 2500,50 / 2к") None)
          | Some a =>
              ud_tx s'.1 = Some (<["amount" := VFloat a]> (tx_of ud)) ∧
              if bool_decide (tx_of ud !! "type" = Some (VStr EXPENSE))
              then r = Raise (NameError "ST_PAYMENT_TYPE") ∧
                   outbox s'.2
                   = (outbox w
                        ++ (user, delete_message mid)
                        :: (if truthy (ud_working_message_id ud)
                            then [(user, edit_message_text
                                           (default 0 (ud_working_message_id ud))
                                           (Lit "Откуда списываем?")
                                           (Some (kb_payment_types
                                                    (cached ud "payment_types"))))]
                            else []))%list
              else r = Ok (Goto ST_COMMENT)
          end).
Proof.
  intros Hall. unfold amount_received, is_allowed, tx_of. cbn [effective_user].
  rewrite (bool_decide_eq_true_2 _ Hall). cbn [negb].
  post_steps.
  all: cbn [fst snd calls outbox ud_tx ud_working_message_id].
  all: (split; [reflexivity |]).
  all: repeat match goal with
         | H : bool_decide (<["amount" := _]> _ !! "type" = _) = _ |- _ =>
             rewrite lookup_insert_ne in H by done; rewrite H
         end.
  all: unfold cached; cbn [ud_categories set_tx].
  all: repeat match goal with
         | H : truthy _ = _ |- _ => rewrite H
         end.
  all: rewrite <- ?app_assoc.
  all: try (split; [reflexivity |]; first [reflexivity | split; reflexivity]).
  all: split; [reflexivity |]; split; [reflexivity |].
  all: eexists; split; [reflexivity | rewrite ?app_assoc; apply last_snoc].
Qed.

(** ** Special reports *)

Lemma append_inv_head (p s t : string) : p +:+ s = p +:+ t -> s = t.
Proof.
  induction p as [| a p IH]; [exact (fun H => H) |].
  rewrite !append_cons. intros [= H]. exact (IH H).
Qed.

(** The three reports [special_reports] knows. *)
Definition special_kinds : list string := ["compare"; "average"; "top"].

(** X16: A payload [special:...] that names none of the three reports is
    taken by [special_reports] all the same, and fails there: the
    text of the report was never bound. The working message is
    deleted and forgotten, nothing is asked of the backend, the
    apology is sent, and the conversation stays in the special
    reports. *)
Theorem unknown_special_report_fails b user kind mid :
  conversations b !! user = Some ST_SPECIAL_REPORTS ->
  kind ∉ special_kinds ->
  let u := Update user (Callback ("special:" +:+ kind) mid) in
  let b' := process_update u b in
  (special_reports u (user_data_of b user, the_world b)).2 = Raise UnboundLocalError ∧
  conversations b' = conversations b ∧
  user_data_of b' user = set_working_message_id None (user_data_of b user) ∧
  calls (the_world b') = calls (the_world b) ∧
  last (outbox (the_world b')) = Some (user, reply_text (Lit SOMETHING_WENT_WRONG) None).
Proof.
  intros Hc Hk. cbv zeta.
  assert (Hne : ∀ k, k ∈ special_kinds ->
                     bool_decide ("special:" +:+ kind = "special:" +:+ k) = false).
  { intros k Hin. apply bool_decide_eq_false_2. intros Heq.
    apply Hk. apply append_inv_head in Heq as ->. exact Hin. }
  assert (Hpost : post (special_reports (Update user (Callback ("special:" +:+ kind) mid)))
                    (user_data_of b user, the_world b)
                    (fun s' r =>
                       r = Raise UnboundLocalError ∧
                       s'.1 = set_working_message_id None (user_data_of b user) ∧
                       calls s'.2 = calls (the_world b))).
  { unfold special_reports. post_simpl. do 6 (post_step; post_simpl).
    change "special:compare" with ("special:" +:+ "compare").
    change "special:average" with ("special:" +:+ "average").
    change "special:top" with ("special:" +:+ "top").
    rewrite !Hne by (unfold special_kinds; in_list).
    post_steps. auto. }
  split.
  { unfold post in Hpost. destruct Hpost as [H _]. exact H. }
  unfold process_update. cbn [effective_user the_event]. rewrite Hc.
  replace (check_update _ _) with (Some H_special_reports) by reflexivity.
  apply run_post. cbn [callback effective_user].
  eapply post_mono; [exact Hpost |].
  intros [ud' w'] r (-> & Hud & Hcalls). cbn [fst snd] in *. subst ud'.
  cbn [conversations the_world calls outbox].
  split; [reflexivity |].
  split; [unfold user_data_of; cbn [user_data_store]; rewrite lookup_insert_eq; reflexivity |].
  split; [exact Hcalls | apply last_snoc].
Qed.

(** ** A saved draft and a Menu that fails *)

(** X17: Only the [add] request of [save_and_finish_] is inside [try]: the
    reads of the Menu that follow it are not. When the backend takes
    the [add] and then fails on the first read of the Menu, the
    acknowledgment has been sent, the handler fails, the apology
    follows, and the conversation stays in the comment with the draft
    still in the session: the skip button, pressed again, sends the
    same draft again. *)
Theorem saved_draft_stays_when_the_menu_fails b user d mid a e :
  conversations b !! user = Some ST_COMMENT ->
  re_match (Whole ["comment:skip"]) d = true ->
  let t := <["comment" := VStr ""]> (tx_of (user_data_of b user)) in
  let request := posted (add_payload t) user in
  let read := posted (first_menu_read user) user in
  t !! "amount" = Some (VFloat a) ->
  (∃ x, gas_result (backend (calls (the_world b)) request) = Ok x) ->
  gas_result (backend (calls (the_world b) ++ [request]) read) = Raise e ->
  let b' := process_update (Update user (Callback d mid)) b in
  conversations b' !! user = Some ST_COMMENT ∧
  ud_tx (user_data_of b' user) = Some t ∧
  calls (the_world b') = (calls (the_world b) ++ [request; read])%list ∧
  ∃ pre i header,
    outbox (the_world b')
    = (pre ++ [(user, send_message i (SavedText header t) None);
               (user, reply_text (Lit SOMETHING_WENT_WRONG) None)])%list.
Proof.
  intros Hc Hd. cbv zeta. unfold tx_of, first_menu_read. intros Ha [x Hx] He.
  pattern (process_update (Update user (Callback d mid)) b).
  apply (process_update_view _ _ H_comment_skip).
  { cbn [effective_user the_event]. rewrite Hc.
    unfold check_update, entry_points. cbn [states first_match accepts].
    rewrite Hd. reflexivity. }
  cbn [callback effective_user]. unfold comment_skip.
  post_steps.
  all: try match goal with
         | H : <["comment" := _]> _ !! "comment" = _ |- _ =>
             rewrite lookup_insert_eq in H; simplify_eq
         end.
  all: repeat match goal with
         | H : gas_result ?y = _, H' : gas_result ?y = _ |- _ =>
             rewrite H in H'; first [discriminate H' | injection H' as <- | clear H']
         | H : is_owner _ = _ |- _ => rewrite H in *; clear H
         | H : ?y = Some _, H' : ?y = _ |- _ =>
             rewrite H in H'; first [discriminate H' | clear H']
         end.
  all: try discriminate.
  all: intros b' Hconv Hud Hw; rewrite Hconv, Hud, Hw, Hc.
  all: cbn [next_conv world_after calls outbox ud_tx set_tx set_working_message_id].
  all: repeat rewrite <- app_assoc; cbn [app].
  all: split; [reflexivity |]; split; [reflexivity |]; split; [reflexivity |].
  all: destruct (truthy _); cbn [app].
  all: first
         [ (eexists (outbox (the_world b) ++ [_])%list; do 2 eexists;
            rewrite <- app_assoc; reflexivity)
         | (eexists (outbox (the_world b) ++ [_; _])%list; do 2 eexists;
            rewrite <- app_assoc; reflexivity) ].
Qed.

(** ** Setting a balance and a debt *)

(** The requests of the two edits: the amount, and the account or the
    kind of debt chosen before, [cash] and [i_owe] when none is in the
    session. *)
Definition set_balance_request (ud : user_data) (user : Z) (amt : spec_float)
    : gmap string value :=
  posted (<["payment_type" := VStr (default "cash" (ud_balance_payment_type ud))]>
            (<["amount" := VFloat amt]> (cmd "set_balance"))) user.


(** The text is refused: the handler asks again and stays. *)
Definition refused (st : state) (w : world) (s' : user_data * world) (r : result next)
    : Prop :=
  r = Ok (Goto st) ∧ calls s'.2 = calls w.

(** The request is sent: when the backend refuses it the handler
    fails; when it is taken, the Menu of an owner is read and shown,
    whoever the user is, and the conversation is in the Menu unless
    one of those reads fails. *)
Definition sent (user : Z) (request : gmap string value) (w : world)
    (s' : user_data * world) (r : result next) : Prop :=
  match gas_result (backend (calls w) request) with
  | Raise e => r = Raise e ∧ calls s'.2 = (calls w ++ [request])%list
  | Ok _ =>
      (∃ reads, calls s'.2 = (calls w ++ request :: reads)%list ∧ Forall non_add reads) ∧
      match r with
      | Ok n =>
          n = Goto ST_MENU ∧
          ∃ i s txs, last (outbox s'.2)
                     = Some (user, send_message i (MainScreenOwner s txs) (Some kb_main_owner))
      | Raise _ => True
      end
  end.

(** What an edit does with a text, by what [parse_amount] makes of it
    and by the test [amt < 0] of the handler. *)
Definition edited (st : state) (user : Z) (request : spec_float -> gmap string value)
    (txt : string) (w : world) (s' : user_data * world) (r : result next) : Prop :=
  match parse_amount txt with
  | Some amt =>
      if PyFloat.ltb amt PyFloat.zero then refused st w s' r
      else sent user (request amt) w s' r
  | None => refused st w s' r
  end.

Ltac edited_solver :=
  unfold refused, sent; cbn [fst snd calls outbox];
  repeat match goal with
    | H : gas_result ?y = _ |- context [gas_result ?y] => rewrite H
    end;
  first
    [ (split; reflexivity)
    | (split;
       [reads_solver
       | first [exact I
               | (split; [reflexivity | do 3 eexists; apply last_snoc])]]) ].

Lemma balance_edit_received_edited user txt mid ud w :
  user ∈ USER_TG_IDS ->
  post (balance_edit_received (Update user (TextMsg txt mid))) (ud, w)
       (edited ST_BALANCE_EDIT user (set_balance_request ud user) txt w).
Proof.
  intros Hall. unfold balance_edit_received, is_allowed, edited, set_balance_request.
  cbn [effective_user]. rewrite (bool_decide_eq_true_2 _ Hall). cbn [negb].
  post_steps; edited_solver.
Qed.


Lemma post_second_piece d p s Q :
  PyStr.split_colon d !! 1%nat = Some p ->
  Q s (Ok p) -> post (second_piece d) s Q.
Proof. intros Hd HQ. unfold post, second_piece. rewrite Hd. exact HQ. Qed.

(** The accounts whose balance can be edited. *)
Definition balance_accounts : list string := ["cash"; "qr"; "bn"].

(** In the Menu, the payload of an account opens the edit of its
    balance: the account and the message are remembered and the
    conversation waits for the amount. The handler asks for no role. *)
Lemma balance_edit_start_opens b user acct mid :
  conversations b !! user = Some ST_MENU ->
  acct ∈ balance_accounts ->
  let b' := process_update (Update user (Callback ("balance:" +:+ acct) mid)) b in
  conversations b' !! user = Some ST_BALANCE_EDIT ∧
  user_data_of b' user
  = set_working_message_id (Some mid)
      (set_balance_payment_type acct (user_data_of b user)) ∧
  calls (the_world b') = calls (the_world b).
Proof.
  intros Hc Hin. cbv zeta. unfold balance_accounts in Hin.
  pattern (process_update (Update user (Callback ("balance:" +:+ acct) mid)) b).
  apply (process_update_view _ _ H_balance_edit_start).
  { cbn [effective_user the_event]. rewrite Hc.
    repeat (apply elem_of_cons in Hin as [-> | Hin]); [reflexivity .. |].
    apply elem_of_nil in Hin. contradiction. }
  cbn [callback effective_user]. unfold balance_edit_start.
  assert (Hpiece : PyStr.split_colon ("balance:" +:+ acct) !! 1%nat = Some acct).
  { repeat (apply elem_of_cons in Hin as [-> | Hin]); [reflexivity .. |].
    apply elem_of_nil in Hin. contradiction. }
  post_simpl.
  repeat (first [apply (post_second_piece _ _ _ _ Hpiece) | post_step]; post_simpl).
  intros b' Hconv Hud Hw. rewrite Hconv, Hud, Hw.
  cbn [next_conv world_after calls]. auto.
Qed.

(** ** A whole income *)

(** The entry of an income, from the choice of the kind on: the income
    button, the button of the entry [i] of the categories, the amount
    and the comment. *)
Definition income_flow (user : Z) (i : nat) (amount comment : string) (m1 m2 m3 : Z)
    : list update :=
  Update user <$>
    [ Callback "type:income" m1;
      Callback ("inccat:" +:+ pretty i) m1;
      TextMsg amount m2;
      TextMsg comment m3 ].

(** The request that records an income of the category [c]: the
    category is sent as the payment type too. *)
Definition income_request (user : Z) (c : string) (a : spec_float) (comment : string)
    : gmap string value :=
  posted (<["comment" := VStr comment]>
            (<["payment_type" := VStr c]>
               (<["amount" := VFloat a]>
                  (<["category" := VStr c]>
                     (<["type" := VStr INCOME]> (cmd "add")))))) user.

(** The draft of an income, once it is complete. *)
Definition income_draft (c : string) (a : spec_float) (comment : string)
    : gmap string value :=
  <["comment" := VStr comment]>
    (<["amount" := VFloat a]>
       (<["payment_type" := VStr c]>
          (<["category" := VStr c]> (<["type" := VStr INCOME]> ∅)))).

Ltac lookup_inserted :=
  repeat first [rewrite lookup_insert_eq | rewrite lookup_insert_ne by done].

Lemma add_payload_income user c a comment :
  posted (add_payload (income_draft c a comment)) user = income_request user c a comment.
Proof.
  unfold income_request, add_payload, income_draft, field.
  lookup_inserted. reflexivity.
Qed.

(** The four steps, each from the session it finds. *)
Lemma choose_type_income user mid ud w e cats incs :
  backend (calls w) (posted (cmd "get_categories") user) = Json true e (Some cats) ->
  lists cats !! "incomes" = Some incs ->
  post (choose_type (Update user (Callback "type:income" mid))) (ud, w)
       (fun s' r =>
          r = Ok (Goto ST_INC_CATEGORY) ∧
          ud_tx s'.1 = Some ∅ ∧
          ud_categories s'.1 = Some cats ∧
          calls s'.2 = (calls w ++ [posted (cmd "get_categories") user])%list).
Proof.
  intros Hb Hincs. unfold choose_type.
  post_steps.
  all: repeat match goal with
         | H : gas_result _ = _ |- _ => rewrite Hb in H; cbn [gas_result] in H
         | H : bool_decide (_ = _) = _ |- _ =>
             first [vm_compute in H; discriminate H | clear H]
         end.
  all: simplify_eq.
  cbn [fst snd ud_tx ud_categories calls]. auto.
Qed.

Lemma income_category_selects user (i : nat) mid ud w c :
  cached ud "incomes" !! i = Some c ->
  post (income_category (Update user (Callback ("inccat:" +:+ pretty i) mid))) (ud, w)
       (fun s' r =>
          r = Ok (Goto ST_AMOUNT) ∧
          ud_tx s'.1
          = Some (<["payment_type" := VStr c]>
                    (<["category" := VStr c]> (<["type" := VStr INCOME]> (tx_of ud)))) ∧
          calls s'.2 = calls w).
Proof.
  intros Hi. unfold income_category, tx_of.
  numbered_steps "inccat"; simplify_eq. auto.
Qed.

Lemma amount_received_of_income user txt a mid ud w :
  user ∈ USER_TG_IDS ->
  parse_amount txt = Some a ->
  tx_of ud !! "type" = Some (VStr INCOME) ->
  post (amount_received (Update user (TextMsg txt mid))) (ud, w)
       (fun s' r =>
          r = Ok (Goto ST_COMMENT) ∧
          ud_tx s'.1 = Some (<["amount" := VFloat a]> (tx_of ud)) ∧
          calls s'.2 = calls w).
Proof.
  intros Hall Hp Hty. unfold amount_received, is_allowed, tx_of in *.
  cbn [effective_user]. rewrite (bool_decide_eq_true_2 _ Hall). cbn [negb].
  post_steps.
  all: try congruence.
  all: repeat match goal with
         | H : bool_decide (<["amount" := _]> _ !! "type" = _) = true |- _ =>
             rewrite lookup_insert_ne in H by done;
             apply bool_decide_eq_true_1 in H; rewrite Hty in H; discriminate H
         end.
  all: simplify_eq; auto.
Qed.

Lemma comment_received_sends user txt mid ud w :
  user ∈ USER_TG_IDS ->
  PyStr.strip txt ≠ "" ->
  post (comment_received (Update user (TextMsg txt mid))) (ud, w)
       (fun s' _ =>
          ∃ reads,
            calls s'.2
            = (calls w
                 ++ posted (add_payload (<["comment" := VStr (PyStr.strip txt)]> (tx_of ud))) user
                 :: reads)%list
            ∧ Forall non_add reads).
Proof.
  intros Hall Hs. unfold comment_received, is_allowed, tx_of.
  cbn [effective_user]. rewrite (bool_decide_eq_true_2 _ Hall). cbn [negb].
  post_steps.
  all: try match goal with
         | H : _ && bool_decide (_ = "") = true |- _ =>
             rewrite (bool_decide_eq_false_2 _ Hs), andb_false_r in H; discriminate H
         end.
  all: cbn [fst snd calls].
  all: reads_solver.
Qed.

Lemma comment_received_keeps_the_draft user txt mid ud w :
  user ∈ USER_TG_IDS ->
  PyStr.strip txt ≠ "" ->
  post (comment_received (Update user (TextMsg txt mid))) (ud, w)
       (fun s' _ => ud_tx s'.1 = Some (<["comment" := VStr (PyStr.strip txt)]> (tx_of ud))).
Proof.
  intros Hall Hs. unfold comment_received, is_allowed, tx_of.
  cbn [effective_user]. rewrite (bool_decide_eq_true_2 _ Hall). cbn [negb].
  post_steps.
  all: try match goal with
         | H : _ && bool_decide (_ = "") = true |- _ =>
             rewrite (bool_decide_eq_false_2 _ Hs), andb_false_r in H; discriminate H
         end.
  all: reflexivity.
Qed.

(** C10: in every completed entry of an income, the [add] request
    carries the selected category as its payment type. From the state
    that asks for the kind of transaction, the income button, the
    button of the entry [i] of the income categories, a text that
    parses as an amount and a comment that is not blank make the bot
    send, after the read of the categories, one [add] request, with
    the entry [i] of the list the backend gave both as the category
    and as the payment type; whatever the backend answers to it, every
    request that follows is a read. [income_category], when it
    returns, has written the selected entry under both keys of the
    draft. And whatever updates the bot has handled, every [add]
    request of an income that it has sent carries as its payment type
    the very string it carries as its category. *)
Theorem income_payment_type_is_category :
  (∀ b user e cats incs (i : nat) c amount a comment m1 m2 m3,
      user ∈ USER_TG_IDS ->
      conversations b !! user = Some ST_ADD_CHOOSE_TYPE ->
      backend (calls (the_world b)) (posted (cmd "get_categories") user)
      = Json true e (Some cats) ->
      lists cats !! "incomes" = Some incs ->
      incs !! i = Some c ->
      parse_amount amount = Some a ->
      PyStr.strip comment ≠ "" ->
      let b' := process_updates (income_flow user i amount comment m1 m2 m3) b in
      let request := income_request user c a (PyStr.strip comment) in
      request !! "category" = Some (VStr c) ∧
      request !! "payment_type" = Some (VStr c) ∧
      ud_tx (user_data_of b' user) = Some (income_draft c a (PyStr.strip comment)) ∧
      ∃ reads,
        calls (the_world b')
        = (calls (the_world b) ++ posted (cmd "get_categories") user :: request :: reads)%list
        ∧ Forall non_add reads) ∧
  (∀ b p,
      reachable b ->
      p ∈ calls (the_world b) ->
      p !! "cmd" = Some (VStr "add") ->
      p !! "type" = Some (VStr INCOME) ->
      ∃ c, p !! "category" = Some (VStr c) ∧ p !! "payment_type" = Some (VStr c)) ∧
  (∀ user d mid ud w,
      post (income_category (Update user (Callback d mid))) (ud, w)
        (fun s' r =>
           match r with
           | Ok n =>
               n = Goto ST_AMOUNT ∧
               ∃ piece idx cat,
                 PyStr.split_colon d !! 1%nat = Some piece ∧
                 py_int piece = Some idx ∧
                 cached ud "incomes" !! Z.to_nat idx = Some cat ∧
                 tx_of s'.1
                 = <["payment_type" := VStr cat]>
                     (<["category" := VStr cat]>
                        (<["type" := VStr INCOME]> (tx_of ud)))
           | Raise _ => s'.1 = ud
           end)).
Proof.
  split; [| split].
  - intros b user e cats incs i c amount a comment m1 m2 m3
      Hall Hc Hb Hincs Hi Hp Hs. cbv zeta.
    split; [unfold income_request, posted; lookup_inserted; reflexivity |].
    split; [unfold income_request, posted; lookup_inserted; reflexivity |].
    assert (Hamount : amount ≠ "") by (intros ->; discriminate Hp).
    assert (Hcomment : comment ≠ "") by (intros ->; apply Hs; reflexivity).
    unfold income_flow. cbn [fmap list_fmap].
    (* the kind *)
    rewrite process_updates_cons.
    pattern (process_update (Update user (Callback "type:income" m1)) b).
    apply (process_update_view _ _ H_choose_type).
    { cbn [effective_user the_event]. rewrite Hc. reflexivity. }
    cbn [callback effective_user].
    eapply post_mono; [apply (choose_type_income user m1 _ _ e cats incs Hb Hincs) |].
    intros [ud1 w1] r1 (-> & Htx1 & Hcats1 & Hcalls1) b1 Hc1 Hu1 Hw1.
    cbn [fst snd next_conv world_after] in *.
    (* the category *)
    rewrite process_updates_cons.
    pattern (process_update (Update user (Callback ("inccat:" +:+ pretty i) m1)) b1).
    apply (process_update_view _ _ H_income_category).
    { cbn [effective_user the_event]. rewrite Hc1.
      eapply (check_update_numbered ST_INC_CATEGORY "inccat:"). reflexivity. }
    cbn [callback effective_user]. rewrite Hu1, Hw1.
    eapply post_mono;
      [apply (income_category_selects user i m1 ud1 w1 c);
       unfold cached; rewrite Hcats1, Hincs; exact Hi |].
    intros [ud2 w2] r2 (-> & Htx2 & Hcalls2) b2 Hc2 Hu2 Hw2.
    cbn [fst snd next_conv world_after] in *.
    unfold tx_of in Htx2. rewrite Htx1 in Htx2. cbn [from_option id] in Htx2.
    (* the amount *)
    rewrite process_updates_cons.
    pattern (process_update (Update user (TextMsg amount m2)) b2).
    apply (process_update_view _ _ H_amount_received).
    { cbn [effective_user the_event]. rewrite Hc2.
      unfold check_update, entry_points. cbn [states first_match accepts].
      rewrite (bool_decide_eq_false_2 _ Hamount). reflexivity. }
    cbn [callback effective_user]. rewrite Hu2, Hw2.
    eapply post_mono;
      [apply (amount_received_of_income user amount a m2 ud2 w2 Hall Hp);
       unfold tx_of; rewrite Htx2; cbn [from_option id]; lookup_inserted; reflexivity |].
    intros [ud3 w3] r3 (-> & Htx3 & Hcalls3) b3 Hc3 Hu3 Hw3.
    cbn [fst snd next_conv world_after] in *.
    unfold tx_of in Htx3. rewrite Htx2 in Htx3. cbn [from_option id] in Htx3.
    (* the comment *)
    rewrite process_updates_cons.
    pattern (process_update (Update user (TextMsg comment m3)) b3).
    apply (process_update_view _ _ H_comment_received).
    { cbn [effective_user the_event]. rewrite Hc3.
      unfold check_update, entry_points. cbn [states first_match accepts].
      rewrite (bool_decide_eq_false_2 _ Hcomment). reflexivity. }
    cbn [callback effective_user]. rewrite Hu3, Hw3.
    pose proof (comment_received_sends user comment m3 ud3 w3 Hall Hs) as Hsend.
    pose proof (comment_received_keeps_the_draft user comment m3 ud3 w3 Hall Hs) as Hkeep.
    unfold post in *.
    destruct (comment_received _ _) as [[ud4 w4] r4]. cbn [fst snd] in *.
    destruct Hsend as (reads & Hcalls4 & Hreads).
    intros b4 _ Hu4 Hw4. unfold process_updates. cbn [foldl].
    rewrite Hu4. unfold tx_of in Hkeep, Hcalls4. rewrite Htx3 in Hkeep, Hcalls4.
    cbn [from_option id] in Hkeep, Hcalls4.
    split; [exact Hkeep |].
    exists reads. split; [| exact Hreads].
    assert (Hw : calls (the_world b4) = calls w4)
      by (rewrite Hw4; destruct r4; reflexivity).
    rewrite Hw, Hcalls4, Hcalls3, Hcalls2, Hcalls1.
    fold (income_draft c a (PyStr.strip comment)).
    rewrite add_payload_income, <- app_assoc. reflexivity.
  - intros b p Hb Hp Hcmd Hty.
    destruct (reachable_good b Hb) as [Hlog _].
    rewrite Forall_forall in Hlog. exact (Hlog p Hp Hcmd Hty).
  - intros user d mid ud w. unfold income_category, tx_of.
    post_steps; simplify_eq; cbn [fst snd ud_tx from_option id]; eauto 10.
Qed.

(** ** The role *)

(** The payloads that lead into an owner-only state from outside the
    owner's Menu: the two back buttons of the screens of the analysis
    and of the debts. *)
Definition back_into_owner_only : list string := ["back:analysis_periods"; "back:debts_type"].

(** The press of the button of an account, in the Menu: what is sent is
    the answer to the press and the prompt for the amount. *)
Lemma balance_edit_start_shows b user acct mid :
  conversations b !! user = Some ST_MENU ->
  acct ∈ balance_accounts ->
  let b' := process_update (Update user (Callback ("balance:" +:+ acct) mid)) b in
  outbox (the_world b')
  = (outbox (the_world b)
       ++ [(user, answer None false);
           (user, edit_message_text mid (BalancePrompt acct) None)])%list.
Proof.
  intros Hc Hin. cbv zeta. unfold balance_accounts in Hin.
  pattern (process_update (Update user (Callback ("balance:" +:+ acct) mid)) b).
  apply (process_update_view _ _ H_balance_edit_start).
  { cbn [effective_user the_event]. rewrite Hc.
    repeat (apply elem_of_cons in Hin as [-> | Hin]); [reflexivity .. |].
    apply elem_of_nil in Hin. contradiction. }
  cbn [callback effective_user]. unfold balance_edit_start.
  assert (Hpiece : PyStr.split_colon ("balance:" +:+ acct) !! 1%nat = Some acct).
  { repeat (apply elem_of_cons in Hin as [-> | Hin]); [reflexivity .. |].
    apply elem_of_nil in Hin. contradiction. }
  post_simpl.
  repeat (first [apply (post_second_piece _ _ _ _ Hpiece) | post_step]; post_simpl).
  intros b' Hconv Hud Hw. rewrite Hw.
  cbn [world_after outbox]. rewrite <- app_assoc. reflexivity.
Qed.

(** C6, amended: the role is asked for in one place, by [on_menu], on
    the three buttons of the owner's Menu that open the analysis, the
    balances and the debts. A user who is not an owner and presses
    one of them in the Menu gets the alert "access denied", and
    nothing else happens: the conversation stays in the Menu, no
    user's data change and no request goes to the backend; the role
    is read from [OWNER_IDS], which nothing writes. No other handler
    asks for the role: in the Menu the payload of an account opens
    the edit of its balance for any user, with no alert, and in a
    state that lists [back_router] the payloads of the back buttons
    of the analysis and of the debts lead into the states of the
    periods and of the kinds of debt. *)
Theorem role_is_asked_for_in_the_menu_only b user mid :
  (∀ d,
      reachable b ->
      conversations b !! user = Some ST_MENU ->
      is_owner user = false ->
      d ∈ owner_only ->
      let b' := process_update (Update user (Callback d mid)) b in
      conversations b' = conversations b ∧
      conversations b' !! user = Some ST_MENU ∧
      (∀ v, user_data_of b' v = user_data_of b v) ∧
      calls (the_world b') = calls (the_world b) ∧
      outbox (the_world b')
      = (outbox (the_world b)
           ++ [(user, answer None false); (user, answer (Some ACCESS_DENIED) true)])%list) ∧
  (∀ acct,
      conversations b !! user = Some ST_MENU ->
      acct ∈ balance_accounts ->
      let b' := process_update (Update user (Callback ("balance:" +:+ acct) mid)) b in
      conversations b' !! user = Some ST_BALANCE_EDIT ∧
      ud_balance_payment_type (user_data_of b' user) = Some acct ∧
      calls (the_world b') = calls (the_world b) ∧
      outbox (the_world b')
      = (outbox (the_world b)
           ++ [(user, answer None false);
               (user, edit_message_text mid (BalancePrompt acct) None)])%list) ∧
  (∀ st d,
      conversations b !! user = Some st ->
      st ∈ back_states ->
      d ∈ back_into_owner_only ->
      let b' := process_update (Update user (Callback d mid)) b in
      conversations b' !! user
      = Some (if bool_decide (d = "back:analysis_periods")
              then ST_ANALYSIS_PERIOD else ST_DEBTS_CHOOSE_TYPE)).
Proof.
  split; [| split].
  - intros d Hb Hc Ho Hd. exact (owner_only_is_refused b user d mid Hb Hc Ho Hd).
  - intros acct Hc Hin. cbv zeta.
    destruct (balance_edit_start_opens b user acct mid Hc Hin) as (H1 & H2 & H3).
    cbv zeta in H1, H2, H3.
    split; [exact H1 |]. split; [rewrite H2; reflexivity |]. split; [exact H3 |].
    exact (balance_edit_start_shows b user acct mid Hc Hin).
  - intros st d Hc Hst Hd. cbv zeta. unfold back_into_owner_only in Hd.
    repeat (apply elem_of_cons in Hd as [-> | Hd]);
      [| | apply elem_of_nil in Hd; contradiction].
    + destruct (back_input_leads st "back:analysis_periods" mid b user
                  ltac:(reflexivity) Hst Hc) as (_ & H & _).
      cbv zeta in H. rewrite H by discriminate. reflexivity.
    + destruct (back_input_leads st "back:debts_type" mid b user
                  ltac:(reflexivity) Hst Hc) as (_ & H & _).
      cbv zeta in H. rewrite H by discriminate. reflexivity.
Qed.

End Bot.

(** ** The amount parser *)

Section AmountFacts.
Import PyFloat.

(** A double that is a zero, a finite number or an infinity of the
    sign [s]: what an operation rounds to, never a nan. *)
Definition signed (s : bool) (x : spec_float) : Prop :=
  x = S754_zero s ∨ x = S754_infinity s ∨ ∃ m e, x = S754_finite s m e.

Lemma iter_pos_invariant {A} (P : A -> Prop) (f : A -> A) :
  (∀ x, P x -> P (f x)) -> ∀ p x, P x -> P (SpecFloat.iter_pos f p x).
Proof.
  intros Hf p. induction p as [p IH | p IH |]; intros x Hx; simpl; auto.
Qed.

Lemma shr_1_nonneg mrs : 0 <= shr_m mrs -> 0 <= shr_m (shr_1 mrs).
Proof.
  destruct mrs as [m r s]. simpl. intros Hm.
  destruct m as [| [p | p |] | p]; simpl; lia.
Qed.

Lemma shr_fexp_nonneg m e l :
  0 <= m -> 0 <= shr_m (shr_fexp prec emax m e l).1.
Proof.
  intros Hm. unfold shr_fexp, shr.
  assert (H0 : 0 <= shr_m (shr_record_of_loc m l))
    by (destruct l as [| []]; exact Hm).
  destruct (fexp prec emax (Zdigits2 m + e) - e) as [| p | p]; simpl; try exact H0.
  apply iter_pos_invariant; [apply shr_1_nonneg | exact H0].
Qed.

Lemma round_nearest_even_nonneg m l : 0 <= m -> 0 <= round_nearest_even m l.
Proof.
  intros Hm. destruct l as [| []]; simpl; try lia.
  destruct (Z.even m); lia.
Qed.

Lemma binary_round_aux_signed s m e l :
  0 <= m -> signed s (binary_round_aux prec emax s m e l).
Proof.
  intros Hm. unfold binary_round_aux.
  pose proof (shr_fexp_nonneg m e l Hm) as H1.
  destruct (shr_fexp prec emax m e l) as [mrs' e'] eqn:E1. simpl in H1.
  pose proof (shr_fexp_nonneg _ e' loc_Exact
                (round_nearest_even_nonneg _ (loc_of_shr_record mrs') H1)) as H2.
  destruct (shr_fexp prec emax _ e' loc_Exact) as [mrs'' e''] eqn:E2. simpl in H2.
  destruct (shr_m mrs'') as [| p | p].
  - left. reflexivity.
  - destruct (e'' <=? emax - prec).
    + right. right. eauto.
    + right. left. reflexivity.
  - lia.
Qed.

Lemma SFdiv_finite_signed s1 m1 e1 m2 e2 :
  signed s1 (SFdiv prec emax (S754_finite s1 m1 e1) (S754_finite false m2 e2)).
Proof.
  unfold SFdiv.
  destruct (SFdiv_core_binary prec emax (Z.pos m1) e1 (Z.pos m2) e2)
    as [[mz ez] lz] eqn:E.
  replace (xorb s1 false) with s1 by (destruct s1; reflexivity).
  apply binary_round_aux_signed.
  unfold SFdiv_core_binary in E.
  set (m' := match _ - _ - _ with Z.pos _ => _ | Z0 => _ | Z.neg _ => _ end) in E.
  assert (Hm' : 0 <= m').
  { subst m'. destruct (_ - _ - _); try lia. apply Z.shiftl_nonneg. lia. }
  pose proof (Z_div_mod m' (Z.pos m2) ltac:(lia)) as Hdm.
  destruct (Z.div_eucl m' (Z.pos m2)) as [q r]. injection E as <- _ _.
  destruct Hdm as [Heq Hr]. nia.
Qed.

Lemma of_decimal_signed neg n k : signed neg (of_decimal neg n k).
Proof.
  unfold of_decimal. destruct n; try (left; reflexivity).
  apply SFdiv_finite_signed.
Qed.

Lemma mul_signed s x m e :
  signed s x -> signed s (mul x (S754_finite false m e)).
Proof.
  intros [-> | [-> | (mx & ex & ->)]]; unfold mul; simpl.
  - left. destruct s; reflexivity.
  - right. left. destruct s; reflexivity.
  - replace (xorb s false) with s by (destruct s; reflexivity).
    apply binary_round_aux_signed. lia.
Qed.

Lemma of_string_signed s x : of_string s = Some x -> ∃ neg, signed neg x.
Proof.
  unfold of_string.
  destruct (match s with [] => _ | c :: r => _ end) as [neg body].
  destruct (span_digits body) as [ip rest].
  destruct rest as [| c fp].
  - destruct (bool_decide (ip = [])); [discriminate |].
    intros [= <-]. eexists. apply of_decimal_signed.
  - destruct (_ && _); [| discriminate].
    intros [= <-]. eexists. apply of_decimal_signed.
Qed.

Lemma round_half_even_nonneg n d : 0 <= n -> 0 < d -> 0 <= round_half_even n d.
Proof.
  intros Hn Hd. unfold round_half_even.
  assert (0 <= n / d) by (apply Z.div_pos; lia).
  destruct (2 * (n mod d) ?= d); [destruct (Z.even (n / d)) | |]; lia.
Qed.

Lemma cents_nonneg m e : 0 <= cents m e.
Proof.
  unfold cents. destruct e as [| p | p].
  - lia.
  - assert (0 < 2 ^ Z.pos p) by (apply Z.pow_pos_nonneg; lia). nia.
  - apply round_half_even_nonneg; [lia |]. apply Z.pow_pos_nonneg; lia.
Qed.

(** A value is a whole number of hundredths, as a double can be one:
    it is finite, and it is the double nearest to [c / 100] for some
    whole [c]. *)
Definition hundredths (x : spec_float) : Prop :=
  is_finite x = true ∧ ∃ neg c, 0 <= c ∧ x = of_decimal neg c 2.

Definition non_negative (x : spec_float) : Prop := ltb x zero = false.

Lemma round2_spec x r :
  (∃ neg, signed neg x) -> ltb x zero = false -> round2 x = Some r ->
  r = inf ∨ (non_negative r ∧ hundredths r).
Proof.
  intros [neg [-> | [-> | (m & e & ->)]]] Hlt; simpl.
  - intros [= <-]. right. split; [reflexivity |].
    split; [reflexivity |]. exists neg, 0. split; [lia | reflexivity].
  - intros [= <-]. destruct neg; [discriminate | left; reflexivity].
  - destruct neg; [discriminate |].
    pose proof (of_decimal_signed false (cents m e) 2) as Hs.
    pose proof (cents_nonneg m e) as Hc.
    intros Hr. right.
    destruct Hs as [Hs | [Hs | (m' & e' & Hs)]]; rewrite Hs in Hr.
    + injection Hr as <-. split; [reflexivity |]. split; [reflexivity |].
      exists false, (cents m e). auto.
    + discriminate.
    + injection Hr as <-. split; [reflexivity |]. split; [reflexivity |].
      exists false, (cents m e). auto.
Qed.

Lemma parse_amount_value text v :
  parse_amount text = Some v -> v = inf ∨ (non_negative v ∧ hundredths v).
Proof.
  unfold parse_amount.
  destruct (bool_decide (text = "")); [discriminate |].
  cbv zeta.
  destruct (_ || _).
  - destruct (of_string _) as [f |] eqn:Ef; [| discriminate].
    destruct (ltb (mul f (of_Z 1000)) zero) eqn:Hlt; [discriminate |].
    apply round2_spec; [| exact Hlt].
    destruct (of_string_signed _ _ Ef) as [neg Hs]. exists neg.
    change (of_Z 1000) with (S754_finite false 8796093022208000 (-43)).
    apply mul_signed, Hs.
  - destruct (of_string _) as [f |] eqn:Ef; [| discriminate].
    destruct (ltb (mul f (of_Z 1)) zero) eqn:Hlt; [discriminate |].
    apply round2_spec; [| exact Hlt].
    destruct (of_string_signed _ _ Ef) as [neg Hs]. exists neg.
    change (of_Z 1) with (S754_finite false 4503599627370496 (-52)).
    apply mul_signed, Hs.
Qed.

End AmountFacts.

Section AmountClaims.
Import PyFloat.

(** The parser returns a double whose exact value is the fraction [q]. *)
Definition parses_to (text : string) (q : Q) : Prop :=
  ∃ v, parse_amount text = Some v ∧ to_Q v = Some q.

(** A numeral of 400 nines: past the largest double. *)
Definition nines : string := String.concat "" (replicate 400 "9").

(** C4, the claim as the spec words it, fails: a parsed amount need
    not be a finite value of two decimals. On 400 nines [float]
    overflows to an infinity, which is not negative and which
    [round] returns as it is. *)
Lemma parse_amount_overflow :
  parse_amount nines = Some inf ∧
  ¬ (∀ text v, parse_amount text = Some v -> non_negative v ∧ hundredths v).
Proof.
  assert (H : parse_amount nines = Some inf) by (vm_compute; reflexivity).
  split; [exact H |].
  intros Hall. destruct (Hall _ _ H) as [_ [Hfin _]]. discriminate Hfin.
Qed.

(** C4, amended: the seven examples hold ([2500], [2 500], [2500,50],
    [2.500,75] and [2к] parse to exactly 2500, 2500, 2500.5, 2500.75
    and 2000; [-5] and [abc] are invalid), and a value the parser
    returns is either plus infinity (the digits overflow a double) or
    a double that is not negative and is the one nearest to a whole
    number of hundredths. *)
Theorem parse_amount_spec :
  parses_to "2500" (Qmake 2500 1) ∧
  parses_to "2 500" (Qmake 2500 1) ∧
  parses_to "2500,50" (Qmake 5001 2) ∧
  parses_to "2.500,75" (Qmake 10003 4) ∧
  parses_to "2к" (Qmake 2000 1) ∧
  parse_amount "-5" = None ∧
  parse_amount "abc" = None ∧
  ∀ text v, parse_amount text = Some v ->
            v = inf ∨ (non_negative v ∧ hundredths v).
Proof.
  split; [eexists; split; vm_compute; reflexivity |].
  split; [eexists; split; vm_compute; reflexivity |].
  split; [eexists; split; vm_compute; reflexivity |].
  split; [eexists; split; vm_compute; reflexivity |].
  split; [eexists; split; vm_compute; reflexivity |].
  split; [vm_compute; reflexivity |].
  split; [vm_compute; reflexivity |].
  exact parse_amount_value.
Qed.

Lemma parse_amount_spec_witness :
  parse_amount "2500,50" = Some (of_decimal false 250050 2) ∧
  (of_decimal false 250050 2 = inf
   ∨ (non_negative (of_decimal false 250050 2) ∧ hundredths (of_decimal false 250050 2))).
Proof.
  split; [vm_compute; reflexivity |].
  apply (proj2 (proj2 (proj2 (proj2 (proj2 (proj2 (proj2 parse_amount_spec))))))
           "2500,50").
  vm_compute; reflexivity.
Defined.

End AmountClaims.

(** * Further properties of the amount parser *)

Section AmountDigits.
Import PyStr PyFloat.

(** No code point of the list is a decimal digit. *)
Definition digitless (s : list Z) : Prop := Forall (fun c => is_digit c = false) s.

Lemma lower_cp_digit (c : Z) : is_digit c = false -> is_digit (lower_cp c) = false.
Proof.
  unfold lower_cp, is_digit. intros H.
  repeat match goal with
    | |- context [if ?b then _ else _] => destruct b eqn:?
    end;
    try exact H;
    repeat match goal with
      | H : (_ && _) = true |- _ => apply andb_prop in H as [? ?]
      | H : (_ <=? _) = true |- _ => apply Z.leb_le in H
      | H : (_ =? _) = true |- _ => apply Z.eqb_eq in H
      end;
    apply andb_false_iff; rewrite !Z.leb_gt; lia.
Qed.

Lemma digitless_removelast (s : list Z) : digitless s -> digitless (removelast s).
Proof.
  unfold digitless. induction 1 as [| c [| c' s] Hc Hs IH]; cbn [removelast];
    constructor; assumption.
Qed.

Lemma digitless_filter (P : Z -> Prop) `{!∀ c, Decision (P c)} (s : list Z) :
  digitless s -> digitless (base.filter P s).
Proof.
  unfold digitless. intros Hs. rewrite Forall_forall in *.
  intros c Hc. apply list_elem_of_filter in Hc as [_ Hc]. exact (Hs c Hc).
Qed.

(** [float] of a string without a digit is a [ValueError]. *)
Lemma of_string_digitless (s : list Z) : digitless s -> of_string s = None.
Proof.
  intros Hs. unfold of_string.
  assert (Hspan : ∀ l, digitless l -> span_digits l = ([], l)).
  { intros [| c l] Hl; [reflexivity |]. cbn [span_digits].
    inversion Hl as [| ? ? Hc _]; subst. rewrite Hc. reflexivity. }
  assert (Hbody : ∀ body, digitless body ->
            (let '(ip, rest) := span_digits body in
             match rest with
             | [] => if bool_decide (ip = []) then None
                     else Some (of_decimal false (digits_val ip) 0)
             | c :: fp =>
                 if (c =? 46) && forallb is_digit fp
                    && negb (bool_decide (ip = []) && bool_decide (fp = []))
                 then Some (of_decimal false (digits_val (ip ++ fp)%list) (length fp))
                 else None
             end) = None
            ∧ (let '(ip, rest) := span_digits body in
               match rest with
               | [] => if bool_decide (ip = []) then None
                       else Some (of_decimal true (digits_val ip) 0)
               | c :: fp =>
                   if (c =? 46) && forallb is_digit fp
                      && negb (bool_decide (ip = []) && bool_decide (fp = []))
                   then Some (of_decimal true (digits_val (ip ++ fp)%list) (length fp))
                   else None
               end) = None).
  { intros body Hb. rewrite (Hspan _ Hb).
    destruct body as [| c fp]; [split; reflexivity |].
    inversion Hb as [| ? ? _ Hfp]; subst.
    destruct fp as [| c' fp].
    - cbn [forallb]. rewrite andb_true_r. cbn. rewrite andb_false_r. split; reflexivity.
    - inversion Hfp as [| ? ? Hc' _]; subst. cbn [forallb]. rewrite Hc'.
      cbn [andb]. rewrite andb_false_r. split; reflexivity. }
  destruct s as [| c r].
  - reflexivity.
  - inversion Hs as [| ? ? Hc Hr]; subst.
    destruct (c =? 45).
    + exact (proj2 (Hbody r Hr)).
    + exact (proj1 (Hbody (c :: r) Hs)).
Qed.

(** X18: A text without a decimal digit is never an amount: whatever else
    it holds (letters, separators, signs, a [k]), [parse_amount]
    returns nothing. An empty or blank text is the first case of it. *)
Theorem parse_amount_needs_a_digit (text : string) :
  digitless (codepoints (strip text)) -> parse_amount text = None.
Proof.
  intros Hd. unfold parse_amount.
  destruct (bool_decide (text = "")); [reflexivity |]. cbv zeta.
  assert (H0 : digitless (lower_cp <$> codepoints (strip text))).
  { unfold digitless in *. apply Forall_fmap. eapply Forall_impl; [exact Hd |].
    intros c Hc. apply lower_cp_digit, Hc. }
  set (s0 := lower_cp <$> codepoints (strip text)) in *.
  assert (H1 : digitless (base.filter (fun c => is_space c = false) s0))
    by (apply digitless_filter, H0).
  set (s1 := base.filter (fun c => is_space c = false) s0) in *.
  assert (Hsep : ∀ s, digitless s ->
            digitless
              (keep_numeric
                 (if bool_decide (COMMA ∈ s) && bool_decide (DOT ∈ s)
                  then (drop_separators
                          (take (Z.to_nat (Z.max (rfind COMMA s) (rfind DOT s))) s)
                          ++ DOT :: drop_separators
                               (drop (S (Z.to_nat (Z.max (rfind COMMA s) (rfind DOT s)))) s))%list
                  else if bool_decide (COMMA ∈ s) && negb (bool_decide (DOT ∈ s))
                       then (fun c => if c =? COMMA then DOT else c) <$> s
                       else s))).
  { intros s Hs. unfold keep_numeric. apply digitless_filter.
    destruct (_ && _).
    - unfold digitless. apply Forall_app_2.
      + apply digitless_filter. apply Forall_take, Hs.
      + constructor; [reflexivity |]. apply digitless_filter. apply Forall_drop, Hs.
    - destruct (_ && _); [| exact Hs].
      unfold digitless in *. apply Forall_fmap. eapply Forall_impl; [exact Hs |].
      intros c Hc. cbn. destruct (c =? COMMA); [reflexivity | exact Hc]. }
  destruct (endswith 1082 s1 || endswith 107 s1).
  - rewrite of_string_digitless; [reflexivity |].
    apply Hsep, digitless_removelast, H1.
  - rewrite of_string_digitless; [reflexivity |]. apply Hsep, H1.
Qed.

End AmountDigits.

(** * The edits, with what the parser returns *)

Section EditedAmounts.
Variable USER_TG_IDS : list Z.
Variable backend : list (gmap string value) -> gmap string value -> response.

(** [parse_amount] returns nothing that is below zero. *)
Lemma parse_amount_not_below_zero (txt : string) (amt : spec_float) :
  parse_amount txt = Some amt -> PyFloat.ltb amt PyFloat.zero = false.
Proof.
  intros H. destruct (parse_amount_value _ _ H) as [-> | [Hn _]]; [reflexivity | exact Hn].
Qed.



End EditedAmounts.

(** * The edit of a balance, from the Menu *)

Section BalanceFromTheMenu.
Variable USER_TG_IDS : list Z.
Variable OWNER_IDS : list Z.
Variable backend : list (gmap string value) -> gmap string value -> response.
Variable choice : nat -> nat.

(** X23: The edit of a balance is open to every user of the allow-list:
    neither [balance_edit_start] nor [balance_edit_received] asks for
    the role, which only [on_menu] checks, on the button that shows
    the balances. From the Menu, the payload of an account and then a
    text that parses send the request that sets the balance of that
    account to that amount, on behalf of the user. *)
Theorem balance_edit_asks_for_no_role b user acct mid txt mid' amt :
  user ∈ USER_TG_IDS ->
  conversations b !! user = Some ST_MENU ->
  acct ∈ balance_accounts ->
  parse_amount txt = Some amt ->
  let b1 := process_update USER_TG_IDS OWNER_IDS backend choice
              (Update user (Callback ("balance:" +:+ acct) mid)) b in
  let b2 := process_update USER_TG_IDS OWNER_IDS backend choice
              (Update user (TextMsg txt mid')) b1 in
  let request := posted (<["payment_type" := VStr acct]>
                           (<["amount" := VFloat amt]> (cmd "set_balance"))) user in
  conversations b1 !! user = Some ST_BALANCE_EDIT ∧
  ∃ after, calls (the_world b2) = (calls (the_world b) ++ request :: after)%list.
Proof.
  intros Hall Hc Hin Hp. cbv zeta.
  destruct (balance_edit_start_opens USER_TG_IDS OWNER_IDS backend choice
              b user acct mid Hc Hin) as (Hc1 & Hud1 & Hcalls1).
  cbv zeta in Hc1, Hud1, Hcalls1.
  set (b1 := process_update USER_TG_IDS OWNER_IDS backend choice
               (Update user (Callback ("balance:" +:+ acct) mid)) b) in *.
  split; [exact Hc1 |].
  assert (Htxt : txt ≠ "") by (intros ->; discriminate Hp).
  pattern (process_update USER_TG_IDS OWNER_IDS backend choice
             (Update user (TextMsg txt mid')) b1).
  apply (process_update_view USER_TG_IDS OWNER_IDS backend choice _ _
           H_balance_edit_received).
  { cbn [effective_user the_event]. rewrite Hc1.
    unfold check_update, entry_points. cbn [states first_match accepts].
    rewrite (bool_decide_eq_false_2 _ Htxt). reflexivity. }
  cbn [callback effective_user].
  eapply post_mono;
    [apply (balance_edit_received_edited USER_TG_IDS backend), Hall |].
  intros [ud' w'] r Hed b2 _ _ Hw. unfold edited in Hed. rewrite Hp in Hed.
  rewrite (parse_amount_not_below_zero _ _ Hp) in Hed.
  unfold sent, set_balance_request in Hed. rewrite Hud1 in Hed.
  cbn [ud_balance_payment_type set_working_message_id set_balance_payment_type
       from_option id fst snd] in Hed.
  rewrite Hcalls1 in Hed.
  assert (Hcalls : calls (the_world b2) = calls w').
  { rewrite Hw. destruct r; reflexivity. }
  rewrite Hcalls.
  destruct (gas_result _).
  - destruct Hed as [(reads & Hreads & _) _]. exists reads. exact Hreads.
  - destruct Hed as [_ Hreads]. exists []. exact Hreads.
Qed.

End BalanceFromTheMenu.

(** * The configuration read from the environment

    What [main.py] does when it is imported, before any update: it
    reads its settings from the environment, parses the two lists of
    user identifiers and the port, and refuses to start without a
    token, a backend or an allow-list. *)

Module Config.

Section Interpreter.

(** Two things the interpreter decides, not the program:
    [Py_UNICODE_TODECIMAL] on the code points that are not ASCII (the
    decimal digits of the Unicode database the interpreter was built
    with) and the limit [sys.get_int_max_str_digits()] on the digits
    [int] reads ([0]: no limit). *)
Variable to_decimal : Z -> option Z.
Variable max_str_digits : nat.

(** ** [int] of a [str] *)

(** [_PyUnicode_TransformDecimalAndSpaceToASCII], one code point: an
    ASCII one is kept, white space becomes a blank, a decimal digit
    its ASCII digit, and anything else a question mark, at which the
    literal is invalid. *)
Definition to_ascii (c : Z) : Z :=
  if c <? 128 then c
  else if PyStr.is_space c then 32
  else match to_decimal c with
       | Some d => 48 + d
       | None => 63
       end.

(** [Py_ISSPACE] *)
Definition is_c_space (b : Z) : bool := ((9 <=? b) && (b <=? 13)) || (b =? 32).

Fixpoint skip_spaces (s : list Z) : list Z :=
  match s with
  | c :: s' => if is_c_space c then skip_spaces s' else s
  | [] => []
  end.

Definition UNDERSCORE : Z := 95.

(** The scan of [long_from_string_base]: digits, with single
    underscores between them; [prev] is the character before. It
    gives the digits and what follows them, or nothing when two
    underscores meet or one ends the digits. *)
Fixpoint scan (prev : Z) (s : list Z) (acc : list Z) : option (list Z * list Z) :=
  match s with
  | c :: s' =>
      if PyFloat.is_digit c then scan c s' (acc ++ [c])%list
      else if c =? UNDERSCORE then
        if prev =? UNDERSCORE then None else scan c s' acc
      else if prev =? UNDERSCORE then None else Some (acc, s)
  | [] => if prev =? UNDERSCORE then None else Some (acc, [])
  end.

Definition too_many_digits (n : nat) : bool :=
  (640 <? n)%nat && (0 <? max_str_digits)%nat && (max_str_digits <? n)%nat.

(** [PyLong_FromString] in base 10: blanks, a sign, the digits, blanks,
    and nothing more. [None] is the [ValueError]. *)
Definition int_of_ascii (s : list Z) : option Z :=
  let s := skip_spaces s in
  let '(negative, s) :=
    match s with
    | c :: r => if c =? 43 then (false, r) else if c =? 45 then (true, r) else (false, s)
    | [] => (false, s)
    end in
  match s with
  | c :: _ => if c =? UNDERSCORE then None
              else
                match scan 0 s [] with
                | Some (ds, rest) =>
                    if bool_decide (ds = []) then None
                    else if too_many_digits (length ds) then None
                    else if bool_decide (skip_spaces rest = [])
                         then Some (if negative then - PyFloat.digits_val ds
                                    else PyFloat.digits_val ds)
                         else None
                | None => None
                end
  | [] => None
  end.

(** [int(s)] *)
Definition int (s : string) : option Z :=
  int_of_ascii (to_ascii <$> PyStr.codepoints s).

(** ** The lists of identifiers *)

(** [s.split(sep)] for a separator of one ASCII character: a byte of
    a character that is not ASCII is never an ASCII byte, so the
    pieces are cut where Python cuts them. *)
Fixpoint split_aux (sep : ascii) (acc : string) (s : string) : list string :=
  match s with
  | EmptyString => [String.rev acc]
  | String a s' =>
      if Ascii.eqb a sep then String.rev acc :: split_aux sep EmptyString s'
      else split_aux sep (String a acc) s'
  end.

Definition split (sep : ascii) (s : string) : list string := split_aux sep EmptyString s.

(** [[int(x.strip()) for x in items if x.strip()]] *)
Fixpoint ints (items : list string) : result (list Z) :=
  match items with
  | [] => Ok []
  | x :: items' =>
      if bool_decide (PyStr.strip x = "") then ints items'
      else match int (PyStr.strip x) with
           | None => Raise ValueError
           | Some n =>
               match ints items' with
               | Ok l => Ok (n :: l)
               | Raise e => Raise e
               end
           end
  end.

(** The list read from the raw value of a variable. *)
Definition parse_ids (raw : string) : result (list Z) :=
  let s := PyStr.strip raw in
  if bool_decide (s = "") then Ok [] else ints (split ","%char s).

(** ** The settings *)

Record config := Settings {
  BOT_TOKEN : string;
  SCRIPT_URL : string;
  USER_TG_IDS : list Z;
  OWNER_IDS : list Z;
  WEBHOOK_URL : string;
  PORT : Z;
  WEBHOOK_PATH : string;
}.

(** [os.getenv(name, default)] *)
Definition getenv (env : gmap string string) (name default_value : string) : string :=
  default default_value (env !! name).

(** The top of the module, in its order: the values are read and
    parsed first, so a list or a port that is no number fails before
    anything is checked; then the three checks. *)
Definition load (env : gmap string string) : result config :=
  let token := PyStr.strip (getenv env "BOT_TOKEN" "") in
  let url := PyStr.strip (getenv env "SCRIPT_URL" "") in
  match parse_ids (getenv env "USER_TG_IDS" "") with
  | Raise e => Raise e
  | Ok users =>
      match parse_ids (getenv env "OWNER_IDS" "") with
      | Raise e => Raise e
      | Ok owners =>
          let webhook := PyStr.strip (getenv env "WEBHOOK_URL" "") in
          match int (getenv env "PORT" "8080") with
          | None => Raise ValueError
          | Some port =>
              let path := PyStr.strip (getenv env "WEBHOOK_PATH" "") in
              if bool_decide (token = "") then Raise (RuntimeError "BOT_TOKEN is missing")
              else if bool_decide (url = "") then Raise (RuntimeError "SCRIPT_URL is missing")
              else if bool_decide (users = []) then Raise (RuntimeError "USER_TG_IDS is missing")
              else Ok (Settings token url users owners webhook port path)
          end
      end
  end.

(** ** Facts *)

(** A string of ASCII characters that are no white space and no
    control characters. *)
Definition plain (s : string) : Prop :=
  Forall (fun b => 33 <= b < 128) (PyStr.bytes s).

Definition single (a : ascii) : PyStr.char :=
  PyStr.Char (Z.of_N (Ascii.N_of_ascii a)) (String a EmptyString).

Lemma chars_plain (s : string) :
  plain s -> PyStr.chars s = single <$> list_ascii_of_string s.
Proof.
  unfold plain. induction s as [| a s IH]; intros H; [reflexivity |].
  cbn [PyStr.bytes] in H. inversion H as [| ? ? Ha Hs]; subst.
  cbn [list_ascii_of_string fmap list_fmap]. rewrite <- (IH Hs).
  cbn [PyStr.chars]. replace (Z.of_N (Ascii.N_of_ascii a) <? 128) with true
    by (symmetry; apply Z.ltb_lt; lia).
  reflexivity.
Qed.

Lemma unchars_single (l : list ascii) :
  PyStr.unchars (single <$> l) = string_of_list_ascii l.
Proof. induction l as [| a l IH]; [reflexivity |]. cbn. rewrite IH. reflexivity. Qed.

Lemma cps_single (l : list ascii) :
  PyStr.cp <$> (single <$> l) = PyStr.bytes (string_of_list_ascii l).
Proof. induction l as [| a l IH]; [reflexivity |]. cbn. rewrite IH. reflexivity. Qed.

Lemma codepoints_plain (s : string) : plain s -> PyStr.codepoints s = PyStr.bytes s.
Proof.
  intros H. unfold PyStr.codepoints. rewrite (chars_plain _ H), cps_single.
  rewrite string_of_list_ascii_of_string. reflexivity.
Qed.

Lemma lstrip_chars_id (l : list PyStr.char) :
  Forall (fun c => PyStr.is_space (PyStr.cp c) = false) l -> PyStr.lstrip_chars l = l.
Proof. intros [| c l' Hc _]; [reflexivity |]. cbn. rewrite Hc. reflexivity. Qed.

Lemma plain_is_no_space (b : Z) : 33 <= b < 128 -> PyStr.is_space b = false.
Proof.
  intros Hb. unfold PyStr.is_space.
  rewrite (proj2 (Z.leb_gt b 13)) by lia.
  rewrite (proj2 (Z.leb_gt b 32)) by lia.
  rewrite (proj2 (Z.leb_gt 8192 b)) by lia.
  rewrite !(proj2 (Z.eqb_neq b _)) by lia.
  rewrite !andb_false_r. reflexivity.
Qed.

(** [strip] leaves a plain string as it is. *)
Lemma strip_plain (s : string) : plain s -> PyStr.strip s = s.
Proof.
  intros H. unfold PyStr.strip, PyStr.strip_chars. rewrite (chars_plain _ H).
  assert (Hns : Forall (fun c => PyStr.is_space (PyStr.cp c) = false)
                  (single <$> list_ascii_of_string s)).
  { unfold plain in H. revert H. induction s as [| a s IH]; intros H; [constructor |].
    cbn [PyStr.bytes] in H. inversion H as [| ? ? Ha Hs]; subst.
    cbn [list_ascii_of_string fmap list_fmap]. constructor; [| apply IH, Hs].
    apply plain_is_no_space, Ha. }
  rewrite (lstrip_chars_id _ Hns).
  rewrite lstrip_chars_id by (apply Forall_reverse, Hns).
  rewrite reverse_involutive, unchars_single.
  apply string_of_list_ascii_of_string.
Qed.

(** The decimal digits of a number, as [pretty] writes them. *)
Lemma pretty_N_go_length (x : N) (k : nat) :
  Z.of_N x < 10 ^ Z.of_nat k ->
  (length (PyStr.bytes (pretty_N_go x "")) <= k)%nat.
Proof.
  revert k. induction (N.lt_wf_0 x) as [x _ IH]; intros k Hk.
  destruct (decide (x = 0)%N) as [-> | Hx];
    [rewrite pretty_N_go_0; cbn [PyStr.bytes length]; lia |].
  rewrite pretty_N_go_step by lia. rewrite pretty_N_go_app, bytes_app, length_app.
  cbn [PyStr.bytes length].
  destruct k as [| k].
  { change (10 ^ Z.of_nat 0) with 1 in Hk. lia. }
  assert (Hdiv : Z.of_N (x `div` 10) < 10 ^ Z.of_nat k).
  { rewrite N2Z.inj_div. apply Z.div_lt_upper_bound; [lia |].
    rewrite Nat2Z.inj_succ, Z.pow_succ_r in Hk by lia. exact Hk. }
  pose proof (IH (x `div` 10)%N ltac:(apply N.div_lt; lia) k Hdiv). lia.
Qed.

Definition MINUS : Z := 45.

(** What [str(z)] is made of: a minus sign for a negative number, and
    the digits of its absolute value. *)
Lemma pretty_Z_bytes (z : Z) :
  ∃ ds, forallb PyFloat.is_digit ds = true ∧ ds ≠ [] ∧
        PyFloat.digits_val ds = Z.abs z ∧
        PyStr.bytes (pretty z) = (if z <? 0 then MINUS :: ds else ds) ∧
        (Z.abs z < 10 ^ 640 -> (length ds <= 640)%nat).
Proof.
  assert (Hpos : ∀ p : positive,
            ∃ ds, forallb PyFloat.is_digit ds = true ∧ ds ≠ [] ∧
                  PyFloat.digits_val ds = Z.pos p ∧
                  PyStr.bytes (pretty p) = ds ∧
                  (Z.pos p < 10 ^ 640 -> (length ds <= 640)%nat)).
  { intros p. unfold pretty, pretty_positive, pretty, pretty_N.
    rewrite decide_False by discriminate.
    destruct (pretty_N_go_digits (N.pos p)) as (Hd & Hv & Hn).
    eexists. split; [exact Hd |]. split; [apply Hn; lia |].
    split; [exact Hv |]. split; [reflexivity |].
    intros Hb. apply (pretty_N_go_length (N.pos p) 640). exact Hb. }
  destruct z as [| p | p].
  - exists [48]. repeat split; try discriminate. intros _. cbn. lia.
  - destruct (Hpos p) as (ds & Hd & Hn & Hv & Hb & Hl). exists ds. auto.
  - destruct (Hpos p) as (ds & Hd & Hn & Hv & Hb & Hl). exists ds.
    split; [exact Hd |]. split; [exact Hn |]. split; [exact Hv |]. split; [| exact Hl].
    change (pretty (Z.neg p)) with ("-" +:+ pretty p).
    rewrite bytes_app, Hb. reflexivity.
Qed.

Lemma digit_range (d : Z) : PyFloat.is_digit d = true -> 48 <= d <= 57.
Proof.
  unfold PyFloat.is_digit. intros H. apply andb_prop in H as [H1 H2].
  apply Z.leb_le in H1, H2. lia.
Qed.

Lemma digits_range (ds : list Z) :
  forallb PyFloat.is_digit ds = true -> Forall (fun d => 48 <= d <= 57) ds.
Proof.
  induction ds as [| d ds IH]; [constructor |]. cbn [forallb]. intros H.
  apply andb_prop in H as [Hd Hds]. constructor; [apply digit_range, Hd | apply IH, Hds].
Qed.

Lemma plain_pretty (z : Z) : plain (pretty z).
Proof.
  unfold plain. destruct (pretty_Z_bytes z) as (ds & Hd & _ & _ & Hb & _).
  rewrite Hb. apply digits_range in Hd.
  assert (Hds : Forall (fun b => 33 <= b < 128) ds)
    by (eapply Forall_impl; [exact Hd |]; cbn; intros; lia).
  destruct (z <? 0); [constructor; [unfold MINUS; lia | exact Hds] | exact Hds].
Qed.

Lemma scan_digits (ds : list Z) :
  forallb PyFloat.is_digit ds = true -> ds ≠ [] ->
  ∀ prev acc, scan prev ds acc = Some ((acc ++ ds)%list, []).
Proof.
  induction ds as [| d ds IH]; [congruence |]. cbn [forallb]. intros H _ prev acc.
  apply andb_prop in H as [Hd Hds]. cbn [scan]. rewrite Hd.
  destruct ds as [| d' ds].
  - cbn [scan]. pose proof (digit_range _ Hd) as Hr.
    replace (d =? UNDERSCORE) with false
      by (symmetry; apply Z.eqb_neq; unfold UNDERSCORE; lia).
    reflexivity.
  - rewrite (IH Hds ltac:(discriminate)). rewrite <- app_assoc. reflexivity.
Qed.

Lemma to_ascii_plain (l : list Z) :
  Forall (fun b => 33 <= b < 128) l -> to_ascii <$> l = l.
Proof.
  induction 1 as [| b l Hb _ IH]; [reflexivity |]. cbn [fmap list_fmap].
  rewrite IH. unfold to_ascii.
  replace (b <? 128) with true by (symmetry; apply Z.ltb_lt; lia). reflexivity.
Qed.

(** [int(str(z)) = z], for a number short enough to be under the
    limit on the digits whatever the limit is. *)
Lemma int_pretty (z : Z) : Z.abs z < 10 ^ 640 -> int (pretty z) = Some z.
Proof.
  intros Hz. unfold int. pose proof (plain_pretty z) as Hplain.
  rewrite (codepoints_plain _ Hplain), (to_ascii_plain _ Hplain).
  destruct (pretty_Z_bytes z) as (ds & Hd & Hn & Hv & Hb & Hl). rewrite Hb.
  specialize (Hl Hz).
  assert (Hlong : too_many_digits (length ds) = false).
  { unfold too_many_digits. replace (640 <? length ds)%nat with false; [reflexivity |].
    symmetry. apply Nat.ltb_ge. exact Hl. }
  destruct ds as [| d ds]; [congruence |].
  pose proof Hd as Hd'. cbn [forallb] in Hd'. apply andb_prop in Hd' as [Hd0 _].
  pose proof (digit_range _ Hd0) as Hr.
  assert (Hsp : is_c_space d = false).
  { unfold is_c_space. rewrite (proj2 (Z.leb_gt d 13)) by lia.
    rewrite (proj2 (Z.eqb_neq d 32)) by lia. rewrite andb_false_r. reflexivity. }
  assert (Hbody : ∀ negative : bool,
            match d :: ds with
            | c :: _ =>
                if c =? UNDERSCORE then None
                else
                  match scan 0 (d :: ds) [] with
                  | Some (ds0, rest) =>
                      if bool_decide (ds0 = []) then None
                      else if too_many_digits (length ds0) then None
                      else if bool_decide (skip_spaces rest = [])
                           then Some (if negative then - PyFloat.digits_val ds0
                                      else PyFloat.digits_val ds0)
                           else None
                  | None => None
                  end
            | [] => None
            end = Some (if negative then - Z.abs z else Z.abs z)).
  { intros negative.
    replace (d =? UNDERSCORE) with false
      by (symmetry; apply Z.eqb_neq; unfold UNDERSCORE; lia).
    rewrite (scan_digits _ Hd Hn). cbn [app].
    rewrite (bool_decide_eq_false_2 _ Hn), Hlong. cbn [skip_spaces].
    rewrite bool_decide_eq_true_2 by reflexivity. rewrite Hv. reflexivity. }
  unfold int_of_ascii. destruct (Z.ltb_spec z 0) as [Hneg | Hpos].
  - cbn [skip_spaces]. replace (is_c_space MINUS) with false by reflexivity.
    replace (MINUS =? 43) with false by reflexivity.
    replace (MINUS =? 45) with true by reflexivity.
    rewrite (Hbody true). f_equal. lia.
  - cbn [skip_spaces]. rewrite Hsp.
    rewrite (proj2 (Z.eqb_neq d 43)) by lia. rewrite (proj2 (Z.eqb_neq d 45)) by lia.
    rewrite (Hbody false). f_equal. lia.
Qed.

(** [split] of a text without the separator, and of one that goes on
    after a separator. *)
Definition free_of (sep : ascii) (s : string) : Prop :=
  Forall (fun a => a ≠ sep) (list_ascii_of_string s).

Lemma split_aux_free sep acc s :
  free_of sep s -> split_aux sep acc s = [String.rev acc +:+ s].
Proof.
  unfold free_of. revert acc. induction s as [| a s IH]; intros acc H.
  - cbn [split_aux]. unfold String.rev. rewrite rev_app_append. reflexivity.
  - cbn [list_ascii_of_string] in H. inversion H as [| ? ? Ha Hs]; subst.
    cbn [split_aux]. destruct (Ascii.eqb_spec a sep) as [-> | _]; [congruence |].
    rewrite (IH _ Hs). unfold String.rev. cbn [String.rev_app].
    rewrite !rev_app_append. reflexivity.
Qed.

Lemma split_aux_app sep acc s rest :
  free_of sep s ->
  split_aux sep acc (s +:+ String sep rest)
  = (String.rev acc +:+ s) :: split_aux sep "" rest.
Proof.
  unfold free_of. revert acc. induction s as [| a s IH]; intros acc H.
  - change ("" +:+ String sep rest) with (String sep rest).
    cbn [split_aux]. rewrite Ascii.eqb_refl.
    unfold String.rev. rewrite rev_app_append. reflexivity.
  - cbn [list_ascii_of_string] in H. inversion H as [| ? ? Ha Hs]; subst.
    rewrite append_cons. cbn [split_aux].
    destruct (Ascii.eqb_spec a sep) as [-> | _]; [congruence |].
    rewrite (IH _ Hs). unfold String.rev. cbn [String.rev_app].
    rewrite !rev_app_append. reflexivity.
Qed.

(** [sep.join(items).split(sep)] gives the items back. *)
Lemma split_concat sep (items : list string) :
  items ≠ [] -> Forall (free_of sep) items ->
  split sep (String.concat (String sep "") items) = items.
Proof.
  intros Hne Hfree. unfold split.
  induction Hfree as [| x items Hx Hitems IH]; [congruence |].
  destruct items as [| y items].
  - cbn [String.concat]. rewrite (split_aux_free _ _ _ Hx). reflexivity.
  - change (String.concat (String sep "") (x :: y :: items))
      with (x +:+ String sep (String.concat (String sep "") (y :: items))).
    rewrite (split_aux_app _ _ _ _ Hx), IH by discriminate. reflexivity.
Qed.

Lemma free_of_plain_digits (z : Z) : free_of ","%char (pretty z).
Proof.
  unfold free_of. destruct (pretty_Z_bytes z) as (ds & Hd & _ & _ & Hb & _).
  apply digits_range in Hd.
  assert (Hall : Forall (fun b => b ≠ 44) (PyStr.bytes (pretty z))).
  { rewrite Hb. assert (Hds : Forall (fun b => b ≠ 44) ds)
      by (eapply Forall_impl; [exact Hd |]; cbn; intros; lia).
    destruct (z <? 0); [constructor; [discriminate | exact Hds] | exact Hds]. }
  revert Hall. generalize (pretty z). intros s. induction s as [| a s IH]; intros H.
  - constructor.
  - cbn [PyStr.bytes] in H. inversion H as [| ? ? Ha Hs]; subst.
    cbn [list_ascii_of_string]. constructor; [| apply IH, Hs].
    intros ->. apply Ha. reflexivity.
Qed.

Lemma pretty_not_empty (z : Z) : pretty z ≠ "".
Proof.
  destruct (pretty_Z_bytes z) as (ds & _ & Hn & _ & Hb & _). intros He.
  rewrite He in Hb. cbn [PyStr.bytes] in Hb. destruct (z <? 0); [discriminate | congruence].
Qed.

(** The numbers that are under the limit on the digits of [int]
    whatever the limit. *)
Definition short (z : Z) : Prop := Z.abs z < 10 ^ 640.

Lemma ints_pretty (ids : list Z) : Forall short ids -> ints (pretty <$> ids) = Ok ids.
Proof.
  induction 1 as [| z ids Hz _ IH]; [reflexivity |].
  cbn [fmap list_fmap ints]. rewrite (strip_plain _ (plain_pretty z)).
  rewrite (bool_decide_eq_false_2 _ (pretty_not_empty z)).
  rewrite (int_pretty z Hz), IH. reflexivity.
Qed.

Lemma plain_concat (items : list string) :
  Forall plain items -> plain (String.concat "," items).
Proof.
  unfold plain. induction 1 as [| x items Hx Hitems IH]; [constructor |].
  destruct items as [| y items]; [exact Hx |].
  change (String.concat "," (x :: y :: items))
    with (x +:+ String ","%char (String.concat "," (y :: items))).
  rewrite bytes_app. apply Forall_app_2; [exact Hx |].
  cbn [PyStr.bytes]. constructor; [cbn; lia | exact IH].
Qed.

(** A list of identifiers written the usual way is read back as it
    was written. *)
Lemma parse_ids_concat (ids : list Z) :
  Forall short ids -> parse_ids (String.concat "," (pretty <$> ids)) = Ok ids.
Proof.
  intros Hs. unfold parse_ids. cbv zeta.
  destruct ids as [| z ids]; [reflexivity |].
  assert (Hplain : plain (String.concat "," (pretty <$> z :: ids))).
  { apply plain_concat. apply Forall_fmap. apply Forall_forall.
    intros x _. apply plain_pretty. }
  rewrite (strip_plain _ Hplain).
  assert (Hne : String.concat "," (pretty <$> z :: ids) ≠ "").
  { cbn [fmap list_fmap]. destruct (pretty <$> ids) as [| y l] eqn:E.
    - cbn [String.concat]. apply pretty_not_empty.
    - change (String.concat "," (pretty z :: y :: l))
        with (pretty z +:+ String ","%char (String.concat "," (y :: l))).
      pose proof (pretty_not_empty z) as Hz. destruct (pretty z); [congruence | discriminate]. }
  rewrite (bool_decide_eq_false_2 _ Hne).
  rewrite (split_concat ","%char); [apply ints_pretty, Hs | discriminate |].
  apply Forall_fmap. apply Forall_forall. intros x _. apply free_of_plain_digits.
Qed.

(** X21: The settings are read back as they were written: with a token and
    a backend address that are not blank, an allow-list that is not
    empty and the two lists written as numbers between commas, and no
    port set, the module loads, with the token and the addresses
    stripped, the two lists as they were written (the owners may be
    none) and the port 8080. *)
Theorem load_reads_the_lists_back (env : gmap string string) (users owners : list Z) :
  users ≠ [] ->
  Forall short users -> Forall short owners ->
  PyStr.strip (getenv env "BOT_TOKEN" "") ≠ "" ->
  PyStr.strip (getenv env "SCRIPT_URL" "") ≠ "" ->
  env !! "USER_TG_IDS" = Some (String.concat "," (pretty <$> users)) ->
  env !! "OWNER_IDS" = Some (String.concat "," (pretty <$> owners)) ->
  env !! "PORT" = None ->
  load env
  = Ok (Settings (PyStr.strip (getenv env "BOT_TOKEN" ""))
                 (PyStr.strip (getenv env "SCRIPT_URL" ""))
                 users owners
                 (PyStr.strip (getenv env "WEBHOOK_URL" ""))
                 8080
                 (PyStr.strip (getenv env "WEBHOOK_PATH" ""))).
Proof.
  intros Hne Hu Ho Htoken Hurl Husers Howners Hport. unfold load. cbv zeta.
  assert (H1 : getenv env "USER_TG_IDS" "" = String.concat "," (pretty <$> users))
    by (unfold getenv; rewrite Husers; reflexivity).
  assert (H2 : getenv env "OWNER_IDS" "" = String.concat "," (pretty <$> owners))
    by (unfold getenv; rewrite Howners; reflexivity).
  assert (H3 : getenv env "PORT" "8080" = "8080")
    by (unfold getenv; rewrite Hport; reflexivity).
  rewrite H1, H2, H3.
  rewrite (parse_ids_concat _ Hu), (parse_ids_concat _ Ho).
  replace (int "8080") with (Some 8080) by reflexivity.
  rewrite (bool_decide_eq_false_2 _ Htoken), (bool_decide_eq_false_2 _ Hurl),
    (bool_decide_eq_false_2 _ Hne).
  reflexivity.
Qed.

End Interpreter.

End Config.

(** * Runs of a configured bot

    A bot with two users on the allow-list, [7], who is an owner, and
    [8], who is not; a backend that answers every request with the same
    data object, which lists the categories; and a [random.choice] that
    always draws the first phrase. *)

Definition ALLOWED : list Z := [7; 8].
Definition OWNERS : list Z := [7].

Definition sample_categories : data :=
  Data (<["payment_types" := ["Cash"; "QR"]]>
          (<["incomes" := ["Services"]]> {[ "expenses" := ["Tools"; "Rent"] ]}))
       "".

Definition backend_ok (_ : list (gmap string value)) (_ : gmap string value) : response :=
  Json true None (Some sample_categories).


(** A backend whose body is no JSON, and one that refuses with the very
    words the gateway uses for a body that is no JSON. *)
Definition backend_not_json (_ : list (gmap string value)) (_ : gmap string value) : response :=
  NotJson "<html>".

Definition backend_mimic (_ : list (gmap string value)) (_ : gmap string value) : response :=
  Json false (Some NOT_JSON) None.

Definition first_phrase (_ : nat) : nat := 0%nat.

Definition play (backend : list (gmap string value) -> gmap string value -> response)
    (us : list update) : bot :=
  process_updates ALLOWED OWNERS backend first_phrase us initial.

Lemma play_reachable backend us :
  reachable ALLOWED OWNERS backend first_phrase (play backend us).
Proof. apply reachable_process_updates, reachable_initial. Qed.

(** The owner's expense, as far as the category, and the employee's
    income, up to the comment. *)
Definition owner_to_amount : list update := expense_to_amount 7 1 2.

Definition income_to_comment : list update :=
  Update 8 <$>
    [ Command "start" 1; Callback "menu:add" 2; Callback "type:income" 2;
      Callback "inccat:0" 2; TextMsg "3000" 3 ].

(** ** C1 *)

Lemma expense_flow_stops_at_the_amount_witness :
  let b4 := play backend_ok owner_to_amount in
  let b5 := process_update ALLOWED OWNERS backend_ok first_phrase
              (Update 7 (TextMsg "2500" 3)) b4 in
  (amount_received ALLOWED (Update 7 (TextMsg "2500" 3))
     (user_data_of b4 7, the_world b4)).2
  = Raise (NameError "ST_PAYMENT_TYPE") ∧
  expense_stopped 7 2 ["QR"] initial b5 ∧
  play backend_ok (expense_flow 7 1 2 3) = b5 ∧
  conversations (play backend_ok (expense_flow 7 1 2 3)) !! 7 = Some ST_AMOUNT ∧
  Forall non_add (calls (the_world (play backend_ok (expense_flow 7 1 2 3)))).
Proof.
  cbv zeta.
  destruct (expense_flow_stops_at_the_amount ALLOWED OWNERS backend_ok first_phrase
              initial 7 sample_categories ["Rent"] ["QR"] 1 2 3
              ltac:(apply list_elem_of_here)
              ltac:(apply list_elem_of_here)
              ltac:(split; intros; eexists; try eexists; reflexivity)
              ltac:(vm_compute; reflexivity)
              ltac:(vm_compute; reflexivity)) as (H1 & H2 & H3 & _).
  cbv zeta in H1, H2, H3.
  split; [exact H1 |]. split; [exact H2 |]. split; [exact H3 |].
  destruct H2 as (_ & (reads & Hcalls & Hreads) & Hc & _).
  unfold play at 1 2. rewrite H3. split; [exact Hc |].
  rewrite Hcalls. exact Hreads.
Defined.

(** ** C2 *)

(** The employee's income, with its comment, and the draft it leaves. *)
Definition employee_income : list update :=
  (income_to_comment ++ [Update 8 (TextMsg "Acme LLC" 4)])%list.

Definition services_for_3000 : gmap string value :=
  income_draft "Services" (PyFloat.of_Z 3000) "Acme LLC".



(** ** C3 *)

(** C3, the claim as the spec words it, fails: the owner's expense
    reaches the state that waits for the amount, and there a back
    input is taken by no handler and changes nothing. *)
Lemma back_is_not_handled_in_amount :
  let b := play backend_ok owner_to_amount in
  reachable ALLOWED OWNERS backend_ok first_phrase b ∧
  conversations b !! 7 = Some ST_AMOUNT ∧
  check_update (Some ST_AMOUNT) (Callback "back:menu" 2) = None ∧
  process_update ALLOWED OWNERS backend_ok first_phrase
    (Update 7 (Callback "back:menu" 2)) b = b.
Proof.
  cbv zeta. split; [apply play_reachable |].
  split; [vm_compute; reflexivity |].
  split; [vm_compute; reflexivity |].
  vm_compute; reflexivity.
Qed.

(** The owner at the categories of an expense goes back to the choice
    of the kind; in the comment the same payload is taken by no
    handler. *)
Lemma back_is_handled_where_listed_witness :
  let b := play backend_ok (take 3 owner_to_amount) in
  conversations b !! 7 = Some ST_EXP_CATEGORY ∧
  check_update (Some ST_EXP_CATEGORY) (Callback "back:choose_type" 2) = Some H_back_router ∧
  conversations (process_update ALLOWED OWNERS backend_ok first_phrase
                   (Update 7 (Callback "back:choose_type" 2)) b) !! 7
  = Some ST_ADD_CHOOSE_TYPE ∧
  check_update (Some ST_COMMENT) (Callback "back:choose_type" 2) = None.
Proof.
  cbv zeta.
  assert (Hc : conversations (play backend_ok (take 3 owner_to_amount)) !! 7
               = Some ST_EXP_CATEGORY) by (vm_compute; reflexivity).
  pose proof (back_is_handled_where_listed ALLOWED OWNERS backend_ok first_phrase
                ST_EXP_CATEGORY "back:choose_type" 2 ltac:(vm_compute; reflexivity)) as H1.
  pose proof (back_is_handled_where_listed ALLOWED OWNERS backend_ok first_phrase
                ST_COMMENT "back:choose_type" 2 ltac:(vm_compute; reflexivity)) as H2.
  destruct (proj1 H1 ltac:(unfold back_states; apply list_elem_of_further,
                           list_elem_of_here)) as [Hcheck Hlead].
  destruct (Hlead _ 7 Hc) as (_ & Hfree & _). cbv zeta in Hfree.
  split; [exact Hc |]. split; [exact Hcheck |].
  split; [exact (Hfree ltac:(discriminate) ltac:(discriminate)) |].
  apply (proj2 H2). unfold no_back_states. apply list_elem_of_further, list_elem_of_here.
Defined.

(** ** C5 *)

Lemma blank_income_comment_is_rejected_witness :
  let b := play backend_ok income_to_comment in
  let b' := process_update ALLOWED OWNERS backend_ok first_phrase
              (Update 8 (TextMsg "  " 4)) b in
  conversations b !! 8 = Some ST_COMMENT ∧
  conversations b' !! 8 = Some ST_COMMENT ∧
  tx_of (user_data_of b' 8) !! "comment" = None.
Proof.
  cbv zeta.
  assert (Hc : conversations (play backend_ok income_to_comment) !! 8 = Some ST_COMMENT)
    by (vm_compute; reflexivity).
  split; [exact Hc |].
  destruct (blank_income_comment_is_rejected ALLOWED OWNERS backend_ok first_phrase
              (play backend_ok income_to_comment) 8 "  " 4
              ltac:(apply list_elem_of_further, list_elem_of_here)
              ltac:(vm_compute; reflexivity)
              ltac:(vm_compute; reflexivity)) as [_ H].
  destruct (H Hc ltac:(discriminate)) as (H1 & _ & H3 & _).
  split; [exact H1 |].
  unfold tx_of. rewrite H3. vm_compute; reflexivity.
Defined.

(** ** C6 *)

(** C6, the claim as the spec words it, fails. The employee, in the
    Menu, sends the payload of the cash account: the edit of the
    balance opens with no alert, and the amount sent next is posted to
    the backend as the new balance, in the employee's name. And the
    employee, choosing the kind of a transaction, sends the payload of
    the back button of the analysis: the conversation is in the
    periods of the analysis, with their keyboard shown and no
    alert. *)
Lemma non_owner_reaches_owner_only_states :
  let b := play backend_ok [Update 8 (Command "start" 1)] in
  let b1 := process_update ALLOWED OWNERS backend_ok first_phrase
              (Update 8 (Callback "balance:cash" 1)) b in
  let b2 := process_update ALLOWED OWNERS backend_ok first_phrase
              (Update 8 (TextMsg "100" 2)) b1 in
  let c := process_update ALLOWED OWNERS backend_ok first_phrase
             (Update 8 (Callback "menu:add" 1)) b in
  let c1 := process_update ALLOWED OWNERS backend_ok first_phrase
              (Update 8 (Callback "back:analysis_periods" 1)) c in
  is_owner OWNERS 8 = false ∧
  reachable ALLOWED OWNERS backend_ok first_phrase b2 ∧
  reachable ALLOWED OWNERS backend_ok first_phrase c1 ∧
  conversations b !! 8 = Some ST_MENU ∧
  conversations b1 !! 8 = Some ST_BALANCE_EDIT ∧
  outbox (the_world b1)
  = (outbox (the_world b)
       ++ [(8, answer None false);
           (8, edit_message_text 1 (BalancePrompt "cash") None)])%list ∧
  calls (the_world b2) !! 1%nat
  = Some (posted (<["payment_type" := VStr "cash"]>
                    (<["amount" := VFloat (PyFloat.of_Z 100)]> (cmd "set_balance"))) 8) ∧
  conversations c !! 8 = Some ST_ADD_CHOOSE_TYPE ∧
  conversations c1 !! 8 = Some ST_ANALYSIS_PERIOD ∧
  outbox (the_world c1)
  = (outbox (the_world c)
       ++ [(8, answer None false);
           (8, edit_message_text 1 (Lit ANALYSIS_PROMPT) (Some kb_analysis_periods))])%list.
Proof.
  cbv zeta.
  split; [vm_compute; reflexivity |].
  split; [do 2 apply reachable_step; apply play_reachable |].
  split; [do 2 apply reachable_step; apply play_reachable |].
  repeat split; vm_compute; reflexivity.
Qed.

Lemma role_is_asked_for_in_the_menu_only_witness :
  let b := play backend_ok [Update 8 (Command "start" 1)] in
  let b' := process_update ALLOWED OWNERS backend_ok first_phrase
              (Update 8 (Callback "menu:balance" 1)) b in
  let b'' := process_update ALLOWED OWNERS backend_ok first_phrase
               (Update 8 (Callback ("balance:" +:+ "qr") 1)) b in
  conversations b' !! 8 = Some ST_MENU ∧
  calls (the_world b') = calls (the_world b) ∧
  last (outbox (the_world b')) = Some (8, answer (Some ACCESS_DENIED) true) ∧
  conversations b'' !! 8 = Some ST_BALANCE_EDIT.
Proof.
  cbv zeta.
  destruct (role_is_asked_for_in_the_menu_only ALLOWED OWNERS backend_ok first_phrase
              (play backend_ok [Update 8 (Command "start" 1)]) 8 1)
    as (Hgate & Hbalance & _).
  destruct (Hgate "menu:balance"
              (play_reachable _ _)
              ltac:(vm_compute; reflexivity)
              ltac:(vm_compute; reflexivity)
              ltac:(apply list_elem_of_further, list_elem_of_here))
    as (_ & H2 & _ & H4 & H5).
  destruct (Hbalance "qr"
              ltac:(vm_compute; reflexivity)
              ltac:(apply list_elem_of_further, list_elem_of_here))
    as (H6 & _).
  split; [exact H2 |]. split; [exact H4 |].
  split; [rewrite H5; vm_compute; reflexivity | exact H6].
Defined.

(** ** C7 *)

(** C7, the claim as the spec words it, fails: a body that is no JSON
    and a refusal of the backend can reach the caller as the same
    exception, with the same text. *)
Lemma gateway_errors_coincide :
  let s := (no_user_data, initial_world) in
  gas_request backend_not_json (cmd "get_categories") 7 s
  = gas_request backend_mimic (cmd "get_categories") 7 s
  ∧ (gas_request backend_mimic (cmd "get_categories") 7 s).2
    = Raise (RuntimeError NOT_JSON).
Proof. cbv zeta. split; vm_compute; reflexivity. Qed.

(** ** C8 *)

(** The owner's income, with its comment. *)
Definition owner_income : list update :=
  Update 7 <$>
    [ Command "start" 1; Callback "menu:add" 2; Callback "type:income" 2;
      Callback "inccat:0" 2; TextMsg "3000" 3; TextMsg "Acme LLC" 4 ].

(** C8, the claim as the spec words it, fails: after her income the
    owner opens the analysis and picks the week; the finished draft
    and the analysis period are then both in her session. *)
Lemma draft_and_period_are_both_set :
  let b := play backend_ok
             (owner_income
                ++ [Update 7 (Callback "menu:analysis" 5);
                    Update 7 (Callback "aperiod:week" 5)])%list in
  reachable ALLOWED OWNERS backend_ok first_phrase b ∧
  conversations (play backend_ok owner_income) !! 7 = Some ST_MENU ∧
  ud_tx (user_data_of b 7) = Some services_for_3000 ∧
  ud_analysis_period (user_data_of b 7) = Some "week".
Proof.
  cbv zeta. split; [apply play_reachable |].
  repeat split; vm_compute; reflexivity.
Qed.

(** ** C9 *)

Lemma five_is_outside : 5 ∉ ALLOWED.
Proof.
  unfold ALLOWED. intros H.
  repeat (apply elem_of_cons in H as [H | H]; [discriminate H |]).
  apply elem_of_nil in H. exact H.
Qed.

(** C9, the claim as the spec words it, fails: the press of a button
    by a user who is not on the allow-list is answered with nothing,
    not with the denial. *)
Lemma outsider_button_is_not_answered :
  (5 ∉ ALLOWED) ∧
  outbox (the_world (process_update ALLOWED OWNERS backend_ok first_phrase
                       (Update 5 (Callback "menu:add" 1)) initial)) = [].
Proof.
  split; [exact five_is_outside | vm_compute; reflexivity].
Qed.

Lemma outsider_is_denied_witness :
  let b' := process_update ALLOWED OWNERS backend_ok first_phrase
              (Update 5 (Command "start" 1)) initial in
  conversations b' = ∅ ∧
  outbox (the_world b') = [(5, reply_text (Lit DENY_TEXT) None)].
Proof.
  cbv zeta.
  destruct (outsider_is_denied ALLOWED OWNERS backend_ok first_phrase initial
              (Update 5 (Command "start" 1)) (reachable_initial _ _ _ _)
              five_is_outside) as (H1 & _ & _ & H4).
  split; [exact H1 | exact H4].
Defined.

(** ** C10 *)

Lemma income_payment_type_is_category_witness :
  let b := play backend_ok (take 2 income_to_comment) in
  let b' := process_updates ALLOWED OWNERS backend_ok first_phrase
              (income_flow 8 0 "3000" "Acme LLC" 2 3 4) b in
  let request := income_request 8 "Services" (PyFloat.of_Z 3000) "Acme LLC" in
  b' = play backend_ok employee_income ∧
  request !! "category" = Some (VStr "Services") ∧
  request !! "payment_type" = Some (VStr "Services") ∧
  ∃ reads,
    calls (the_world b')
    = (calls (the_world b) ++ posted (cmd "get_categories") 8 :: request :: reads)%list
    ∧ Forall non_add reads.
Proof.
  cbv zeta. split; [vm_compute; reflexivity |].
  destruct (proj1 (income_payment_type_is_category ALLOWED OWNERS backend_ok first_phrase)
              (play backend_ok (take 2 income_to_comment)) 8 None sample_categories
              ["Services"] 0%nat "Services" "3000" (PyFloat.of_Z 3000) "Acme LLC" 2 3 4
              ltac:(apply list_elem_of_further, list_elem_of_here)
              ltac:(vm_compute; reflexivity)
              ltac:(reflexivity)
              ltac:(vm_compute; reflexivity)
              ltac:(reflexivity)
              ltac:(vm_compute; reflexivity)
              ltac:(vm_compute; discriminate)) as (Hcat & Hpay & _ & Hcalls).
  cbv zeta in Hcat, Hpay, Hcalls.
  replace (PyStr.strip "Acme LLC") with "Acme LLC" in Hcat, Hpay, Hcalls
    by (vm_compute; reflexivity).
  split; [exact Hcat |]. split; [exact Hpay | exact Hcalls].
Defined.

(** * More runs of the configured bot *)

(** The owner before a category is chosen, before the amount is
    written and after it, and in the special reports; the employee
    before an income category is chosen, and in the Menu. *)
Definition owner_at_categories : bot := play backend_ok (take 3 owner_to_amount).
Definition owner_at_amount : bot := play backend_ok owner_to_amount.
Definition owner_after_the_amount : bot :=
  play backend_ok (owner_to_amount ++ [Update 7 (TextMsg "2500" 3)])%list.
Definition employee_at_categories : bot := play backend_ok (take 3 income_to_comment).
Definition employee_in_menu : bot := play backend_ok [Update 8 (Command "start" 1)].
Definition owner_at_special_reports : bot :=
  play backend_ok
       (Update 7 <$> [Command "start" 1; Callback "menu:analysis" 2;
                      Callback "aperiod:special" 2]).

(** A backend that answers until it has taken an [add], and is silent
    from then on. *)
Definition backend_silent_after_add (h : list (gmap string value)) (p : gmap string value)
    : response :=
  if existsb (fun q => bool_decide (q !! "cmd" = Some (VStr "add"))) h
  then NoResponse else backend_ok h p.

Lemma expense_button_selects_its_category_witness :
  let d := "expcat:" +:+ pretty 1%nat in
  Button "Rent" d
    ∈ concat (kb_expense_categories (cached (user_data_of owner_at_categories 7) "expenses")) ∧
  let b' := process_update ALLOWED OWNERS backend_ok first_phrase
              (Update 7 (Callback d 2)) owner_at_categories in
  conversations b' !! 7 = Some ST_AMOUNT ∧
  tx_of (user_data_of b' 7)
  = <["category" := VStr "Rent"]>
      (<["type" := VStr EXPENSE]> (tx_of (user_data_of owner_at_categories 7))) ∧
  calls (the_world b') = calls (the_world owner_at_categories) ∧
  outbox (the_world b')
  = (outbox (the_world owner_at_categories)
       ++ [(7, answer None false); (7, edit_message_text 2 AmountPrompt None)])%list.
Proof.
  apply (expense_button_selects_its_category ALLOWED OWNERS backend_ok first_phrase
           owner_at_categories 7 1 "Rent" 2); vm_compute; reflexivity.
Defined.

Lemma income_button_selects_its_category_witness :
  let d := "inccat:" +:+ pretty 0%nat in
  [Button "Services" d]
    ∈ kb_income_categories (cached (user_data_of employee_at_categories 8) "incomes") ∧
  let b' := process_update ALLOWED OWNERS backend_ok first_phrase
              (Update 8 (Callback d 2)) employee_at_categories in
  conversations b' !! 8 = Some ST_AMOUNT ∧
  tx_of (user_data_of b' 8)
  = <["payment_type" := VStr "Services"]>
      (<["category" := VStr "Services"]>
         (<["type" := VStr INCOME]> (tx_of (user_data_of employee_at_categories 8)))) ∧
  calls (the_world b') = calls (the_world employee_at_categories) ∧
  outbox (the_world b')
  = (outbox (the_world employee_at_categories)
       ++ [(8, answer None false); (8, edit_message_text 2 AmountPrompt None)])%list.
Proof.
  apply (income_button_selects_its_category ALLOWED OWNERS backend_ok first_phrase
           employee_at_categories 8 0 "Services" 2); vm_compute; reflexivity.
Defined.

Lemma conversation_never_ends_witness :
  is_Some (conversations
             (process_update ALLOWED OWNERS backend_ok first_phrase
                (Update 7 (TextMsg "hello" 9)) owner_at_categories) !! 7).
Proof.
  apply (conversation_never_ends ALLOWED OWNERS backend_ok first_phrase
           owner_at_categories (Update 7 (TextMsg "hello" 9)) 7 ST_EXP_CATEGORY).
  - apply play_reachable.
  - vm_compute; reflexivity.
Defined.

Lemma unused_states_are_never_entered_witness :
  conversations owner_after_the_amount !! 7 = Some ST_AMOUNT ∧
  conversations owner_after_the_amount !! 7 ≠ Some ST_EXP_PAYMENT_TYPE ∧
  conversations owner_after_the_amount !! 7 ≠ Some ST_BALANCE_CHOOSE_TYPE.
Proof.
  split; [vm_compute; reflexivity |].
  apply (unused_states_are_never_entered ALLOWED OWNERS backend_ok first_phrase
           owner_after_the_amount 7).
  apply play_reachable.
Defined.

Lemma conversation_moves_along_the_table_witness :
  ∃ st', conversations
           (process_update ALLOWED OWNERS backend_ok first_phrase
              (Update 7 (Callback "back:choose_type" 2)) owner_at_categories) !! 7
         = Some st' ∧
         (st' = ST_EXP_CATEGORY ∨ st' = ST_MENU ∨ st' ∈ successors ST_EXP_CATEGORY).
Proof.
  apply (conversation_moves_along_the_table ALLOWED OWNERS backend_ok first_phrase
           owner_at_categories (Update 7 (Callback "back:choose_type" 2)) ST_EXP_CATEGORY).
  - apply play_reachable.
  - vm_compute; reflexivity.
Defined.

Lemma requests_carry_an_allowed_user_witness :
  ∃ user, user ∈ ALLOWED ∧
          posted (cmd "get_categories") 7 !! "user_id" = Some (VInt user).
Proof.
  apply (requests_carry_an_allowed_user ALLOWED OWNERS backend_ok first_phrase
           owner_at_categories (posted (cmd "get_categories") 7)).
  - apply play_reachable.
  - apply list_elem_of_lookup. exists 2%nat. vm_compute; reflexivity.
Defined.

Lemma start_starts_over_witness :
  let b' := process_update ALLOWED OWNERS backend_ok first_phrase
              (Update 7 (Command "start" 9)) owner_after_the_amount in
  user_data_of b' 7 = no_user_data ∧
  conversations b' !! 7 = Some ST_MENU ∧
  last (outbox (the_world b'))
  = Some (7, reply_text (MainScreenOwner sample_categories sample_categories)
                        (Some kb_main_owner)).
Proof.
  cbv zeta.
  pose proof (start_starts_over ALLOWED OWNERS backend_ok first_phrase
                owner_after_the_amount 7 9 ltac:(apply list_elem_of_here)) as H.
  cbv zeta in H. destruct H as [Hud H].
  match type of H with
  | match ?x with _ => _ end =>
      replace x
        with (@Ok (text * keyboard)
                (MainScreenOwner sample_categories sample_categories, kb_main_owner))
        in H by (vm_compute; reflexivity)
  end.
  destruct H as (Hc & _ & Hl). auto.
Defined.

Lemma button_past_the_list_selects_nothing_witness :
  let b' := process_update ALLOWED OWNERS backend_ok first_phrase
              (Update 7 (Callback ("expcat" +:+ String ":"%char (pretty 5%nat)) 2))
              owner_at_categories in
  conversations b' = conversations owner_at_categories ∧
  (∀ v, user_data_of b' v = user_data_of owner_at_categories v) ∧
  calls (the_world b') = calls (the_world owner_at_categories) ∧
  outbox (the_world b')
  = (outbox (the_world owner_at_categories)
       ++ [(7, answer None false); (7, reply_text (Lit SOMETHING_WENT_WRONG) None)])%list.
Proof.
  apply (button_past_the_list_selects_nothing ALLOWED OWNERS backend_ok first_phrase
           owner_at_categories 7 ST_EXP_CATEGORY "expcat" "expenses" 5 2).
  - apply list_elem_of_here.
  - vm_compute; reflexivity.
  - vm_compute; reflexivity.
Defined.

Lemma amount_received_stores_the_amount_witness :
  tx_of (user_data_of owner_at_amount 7) !! "type" = Some (VStr EXPENSE) ∧
  parse_amount "2 500" = Some (PyFloat.of_Z 2500) ∧
  post (amount_received ALLOWED (Update 7 (TextMsg "2 500" 3)))
       (user_data_of owner_at_amount 7, the_world owner_at_amount)
       (fun s' r =>
          calls s'.2 = calls (the_world owner_at_amount) ∧
          ud_tx s'.1
          = Some (<["amount" := VFloat (PyFloat.of_Z 2500)]>
                    (tx_of (user_data_of owner_at_amount 7))) ∧
          r = Raise (NameError "ST_PAYMENT_TYPE")).
Proof.
  split; [vm_compute; reflexivity |]. split; [vm_compute; reflexivity |].
  eapply post_mono.
  - apply (amount_received_stores_the_amount ALLOWED 7 "2 500" 3).
    apply list_elem_of_here.
  - intros s' r [Hcalls H].
    replace (parse_amount "2 500") with (Some (PyFloat.of_Z 2500)) in H
      by (vm_compute; reflexivity).
    destruct H as [Htx H].
    replace (bool_decide (tx_of (user_data_of owner_at_amount 7) !! "type"
                          = Some (VStr EXPENSE))) with true in H
      by (vm_compute; reflexivity).
    destruct H as [Hr _]. auto.
Defined.

Lemma unknown_special_report_fails_witness :
  let u := Update 7 (Callback ("special:" +:+ "worst") 2) in
  let b' := process_update ALLOWED OWNERS backend_ok first_phrase u owner_at_special_reports in
  (special_reports OWNERS backend_ok u
     (user_data_of owner_at_special_reports 7, the_world owner_at_special_reports)).2
  = Raise UnboundLocalError ∧
  conversations b' = conversations owner_at_special_reports ∧
  user_data_of b' 7
  = set_working_message_id None (user_data_of owner_at_special_reports 7) ∧
  calls (the_world b') = calls (the_world owner_at_special_reports) ∧
  last (outbox (the_world b')) = Some (7, reply_text (Lit SOMETHING_WENT_WRONG) None).
Proof.
  apply (unknown_special_report_fails ALLOWED OWNERS backend_ok first_phrase
           owner_at_special_reports 7 "worst" 2).
  - vm_compute; reflexivity.
  - apply (bool_decide_eq_false_1 ("worst" ∈ special_kinds)). vm_compute; reflexivity.
Defined.

Lemma saved_draft_stays_when_the_menu_fails_witness :
  let b := play backend_silent_after_add income_to_comment in
  let b' := process_update ALLOWED OWNERS backend_silent_after_add first_phrase
              (Update 8 (Callback "comment:skip" 2)) b in
  let t := <["comment" := VStr ""]> (tx_of (user_data_of b 8)) in
  t !! "type" = Some (VStr INCOME) ∧
  conversations b !! 8 = Some ST_COMMENT ∧
  conversations b' !! 8 = Some ST_COMMENT ∧
  ud_tx (user_data_of b' 8) = Some t ∧
  calls (the_world b')
  = (calls (the_world b)
       ++ [posted (add_payload t) 8; posted (first_menu_read OWNERS 8) 8])%list.
Proof.
  cbv zeta.
  split; [vm_compute; reflexivity |]. split; [vm_compute; reflexivity |].
  pose proof (saved_draft_stays_when_the_menu_fails ALLOWED OWNERS
                backend_silent_after_add first_phrase
                (play backend_silent_after_add income_to_comment) 8 "comment:skip" 2
                (PyFloat.of_Z 3000) TimeoutError
                ltac:(vm_compute; reflexivity)
                ltac:(vm_compute; reflexivity)
                ltac:(vm_compute; reflexivity)
                ltac:(exists sample_categories; vm_compute; reflexivity)
                ltac:(vm_compute; reflexivity)) as H.
  cbv zeta in H. destruct H as (H1 & H2 & H3 & _). auto.
Defined.

Lemma balance_edit_asks_for_no_role_witness :
  is_owner OWNERS 8 = false ∧
  let b1 := process_update ALLOWED OWNERS backend_ok first_phrase
              (Update 8 (Callback ("balance:" +:+ "cash") 2)) employee_in_menu in
  let b2 := process_update ALLOWED OWNERS backend_ok first_phrase
              (Update 8 (TextMsg "50к" 3)) b1 in
  let request := posted (<["payment_type" := VStr "cash"]>
                           (<["amount" := VFloat (PyFloat.of_Z 50000)]> (cmd "set_balance")))
                        8 in
  conversations b1 !! 8 = Some ST_BALANCE_EDIT ∧
  ∃ after, calls (the_world b2) = (calls (the_world employee_in_menu) ++ request :: after)%list.
Proof.
  split; [vm_compute; reflexivity |].
  apply (balance_edit_asks_for_no_role ALLOWED OWNERS backend_ok first_phrase
           employee_in_menu 8 "cash" 2 "50к" 3 (PyFloat.of_Z 50000)).
  - apply list_elem_of_further, list_elem_of_here.
  - vm_compute; reflexivity.
  - apply list_elem_of_here.
  - vm_compute; reflexivity.
Defined.



Lemma parse_amount_needs_a_digit_witness : parse_amount "руб, к" = None.
Proof.
  apply parse_amount_needs_a_digit. unfold digitless. vm_compute.
  repeat constructor.
Defined.

(** ** A configuration *)

(** An interpreter whose Unicode database knows no digit outside
    ASCII, with the usual limit of 4300 digits, and an environment
    with the two lists. *)
Definition no_decimal (_ : Z) : option Z := None.

Definition sample_env : gmap string string :=
  <["BOT_TOKEN" := " 123:abc "]>
    (<["SCRIPT_URL" := "https://script.example/exec"]>
       (<["USER_TG_IDS" := "7,8"]> {[ "OWNER_IDS" := "7" ]})).

Lemma load_reads_the_lists_back_witness :
  Config.load no_decimal 4300 sample_env
  = Ok (Config.Settings "123:abc" "https://script.example/exec" [7; 8] [7] "" 8080 "").
Proof.
  etransitivity.
  - apply (Config.load_reads_the_lists_back no_decimal 4300 sample_env [7; 8] [7]).
    + discriminate.
    + repeat constructor.
    + repeat constructor.
    + vm_compute. discriminate.
    + vm_compute. discriminate.
    + vm_compute; reflexivity.
    + vm_compute; reflexivity.
    + vm_compute; reflexivity.
  - vm_compute; reflexivity.
Defined.
